(** * Session analytics of the progress page

    A shallow embedding of [src/app/pages/progress/progress.page.ts]
    (class [ProgressPage]) and of the parts of [FirebaseService] it calls
    (the offline cache and the game-record calls), together with the
    properties of the session analytics pipeline.

    Conventions of the embedding.
    - JavaScript numbers that hold counts, seconds or epoch milliseconds are
      integers ([Z]); the quotients of [calculateOverallStats] and the call
      of [Math.round] are computed in IEEE-754 binary64 (the kernel's
      primitive floats), as the engine computes them, an integer entering
      them as the double nearest to it.  The sums are integer sums: they are
      the engine's for the counts of [countsAddExactly] (not negative, sums
      up to 2^53), and the properties of the sums are stated for such
      counts.
    - Strings are sequences of code units below 256.
    - [Date] objects are instants (milliseconds since the epoch).  A stored
      timestamp is a number or a string that parses to an instant; an
      Invalid Date is not represented, and the properties that compute with
      session dates are stated for the dates of [ordinaryDates].
    - Local time is UTC plus a constant offset [tz] (the source's log
      messages name GMT+8, a zone without daylight saving).  Module [Zoned]
      gives the same date functions over any time zone, with an offset that
      depends on the instant; at a fixed offset the two coincide.
    - A local-storage entry holds the JSON text of an array of session
      records, which is what the code writes there, or text that
      [JSON.parse] rejects.
    - [await] is sequential: no other callback runs inside a method.
    - The drawing of the chart and the insight messages are left out. *)

From Stdlib Require Import Bool ZArith List Ascii String Lia.
From Stdlib Require Import PrimFloat FloatOps SpecFloat DecimalString.
From Stdlib Require DecimalZ DecimalPos.
From stdpp Require Import base gmap strings list.
Import ListNotations.

Local Open Scope Z_scope.

(** ** JavaScript numbers *)

Module JSNumber.

(** The Number an integer denotes: the double nearest to it, ties to the
    even mantissa, an infinity past the largest double (exact up to 2^53). *)
Definition ofZ (z : Z) : float := SF2Prim (binary_normalize prec emax z 0 false).

(** [Math.round]: the integer nearest to [x], ties towards +infinity;
    NaN, the infinities and the numbers that are already integers are
    returned as they are; a negative number that rounds to zero gives -0. *)
Definition Math_round (x : float) : float :=
  match Prim2SF x with
  | S754_finite s m e =>
      if 0 <=? e then x
      else
        let d := 2 ^ (- e) in
        let n := (2 * (if s then Z.neg m else Z.pos m) + d) / (2 * d) in
        if (n =? 0) && s then PrimFloat.opp PrimFloat.zero else ofZ n
  | _ => x
  end.

(** [a || 0] on a numeric field that may be missing: [undefined], [null]
    and [0] all give [0]. *)
Definition orZero (o : option Z) : Z :=
  match o with
  | Some z => z
  | None => 0
  end.

End JSNumber.

Import JSNumber.

(** ** Session records *)

(** A timestamp as it is stored: an epoch-millisecond number (what
    [ProgressPage.saveGameSession] writes) or an ISO-8601 string (what
    [FirebaseService.saveGameSession] writes), here with the instant the
    string denotes. *)
Inductive TimeValue : Type :=
  | TimeNumber (ms : Z)
  | TimeIso (ms : Z).

Record Session : Type := mkSession {
  category : option string;
  totalQuestions : option Z;
  correctAnswers : option Z;
  skipped : option Z;
  totalTime : option Z;
  timestamp : option TimeValue;
  createdAt : option TimeValue
}.

Record OverallStats : Type := mkStats {
  accuracy : float;
  avgTimePerCard : float;
  totalCards : Z;
  skippedCards : Z
}.

Definition zeroStats : OverallStats :=
  {| accuracy := PrimFloat.zero; avgTimePerCard := PrimFloat.zero;
     totalCards := 0; skippedCards := 0 |}.

(** [sessions.reduce((sum, s) => sum + (s.field || 0), 0)] *)
Definition reduceField (field : Session -> option Z) (sessions : list Session) : Z :=
  fold_left (fun sum s => sum + orZero (field s)) sessions 0.

(** The object literal that [calculateOverallStats] assigns to
    [this.overallStats]. *)
Definition overallStatsOf (sessions : list Session) : OverallStats :=
  match sessions with
  | [] => {| accuracy := PrimFloat.zero; avgTimePerCard := PrimFloat.zero;
             totalCards := 0; skippedCards := 0 |}
  | _ =>
      let totalQuestions := reduceField totalQuestions sessions in
      let totalCorrect := reduceField correctAnswers sessions in
      let totalTime := reduceField totalTime sessions in
      let totalSkipped := reduceField skipped sessions in
      {| accuracy :=
           if 0 <? totalQuestions
           then Math_round (PrimFloat.mul
                              (PrimFloat.div (ofZ totalCorrect) (ofZ totalQuestions))
                              (ofZ 100))
           else PrimFloat.zero;
         avgTimePerCard :=
           if 0 <? totalQuestions
           then Math_round (PrimFloat.div (ofZ totalTime) (ofZ totalQuestions))
           else PrimFloat.zero;
         totalCards := totalQuestions;
         skippedCards := totalSkipped |}
  end.

(** ** JavaScript strings *)

Module JSString.

(** [String.prototype.toLowerCase] on one code unit below 256: the Latin
    capitals A-Z and the capitals of the Latin-1 supplement (all of
    U+00C0-U+00DE but the multiplication sign) move up by 32. *)
Definition lowerChar (c : ascii) : ascii :=
  let n := Z.of_N (N_of_ascii c) in
  if ((65 <=? n) && (n <=? 90)) || ((192 <=? n) && (n <=? 222) && negb (n =? 215))
  then ascii_of_N (Z.to_N (n + 32))
  else c.

Fixpoint toLowerCase (s : string) : string :=
  match s with
  | EmptyString => EmptyString
  | String c r => String (lowerChar c) (toLowerCase r)
  end.

(** The class [\s] below 256: tab, line feed, vertical tab, form feed,
    carriage return, space and the no-break space. *)
Definition isWhiteSpace (c : ascii) : bool :=
  let n := Z.of_N (N_of_ascii c) in
  ((9 <=? n) && (n <=? 13)) || (n =? 32) || (n =? 160).

(** [s.replace(/\s+/g, '-')]: every maximal run of white space becomes
    one hyphen.  [inRun] tells that the previous code unit was white
    space. *)
Fixpoint replaceRuns (inRun : bool) (s : string) : string :=
  match s with
  | EmptyString => EmptyString
  | String c r =>
      if isWhiteSpace c
      then (if inRun then replaceRuns true r else String "-" (replaceRuns true r))
      else String c (replaceRuns false r)
  end.

Definition replaceWhiteSpace (s : string) : string := replaceRuns false s.

(** [String(n)] for an integer. *)
Definition ofInt (n : Z) : string := NilZero.string_of_int (Z.to_int n).

(** [s.padStart(2, '0')] *)
Definition padStart2 (s : string) : string :=
  match String.length s with
  | O => "00"
  | S O => String "0" s
  | _ => s
  end.

End JSString.

Import JSString.

(** ** Category membership *)

(** [isSessionInCategory(session, catKey)] *)
Definition isSessionInCategory (session : Session) (catKey : string) : bool :=
  let c := replaceWhiteSpace
             (toLowerCase (match category session with Some s => s | None => "" end)) in
  if String.eqb catKey "category-match"
  then String.eqb c "category-match" || String.eqb c "categorymatch"
       || String.eqb c "category match"
  else String.eqb c catKey || String.eqb c ("name-that-memory-" ++ catKey).

Inductive CanonicalCategory : Type :=
  | People | Places | Objects | CategoryMatch | Other.

(** The category list [cats] of [getChartData], each key with the
    canonical category it stands for. *)
Definition cats : list (string * CanonicalCategory) :=
  [("people", People); ("places", Places); ("objects", Objects);
   ("category-match", CategoryMatch)].

(** The category of a session: the first entry of [cats] whose series the
    session is counted in, and the catch-all when it is counted in none. *)
Definition classifySession (session : Session) : CanonicalCategory :=
  match find (fun cat => isSessionInCategory session (fst cat)) cats with
  | Some cat => snd cat
  | None => Other
  end.

Definition withCategory (raw : option string) : Session :=
  {| category := raw; totalQuestions := None; correctAnswers := None;
     skipped := None; totalTime := None; timestamp := None; createdAt := None |}.

(** [classify raw]: the category of any session labelled [raw] (the other
    fields play no part, see [classifySession_category]). *)
Definition classify (raw : string) : CanonicalCategory :=
  classifySession (withCategory (Some raw)).

(** The spellings [isSessionInCategory] compares the normalised label
    with, per canonical category. *)
Definition spellings (cat : CanonicalCategory) : list string :=
  match cat with
  | People => ["people"; "name-that-memory-people"]
  | Places => ["places"; "name-that-memory-places"]
  | Objects => ["objects"; "name-that-memory-objects"]
  | CategoryMatch => ["category-match"; "categorymatch"; "category match"]
  | Other => []
  end.

Definition normalise (raw : string) : string :=
  replaceWhiteSpace (toLowerCase raw).

(** ** JavaScript dates *)

Module JSDate.

Definition msPerDay : Z := 86400000.

(** [Day(t)] and [TimeWithinDay(t)] of ECMA-262. *)
Definition Day (t : Z) : Z := t / msPerDay.
Definition TimeWithinDay (t : Z) : Z := t mod msPerDay.

(** The proleptic Gregorian date (year, month 1-12, day) of a day number
    counted from 1970-01-01, and back. *)
Definition civilFromDays (z : Z) : Z * Z * Z :=
  let z := z + 719468 in
  let era := z / 146097 in
  let doe := z - era * 146097 in
  let yoe := (doe - doe / 1460 + doe / 36524 - doe / 146096) / 365 in
  let doy := doe - (365 * yoe + yoe / 4 - yoe / 100) in
  let mp := (5 * doy + 2) / 153 in
  let d := doy - (153 * mp + 2) / 5 + 1 in
  let m := if mp <? 10 then mp + 3 else mp - 9 in
  (yoe + era * 400 + (if m <=? 2 then 1 else 0), m, d).

Definition daysFromCivil (y m d : Z) : Z :=
  let y := if m <=? 2 then y - 1 else y in
  let era := y / 400 in
  let yoe := y - era * 400 in
  let doy := (153 * (if 2 <? m then m - 3 else m + 9) + 2) / 5 + d - 1 in
  let doe := yoe * 365 + yoe / 4 - yoe / 100 + doy in
  era * 146097 + doe - 719468.

(** [MakeDay(year, month, date)]: [month] counts from 0 and may lie
    outside 0-11, [date] may lie outside the month. *)
Definition MakeDay (year month date : Z) : Z :=
  daysFromCivil (year + month / 12) (month mod 12 + 1) 1 + date - 1.

Definition MakeTime (hour min sec ms : Z) : Z :=
  hour * 3600000 + min * 60000 + sec * 1000 + ms.

Section LocalTime.
(** Local time is UTC + [tz] milliseconds. *)
Variable tz : Z.

Definition localDay (t : Z) : Z := Day (t + tz).

Definition getFullYear (t : Z) : Z := fst (fst (civilFromDays (localDay t))).
Definition getMonth (t : Z) : Z := snd (fst (civilFromDays (localDay t))) - 1.
Definition getDate (t : Z) : Z := snd (civilFromDays (localDay t)).
(** 0 is Sunday; 1970-01-01 was a Thursday. *)
Definition getDay (t : Z) : Z := (localDay t + 4) mod 7.

(** [new Date(year, month, date, hours, minutes, seconds, ms)]; a year
    from 0 to 99 stands for 1900 + year. *)
Definition newDate (year month date hour min sec ms : Z) : Z :=
  let year := if (0 <=? year) && (year <=? 99) then 1900 + year else year in
  MakeDay year month date * msPerDay + MakeTime hour min sec ms - tz.

(** [d.setDate(date)] *)
Definition setDate (t date : Z) : Z :=
  MakeDay (getFullYear t) (getMonth t) date * msPerDay
  + TimeWithinDay (t + tz) - tz.

(** [d.setHours(hour, min, sec, ms)] *)
Definition setHours (t hour min sec ms : Z) : Z :=
  localDay t * msPerDay + MakeTime hour min sec ms - tz.

(** [`${d.getFullYear()}-${String(d.getMonth() + 1).padStart(2, '0')}-${String(d.getDate()).padStart(2, '0')}`] *)
Definition localDateKey (t : Z) : string :=
  ofInt (getFullYear t) ++ "-" ++ padStart2 (ofInt (getMonth t + 1))
  ++ "-" ++ padStart2 (ofInt (getDate t)).

(** [`${d.getFullYear()}-${String(d.getMonth() + 1).padStart(2, '0')}`] *)
Definition localMonthKey (t : Z) : string :=
  ofInt (getFullYear t) ++ "-" ++ padStart2 (ofInt (getMonth t + 1)).

Definition weekdayShort (t : Z) : string :=
  nth (Z.to_nat (getDay t)) ["Sun"; "Mon"; "Tue"; "Wed"; "Thu"; "Fri"; "Sat"] "".

Definition monthShort (t : Z) : string :=
  nth (Z.to_nat (getMonth t))
      ["Jan"; "Feb"; "Mar"; "Apr"; "May"; "Jun";
       "Jul"; "Aug"; "Sep"; "Oct"; "Nov"; "Dec"] "".

(** [d.toLocaleDateString('en-US', { weekday: 'short', month: 'short', day: 'numeric' })] *)
Definition labelWeekdayMonthDay (t : Z) : string :=
  weekdayShort t ++ ", " ++ monthShort t ++ " " ++ ofInt (getDate t).

(** [d.toLocaleDateString('en-US', { month: 'short', day: 'numeric' })] *)
Definition labelMonthDay (t : Z) : string :=
  monthShort t ++ " " ++ ofInt (getDate t).

(** [d.toLocaleDateString('en-US', { month: 'short' })] *)
Definition labelMonth (t : Z) : string := monthShort t.

End LocalTime.

End JSDate.

Import JSDate.

(** ** Time buckets *)

(** [{ key, label, start, end }] *)
Record Bucket : Type := mkBucket {
  key : string;
  label : string;
  start : Z;
  end_ : Z
}.

(** The fields of the page that the analytics read and write.
    [customStartDate] and [customEndDate] hold the instant the picker's
    string denotes, [None] for the empty string. *)
Record ProgressPage : Type := mkPage {
  selectedPeriod : string;
  customStartDate : option Z;
  customEndDate : option Z;
  chartLoaded : bool;
  isLoading : bool;
  isFirebaseConnected : bool;
  dataSource : string;
  lastDataUpdate : Z;
  overallStats : OverallStats
}.

Definition truthyTime (v : TimeValue) : bool :=
  match v with
  | TimeNumber ms => negb (ms =? 0)
  | TimeIso _ => true
  end.

Definition instantOf (v : TimeValue) : Z :=
  match v with
  | TimeNumber ms => ms
  | TimeIso ms => ms
  end.

(** [new Date(session.timestamp || session.createdAt || 0)] *)
Definition sessionDate (session : Session) : Z :=
  match timestamp session with
  | Some v =>
      if truthyTime v then instantOf v
      else match createdAt session with
           | Some w => if truthyTime w then instantOf w else 0
           | None => 0
           end
  | None =>
      match createdAt session with
      | Some w => if truthyTime w then instantOf w else 0
      | None => 0
      end
  end.

(** The indices [0, 1, ..., n - 1] of a counting loop. *)
Definition indices (n : nat) : list Z := map Z.of_nat (seq 0 n).

(** The earliest session date, as both the [week] and the [month] branch
    compute it: [sessions.reduce((earliest, session) => ..., new Date(sessions[0]...))]. *)
Definition earliestSessionOf (first : Session) (sessions : list Session) : Z :=
  fold_left (fun earliest session =>
               let sessionDate := sessionDate session in
               if sessionDate <? earliest then sessionDate else earliest)
            sessions (sessionDate first).

Section Buckets.
Variable tz : Z.
(** The clock: what [new Date()] and [Date.now()] give. *)
Variable now : Z.

(** The single bucket of the current day ([today], and [week] without
    sessions). *)
Definition todayBucket : Bucket :=
  let today := now in
  let startDate := setHours tz today 0 0 0 0 in
  let endDate := setHours tz today 23 59 59 999 in
  {| key := localDateKey tz today; label := labelWeekdayMonthDay tz today;
     start := startDate; end_ := endDate |}.

(** The body of the [week] loop for index [i]. *)
Definition weekBucket (earliestSession i : Z) : Bucket :=
  let dayStart := setHours tz (setDate tz earliestSession (getDate tz earliestSession + i))
                           0 0 0 0 in
  let dayEnd := setHours tz dayStart 23 59 59 999 in
  {| key := localDateKey tz dayStart; label := labelWeekdayMonthDay tz dayStart;
     start := dayStart; end_ := dayEnd |}.

(** The body of the [month] loop for index [i]. *)
Definition monthBucket (earliestSession i : Z) : Bucket :=
  let monthStart := newDate tz (getFullYear tz earliestSession)
                            (getMonth tz earliestSession + i) 1 0 0 0 0 in
  let monthEnd := newDate tz (getFullYear tz earliestSession)
                          (getMonth tz earliestSession + i + 1) 0 23 59 59 999 in
  {| key := localMonthKey tz monthStart; label := labelMonth tz monthStart;
     start := monthStart; end_ := monthEnd |}.

(** [sessionDates.add(localDateKeyAlt)], the set kept in insertion order;
    each key comes with the date it was printed from.  The source skips a
    session whose date is not valid ([isNaN(sessionDate.getTime())]); a
    session date of the embedding is an instant, which passes that test. *)
Definition addDateKey (dates : list (string * (Z * Z * Z))) (session : Session)
  : list (string * (Z * Z * Z)) :=
  let k := localDateKey tz (sessionDate session) in
  if existsb (fun e => String.eqb (fst e) k) dates then dates
  else dates ++ [(k, civilFromDays (localDay tz (sessionDate session)))].

(** [Array.prototype.sort()] on the keys: ascending by code units. *)
Fixpoint insertKey (e : string * (Z * Z * Z)) (sorted : list (string * (Z * Z * Z)))
  : list (string * (Z * Z * Z)) :=
  match sorted with
  | [] => [e]
  | x :: rest =>
      if String.ltb (fst e) (fst x) then e :: x :: rest else x :: insertKey e rest
  end.

Definition sortKeys (l : list (string * (Z * Z * Z))) : list (string * (Z * Z * Z)) :=
  fold_left (fun sorted e => insertKey e sorted) l [].

(** The bucket of one date key in the [all] branch.  [new Date(dateKey)]
    reads a date-only string (years 1000 to 9999) as midnight UTC. *)
Definition allBucket (e : string * (Z * Z * Z)) : Bucket :=
  let '(dateKey, (y, m, d)) := e in
  let date := daysFromCivil y m d * msPerDay in
  {| key := dateKey; label := labelWeekdayMonthDay tz date;
     start := setHours tz date 0 0 0 0; end_ := setHours tz date 23 59 59 999 |}.

(** [while (cur <= end) { ...; cur.setDate(cur.getDate() + 1) }]; the
    loop runs once per day from [cur] to [end], which bounds [fuel]. *)
Fixpoint customLoop (fuel : nat) (cur end' : Z) : list Bucket :=
  match fuel with
  | O => []
  | S fuel' =>
      if cur <=? end' then
        {| key := localDateKey tz cur; label := labelMonthDay tz cur;
           start := cur; end_ := cur + 24 * 3600 * 1000 - 1 |}
        :: customLoop fuel' (setDate tz cur (getDate tz cur + 1)) end'
      else []
  end.

(** The body of the default loop, [i] days before today. *)
Definition defaultBucket (i : Z) : Bucket :=
  let dStart := setHours tz (setDate tz now (getDate tz now - i)) 0 0 0 0 in
  let dEnd := dStart + 24 * 3600 * 1000 - 1 in
  {| key := localDateKey tz dStart; label := labelWeekdayMonthDay tz dStart;
     start := dStart; end_ := dEnd |}.

(** [getChartDateRangeFromSessions(sessions)] *)
Definition getChartDateRangeFromSessions (this : ProgressPage) (sessions : list Session)
  : list Bucket :=
  if String.eqb (selectedPeriod this) "today" then [todayBucket]
  else if String.eqb (selectedPeriod this) "week" then
    match sessions with
    | [] => [todayBucket]
    | first :: _ =>
        let earliestSession := earliestSessionOf first sessions in
        map (weekBucket earliestSession) (indices 8)
    end
  else if String.eqb (selectedPeriod this) "month" then
    match sessions with
    | [] =>
        let monthCursor := newDate tz (getFullYear tz now) (getMonth tz now) 1 0 0 0 0 in
        let year := getFullYear tz monthCursor in
        let month := getMonth tz monthCursor in
        let monthStart := newDate tz year month 1 0 0 0 0 in
        let monthEnd := newDate tz year (month + 1) 0 23 59 59 999 in
        [{| key := localMonthKey tz monthStart; label := labelMonth tz monthStart;
            start := monthStart; end_ := monthEnd |}]
    | first :: _ =>
        let earliestSession := earliestSessionOf first sessions in
        map (monthBucket earliestSession) (indices 5)
    end
  else if String.eqb (selectedPeriod this) "all" then
    map allBucket (sortKeys (fold_left addDateKey sessions []))
  else if String.eqb (selectedPeriod this) "custom" then
    let start := setHours tz (match customStartDate this with Some d => d | None => now end)
                          0 0 0 0 in
    let end' := setHours tz (match customEndDate this with Some d => d | None => now end)
                         23 59 59 999 in
    customLoop (Z.to_nat ((end' - start) / msPerDay + 1)) start end'
  else map defaultBucket (rev (indices 7)).

(** The test of both [groupSessionsIntoBuckets] and
    [filterSessionsByPeriod]: [sessionDate >= start && sessionDate <= end]. *)
Definition within (start' end' : Z) (session : Session) : bool :=
  (start' <=? sessionDate session) && (sessionDate session <=? end').

(** [filterSessionsByPeriod(sessions)] *)
Definition filterSessionsByPeriod (this : ProgressPage) (sessions : list Session)
  : list Session :=
  if String.eqb (selectedPeriod this) "all" then sessions
  else
    let dateBuckets := getChartDateRangeFromSessions this sessions in
    match dateBuckets with
    | [] => []
    | first :: _ =>
        let start' := start first in
        let end' := end_ (List.last dateBuckets first) in
        List.filter (within start' end') sessions
    end.

End Buckets.

(** ** Dates and buckets in a time zone whose offset changes *)

(** The same dates and buckets for any time zone, daylight saving
    included.  The zone is given by [LocalTZA(t, isUTC)] of ECMA-262: the
    offset of local time from UTC in milliseconds, at the instant [t] when
    [isUTC] holds and at the local time [t] otherwise.  The definitions
    above are these at a zone whose offset is fixed (see [fixedOffset]). *)
Module Zoned.

Section LocalTimeZone.
Variable LocalTZA : Z -> bool -> Z.

(** [LocalTime(t)] and [UTC(t)] of ECMA-262. *)
Definition LocalTime (t : Z) : Z := t + LocalTZA t true.
Definition UTC (t : Z) : Z := t - LocalTZA t false.

Definition localDay (t : Z) : Z := Day (LocalTime t).

Definition getFullYear (t : Z) : Z := fst (fst (civilFromDays (localDay t))).
Definition getMonth (t : Z) : Z := snd (fst (civilFromDays (localDay t))) - 1.
Definition getDate (t : Z) : Z := snd (civilFromDays (localDay t)).
Definition getDay (t : Z) : Z := (localDay t + 4) mod 7.

(** [new Date(year, month, date, hours, minutes, seconds, ms)] *)
Definition newDate (year month date hour min sec ms : Z) : Z :=
  let year := if (0 <=? year) && (year <=? 99) then 1900 + year else year in
  UTC (MakeDay year month date * msPerDay + MakeTime hour min sec ms).

(** [d.setDate(date)] *)
Definition setDate (t date : Z) : Z :=
  UTC (MakeDay (getFullYear t) (getMonth t) date * msPerDay
       + TimeWithinDay (LocalTime t)).

(** [d.setHours(hour, min, sec, ms)] *)
Definition setHours (t hour min sec ms : Z) : Z :=
  UTC (localDay t * msPerDay + MakeTime hour min sec ms).

Definition localDateKey (t : Z) : string :=
  ofInt (getFullYear t) ++ "-" ++ padStart2 (ofInt (getMonth t + 1))
  ++ "-" ++ padStart2 (ofInt (getDate t)).

Definition localMonthKey (t : Z) : string :=
  ofInt (getFullYear t) ++ "-" ++ padStart2 (ofInt (getMonth t + 1)).

Definition weekdayShort (t : Z) : string :=
  nth (Z.to_nat (getDay t)) ["Sun"; "Mon"; "Tue"; "Wed"; "Thu"; "Fri"; "Sat"] "".

Definition monthShort (t : Z) : string :=
  nth (Z.to_nat (getMonth t))
      ["Jan"; "Feb"; "Mar"; "Apr"; "May"; "Jun";
       "Jul"; "Aug"; "Sep"; "Oct"; "Nov"; "Dec"] "".

Definition labelWeekdayMonthDay (t : Z) : string :=
  weekdayShort t ++ ", " ++ monthShort t ++ " " ++ ofInt (getDate t).

Definition labelMonthDay (t : Z) : string :=
  monthShort t ++ " " ++ ofInt (getDate t).

Definition labelMonth (t : Z) : string := monthShort t.

(** The clock. *)
Variable now : Z.

Definition todayBucket : Bucket :=
  let today := now in
  let startDate := setHours today 0 0 0 0 in
  let endDate := setHours today 23 59 59 999 in
  {| key := localDateKey today; label := labelWeekdayMonthDay today;
     start := startDate; end_ := endDate |}.

Definition weekBucket (earliestSession i : Z) : Bucket :=
  let dayStart := setHours (setDate earliestSession (getDate earliestSession + i))
                           0 0 0 0 in
  let dayEnd := setHours dayStart 23 59 59 999 in
  {| key := localDateKey dayStart; label := labelWeekdayMonthDay dayStart;
     start := dayStart; end_ := dayEnd |}.

Definition monthBucket (earliestSession i : Z) : Bucket :=
  let monthStart := newDate (getFullYear earliestSession)
                            (getMonth earliestSession + i) 1 0 0 0 0 in
  let monthEnd := newDate (getFullYear earliestSession)
                          (getMonth earliestSession + i + 1) 0 23 59 59 999 in
  {| key := localMonthKey monthStart; label := labelMonth monthStart;
     start := monthStart; end_ := monthEnd |}.

Definition addDateKey (dates : list (string * (Z * Z * Z))) (session : Session)
  : list (string * (Z * Z * Z)) :=
  let k := localDateKey (sessionDate session) in
  if existsb (fun e => String.eqb (fst e) k) dates then dates
  else dates ++ [(k, civilFromDays (localDay (sessionDate session)))].

Definition allBucket (e : string * (Z * Z * Z)) : Bucket :=
  let '(dateKey, (y, m, d)) := e in
  let date := daysFromCivil y m d * msPerDay in
  {| key := dateKey; label := labelWeekdayMonthDay date;
     start := setHours date 0 0 0 0; end_ := setHours date 23 59 59 999 |}.

(** [while (cur <= end) { ...; cur.setDate(cur.getDate() + 1) }]: the end
    of a bucket is 24 hours less a millisecond after its start, whatever the
    length of the local day. *)
Fixpoint customLoop (fuel : nat) (cur end' : Z) : list Bucket :=
  match fuel with
  | O => []
  | S fuel' =>
      if cur <=? end' then
        {| key := localDateKey cur; label := labelMonthDay cur;
           start := cur; end_ := cur + 24 * 3600 * 1000 - 1 |}
        :: customLoop fuel' (setDate cur (getDate cur + 1)) end'
      else []
  end.

Definition defaultBucket (i : Z) : Bucket :=
  let dStart := setHours (setDate now (getDate now - i)) 0 0 0 0 in
  let dEnd := dStart + 24 * 3600 * 1000 - 1 in
  {| key := localDateKey dStart; label := labelWeekdayMonthDay dStart;
     start := dStart; end_ := dEnd |}.

(** [getChartDateRangeFromSessions(sessions)].  The loop of the custom
    period moves [cur] to the next local midnight, forward by an hour at
    least, which bounds its fuel. *)
Definition getChartDateRangeFromSessions (this : ProgressPage) (sessions : list Session)
  : list Bucket :=
  if String.eqb (selectedPeriod this) "today" then [todayBucket]
  else if String.eqb (selectedPeriod this) "week" then
    match sessions with
    | [] => [todayBucket]
    | first :: _ =>
        let earliestSession := earliestSessionOf first sessions in
        map (weekBucket earliestSession) (indices 8)
    end
  else if String.eqb (selectedPeriod this) "month" then
    match sessions with
    | [] =>
        let monthCursor := newDate (getFullYear now) (getMonth now) 1 0 0 0 0 in
        let year := getFullYear monthCursor in
        let month := getMonth monthCursor in
        let monthStart := newDate year month 1 0 0 0 0 in
        let monthEnd := newDate year (month + 1) 0 23 59 59 999 in
        [{| key := localMonthKey monthStart; label := labelMonth monthStart;
            start := monthStart; end_ := monthEnd |}]
    | first :: _ =>
        let earliestSession := earliestSessionOf first sessions in
        map (monthBucket earliestSession) (indices 5)
    end
  else if String.eqb (selectedPeriod this) "all" then
    map allBucket (sortKeys (fold_left addDateKey sessions []))
  else if String.eqb (selectedPeriod this) "custom" then
    let start := setHours (match customStartDate this with Some d => d | None => now end)
                          0 0 0 0 in
    let end' := setHours (match customEndDate this with Some d => d | None => now end)
                         23 59 59 999 in
    customLoop (Z.to_nat ((end' - start) / 3600000 + 1)) start end'
  else map defaultBucket (rev (indices 7)).

(** [filterSessionsByPeriod(sessions)] *)
Definition filterSessionsByPeriod (this : ProgressPage) (sessions : list Session)
  : list Session :=
  if String.eqb (selectedPeriod this) "all" then sessions
  else
    let dateBuckets := getChartDateRangeFromSessions this sessions in
    match dateBuckets with
    | [] => []
    | first :: _ =>
        let start' := start first in
        let end' := end_ (List.last dateBuckets first) in
        List.filter (within start' end') sessions
    end.

End LocalTimeZone.

End Zoned.

(** A zone whose offset from UTC is the same at every instant. *)
Definition fixedOffset (tz : Z) : Z -> bool -> Z := fun _ _ => tz.

(** The zone of New York in 2025: four hours behind UTC from 9 March,
    07:00 UTC, to 2 November, 06:00 UTC, and five hours behind otherwise.  A
    local time that the change of 9 March skips or that of 2 November repeats
    is read with the offset in force before the change. *)
Definition newYork2025 : Z -> bool -> Z :=
  fun t isUTC =>
    let edt := -4 * 3600000 in
    let est := -5 * 3600000 in
    let spring := daysFromCivil 2025 3 9 * msPerDay + 7 * 3600000 in
    let fall := daysFromCivil 2025 11 2 * msPerDay + 6 * 3600000 in
    if isUTC
    then (if (spring <=? t) && (t <? fall) then edt else est)
    else (if (spring + edt <=? t) && (t <? fall + edt) then edt else est).

(** [groupSessionsIntoBuckets(sessions, dateRange)]: the map is first given
    an empty list under every bucket key, then every session is pushed
    onto the list of the first bucket that contains its date. *)
Definition groupSessionsIntoBuckets (sessions : list Session) (dateRange : list Bucket)
  : gmap string (list Session) :=
  let map0 := fold_left (fun m dr => <[key dr := []]> m) dateRange ∅ in
  fold_left
    (fun m s =>
       match find (fun dr => within (start dr) (end_ dr) s) dateRange with
       | Some dr => alter (fun l => l ++ [s]) (key dr) m
       | None => m
       end)
    sessions map0.

(** The series of one category in [getChartData]: for every bucket, the
    accuracy over the sessions of the bucket that belong to the category,
    and [0] when there are none. *)
Definition chartSeries (grouped : gmap string (list Session)) (dateRange : list Bucket)
           (catKey : string) : list float :=
  map (fun dr =>
         let allBucketSessions := match grouped !! key dr with
                                  | Some l => l
                                  | None => []
                                  end in
         let bucketSessions :=
           List.filter (fun s => isSessionInCategory s catKey) allBucketSessions in
         match bucketSessions with
         | [] => PrimFloat.zero
         | _ =>
             let totalCorrect := reduceField correctAnswers bucketSessions in
             let totalQuestions := reduceField totalQuestions bucketSessions in
             if 0 <? totalQuestions
             then Math_round (PrimFloat.mul
                                (PrimFloat.div (ofZ totalCorrect) (ofZ totalQuestions))
                                (ofZ 100))
             else PrimFloat.zero
         end)
      dateRange.

(** ** The world of the page: local storage, the remote store, the clock *)

(** What a local-storage entry holds: the JSON text of an array of session
    records, or text that [JSON.parse] rejects.  Text that parses to a value
    other than an array is not represented: under the keys that are read
    here the code writes arrays only. *)
Inductive StoredText : Type :=
  | JsonRecords (records : list Session)
  | NotJson (text : string).

(** Truthiness of the string a storage entry holds. *)
Definition truthyText (v : StoredText) : bool :=
  match v with
  | JsonRecords _ => true
  | NotJson text => negb (String.eqb text "")
  end.

(** What the methods read but never change: the clock, the signed-in
    user ([auth.currentUser?.uid]), the [userId] entry of local storage, and
    how the remote store answers: [remoteFetch] is the result of the
    game-record query ([None] when it rejects), [remoteWriteOk] tells whether
    a write to the remote store resolves. *)
Record Env : Type := mkEnv {
  tz : Z;
  now : Z;
  currentUser : option string;
  storedUserId : option string;
  remoteFetch : option (list Session);
  remoteWriteOk : bool
}.

(** What the methods change: the page, the game-record entries of local
    storage, the documents added to the remote collections, the stats
    document, and the delays of the repeating timers that are set. *)
Record State : Type := mkState {
  page : ProgressPage;
  localStorage : gmap string StoredText;
  remoteGameRecords : list Session;
  remoteRecentSessions : list Session;
  remoteStats : option OverallStats;
  intervals : list Z
}.

(** A method either returns or throws; what it did to the state before
    throwing stays done. *)
Inductive Outcome (A : Type) : Type :=
  | Returned (a : A)
  | Thrown.
Arguments Returned {A} a.
Arguments Thrown {A}.

Definition M (A : Type) : Type := State -> Outcome A * State.

Definition ret {A} (a : A) : M A := fun s => (Returned a, s).

Definition bind {A B} (c : M A) (k : A -> M B) : M B :=
  fun s =>
    match c s with
    | (Returned a, s') => k a s'
    | (Thrown, s') => (Thrown, s')
    end.

Definition throw {A} : M A := fun s => (Thrown, s).

(** [try { body } catch { handler }] *)
Definition tryCatch {A} (body handler : M A) : M A :=
  fun s =>
    match body s with
    | (Returned a, s') => (Returned a, s')
    | (Thrown, s') => handler s'
    end.

Notation "'let*' x ':=' c1 'in' c2" := (bind c1 (fun x => c2))
  (at level 10, x name, c1 at level 100, c2 at level 200).
Notation "c1 ';;' c2" := (bind c1 (fun _ => c2))
  (at level 100, c2 at level 200, right associativity, only parsing).

(** A call of an [async] method that is not awaited: the caller never sees
    it throw. *)
Definition detached (c : M unit) : M unit := tryCatch c (ret tt).

Definition getPage : M ProgressPage := fun s => (Returned (page s), s).

(** The state with its page, its local storage changed. *)
Definition withPage (f : ProgressPage -> ProgressPage) (s : State) : State :=
  {| page := f (page s); localStorage := localStorage s;
     remoteGameRecords := remoteGameRecords s;
     remoteRecentSessions := remoteRecentSessions s;
     remoteStats := remoteStats s; intervals := intervals s |}.

Definition withItem (k : string) (v : StoredText) (s : State) : State :=
  {| page := page s; localStorage := <[k := v]> (localStorage s);
     remoteGameRecords := remoteGameRecords s;
     remoteRecentSessions := remoteRecentSessions s;
     remoteStats := remoteStats s; intervals := intervals s |}.

Definition modifyPage (f : ProgressPage -> ProgressPage) : M unit :=
  fun s => (Returned tt, withPage f s).

(** [localStorage.getItem(key)] *)
Definition getItem (k : string) : M (option StoredText) :=
  fun s => (Returned (localStorage s !! k), s).

(** [localStorage.setItem(key, value)] *)
Definition setItem (k : string) (v : StoredText) : M unit :=
  fun s => (Returned tt, withItem k v s).

(** [JSON.parse(text)] where an array of records is expected. *)
Definition JSON_parse (v : StoredText) : M (list Session) :=
  match v with
  | JsonRecords records => ret records
  | NotJson _ => throw
  end.

(** [a || b] on what [getItem] returns. *)
Definition orText (a : option StoredText) (b : StoredText) : StoredText :=
  match a with
  | Some v => if truthyText v then v else b
  | None => b
  end.

(** [a || b] on strings that may be missing. *)
Definition orString (a : option string) (b : string) : string :=
  match a with
  | Some v => if String.eqb v "" then b else v
  | None => b
  end.

(** Setters of the page fields. *)
Definition setLoading (v : bool) (p : ProgressPage) : ProgressPage :=
  {| selectedPeriod := selectedPeriod p; customStartDate := customStartDate p;
     customEndDate := customEndDate p; chartLoaded := chartLoaded p;
     isLoading := v; isFirebaseConnected := isFirebaseConnected p;
     dataSource := dataSource p; lastDataUpdate := lastDataUpdate p;
     overallStats := overallStats p |}.

Definition setConnected (v : bool) (p : ProgressPage) : ProgressPage :=
  {| selectedPeriod := selectedPeriod p; customStartDate := customStartDate p;
     customEndDate := customEndDate p; chartLoaded := chartLoaded p;
     isLoading := isLoading p; isFirebaseConnected := v;
     dataSource := dataSource p; lastDataUpdate := lastDataUpdate p;
     overallStats := overallStats p |}.

Definition setDataSource (v : string) (p : ProgressPage) : ProgressPage :=
  {| selectedPeriod := selectedPeriod p; customStartDate := customStartDate p;
     customEndDate := customEndDate p; chartLoaded := chartLoaded p;
     isLoading := isLoading p; isFirebaseConnected := isFirebaseConnected p;
     dataSource := v; lastDataUpdate := lastDataUpdate p;
     overallStats := overallStats p |}.

Definition setLastDataUpdate (v : Z) (p : ProgressPage) : ProgressPage :=
  {| selectedPeriod := selectedPeriod p; customStartDate := customStartDate p;
     customEndDate := customEndDate p; chartLoaded := chartLoaded p;
     isLoading := isLoading p; isFirebaseConnected := isFirebaseConnected p;
     dataSource := dataSource p; lastDataUpdate := v;
     overallStats := overallStats p |}.

Definition setOverallStats (v : OverallStats) (p : ProgressPage) : ProgressPage :=
  {| selectedPeriod := selectedPeriod p; customStartDate := customStartDate p;
     customEndDate := customEndDate p; chartLoaded := chartLoaded p;
     isLoading := isLoading p; isFirebaseConnected := isFirebaseConnected p;
     dataSource := dataSource p; lastDataUpdate := lastDataUpdate p;
     overallStats := v |}.

(** [calculateOverallStats(sessions)] *)
Definition calculateOverallStats (sessions : list Session) (this : ProgressPage)
  : ProgressPage :=
  setOverallStats (overallStatsOf sessions) this.

(** ** FirebaseService: the calls the page makes *)

Section Service.
Variable env : Env.

(** The user part of a cache key:
    [this.getCurrentUser()?.uid || localStorage.getItem('userId') || 'anon']. *)
Definition cacheUid : string :=
  match currentUser env with
  | Some uid => if String.eqb uid "" then orString (storedUserId env) "anon" else uid
  | None => orString (storedUserId env) "anon"
  end.

(** [getCachedData(key, fallback)] *)
Definition getCachedData (k : string) (fallback : list Session) : M (list Session) :=
  tryCatch
    (let cachedKey := (k ++ "_" ++ cacheUid)%string in
     let* cached := getItem cachedKey in
     match cached with
     | Some v => if truthyText v then JSON_parse v else ret fallback
     | None => ret fallback
     end)
    (ret fallback).

(** [cacheData(key, data)] *)
Definition cacheData (k : string) (data : list Session) : M unit :=
  tryCatch
    (let cacheKey := (k ++ "_" ++ cacheUid)%string in
     setItem cacheKey (JsonRecords data))
    (ret tt).

(** [getUserGameSessions(userId?, limitCount?)]: throws without a user
    and when the query rejects. *)
Definition getUserGameSessions (userId : option string) (limitCount : option nat)
  : M (list Session) :=
  match orString userId (orString (currentUser env) "") with
  | EmptyString => throw
  | _ =>
      match remoteFetch env with
      | None => throw
      | Some docs =>
          match limitCount with
          | Some (S n) => ret (firstn (S n) docs)
          | _ => ret docs
          end
      end
  end.

(** [addDoc(collection(..., 'gameRecords'), doc)] *)
Definition addGameRecord (doc : Session) : M unit :=
  if remoteWriteOk env
  then fun s => (Returned tt,
                 {| page := page s; localStorage := localStorage s;
                    remoteGameRecords := remoteGameRecords s ++ [doc];
                    remoteRecentSessions := remoteRecentSessions s;
                    remoteStats := remoteStats s; intervals := intervals s |})
  else throw.

(** [saveRecentSession(session)] *)
Definition saveRecentSession (session : Session) : M unit :=
  match currentUser env with
  | None => throw
  | Some _ =>
      if remoteWriteOk env
      then fun s => (Returned tt,
                     {| page := page s; localStorage := localStorage s;
                        remoteGameRecords := remoteGameRecords s;
                        remoteRecentSessions := remoteRecentSessions s ++ [session];
                        remoteStats := remoteStats s; intervals := intervals s |})
      else throw
  end.

Definition withTimestamp (v : TimeValue) (s : Session) : Session :=
  {| category := category s; totalQuestions := totalQuestions s;
     correctAnswers := correctAnswers s; skipped := skipped s;
     totalTime := totalTime s; timestamp := Some v; createdAt := createdAt s |}.

(** [FirebaseService.saveGameSession(sessionData)] *)
Definition FirebaseService_saveGameSession (sessionData : Session) : M unit :=
  match currentUser env with
  | None => throw
  | Some uid =>
      let gameSession := withTimestamp (TimeIso (now env)) sessionData in
      addGameRecord gameSession ;;
      saveRecentSession gameSession ;;
      tryCatch
        (let localKey := ("gameRecords_" ++ uid)%string in
         let* item := getItem localKey in
         let* localSessions := JSON_parse (orText item (JsonRecords [])) in
         setItem localKey (JsonRecords (localSessions ++ [gameSession])))
        (ret tt)
  end.

(** [updateUserStats(stats)], as far as the stats document's
    [overallStats] goes. *)
Definition updateUserStats (stats : OverallStats) : M unit :=
  match currentUser env with
  | None => throw
  | Some _ =>
      if remoteWriteOk env
      then fun s => (Returned tt,
                     {| page := page s; localStorage := localStorage s;
                        remoteGameRecords := remoteGameRecords s;
                        remoteRecentSessions := remoteRecentSessions s;
                        remoteStats := Some stats; intervals := intervals s |})
      else throw
  end.

End Service.

(** ** ProgressPage: loading, saving, refreshing *)

Section Page.
Variable env : Env.
(** [updateChart()]: the redrawing of the chart, left open. *)
Variable updateChart : M unit.

(** [updateFirebaseStats(sessions)] *)
Definition updateFirebaseStats (sessions : list Session) : M unit :=
  tryCatch
    (let* this := getPage in
     if negb (isFirebaseConnected this) then ret tt
     else updateUserStats env (overallStats this))
    (ret tt).

(** The inner [try]/[catch] of [loadProgressData]: the remote store
    first, then the cache, then the user's entry of local storage. *)
Definition resolveSessions : M (list Session) :=
  tryCatch
    (let* sessions := getUserGameSessions env None None in
     modifyPage (setConnected true) ;;
     modifyPage (setDataSource "Firebase") ;;
     ret sessions)
    (modifyPage (setConnected false) ;;
     let* sessions := getCachedData env "gameRecords" [] in
     match sessions with
     | [] =>
         let localKey := match storedUserId env with
                         | Some uid => if String.eqb uid "" then "gameRecords"
                                       else ("gameRecords_" ++ uid)%string
                         | None => "gameRecords"
                         end in
         let* item := getItem localKey in
         let* legacy := getItem "gameRecords" in
         let raw := orText item (orText legacy (JsonRecords [])) in
         let* sessions := tryCatch (JSON_parse raw) (ret []) in
         modifyPage (setDataSource (match sessions with
                                    | [] => "No Data"
                                    | _ => "Local Storage"
                                    end)) ;;
         ret sessions
     | _ =>
         modifyPage (setDataSource "Cached Data") ;;
         ret sessions
     end).

(** [loadProgressData()] *)
Definition loadProgressData : M unit :=
  tryCatch
    (modifyPage (setLoading true) ;;
     modifyPage (setLastDataUpdate (now env)) ;;
     let* sessions := resolveSessions in
     let* this := getPage in
     let filtered := filterSessionsByPeriod (tz env) (now env) this sessions in
     match filtered with
     | _ :: _ =>
         modifyPage (calculateOverallStats filtered) ;;
         cacheData env "gameRecords" sessions ;;
         tryCatch (updateFirebaseStats sessions) (ret tt)
     | [] =>
         modifyPage (setOverallStats
                       {| accuracy := PrimFloat.zero; avgTimePerCard := PrimFloat.zero;
                          totalCards := 0; skippedCards := 0 |}) ;;
         tryCatch (updateFirebaseStats []) (ret tt)
     end ;;
     modifyPage (setLoading false))
    (modifyPage (setDataSource "Error") ;;
     modifyPage (setLoading false)).

(** The callback of [subscribeToGameRecords]: what a push of the live
    subscription does. *)
Definition onGameRecords (sessions : list Session) : M unit :=
  modifyPage (setLastDataUpdate (now env)) ;;
  modifyPage (setConnected true) ;;
  modifyPage (setDataSource "Firebase (Real-time)") ;;
  let* this := getPage in
  let filtered := filterSessionsByPeriod (tz env) (now env) this sessions in
  modifyPage (calculateOverallStats filtered) ;;
  detached updateChart ;;
  cacheData env "gameRecords" sessions.

(** [ProgressPage.saveGameSession(firebaseService, sessionData, progressPageInstance?)];
    [progressPageInstance] is the instance's [recalculateForCurrentFilter]
    when an instance is passed. *)
Definition saveGameSession (sessionData : Session) (progressPageInstance : option (M unit))
  : M unit :=
  tryCatch
    (let sessionWithTimestamp :=
       withTimestamp (match timestamp sessionData with
                      | Some v => if truthyTime v then v else TimeNumber (now env)
                      | None => TimeNumber (now env)
                      end) sessionData in
     FirebaseService_saveGameSession env sessionWithTimestamp ;;
     let k := match storedUserId env with
              | Some uid => if String.eqb uid "" then "gameRecords"
                            else ("gameRecords_" ++ uid)%string
              | None => "gameRecords"
              end in
     let* item := getItem k in
     let* sessions := JSON_parse (orText item (JsonRecords [])) in
     setItem k (JsonRecords (sessions ++ [sessionWithTimestamp])) ;;
     match progressPageInstance with
     | Some recalculateForCurrentFilter => recalculateForCurrentFilter
     | None => ret tt
     end)
    (ret tt).

(** The delay that [setupAutoRefresh] passes to [setInterval]. *)
Definition autoRefreshDelay : Z := 3000.

(** The callback that [setupAutoRefresh] passes to [setInterval]. *)
Definition autoRefreshTick : M unit :=
  let* this := getPage in
  let timeSinceLastUpdate := now env - lastDataUpdate this in
  if 30000 <? timeSinceLastUpdate then
    detached loadProgressData ;;
    (if chartLoaded this then detached updateChart else ret tt)
  else ret tt.

(** [setupAutoRefresh()]: the repeating timer is recorded by its delay. *)
Definition setupAutoRefresh : M unit :=
  fun s => (Returned tt,
            {| page := page s; localStorage := localStorage s;
               remoteGameRecords := remoteGameRecords s;
               remoteRecentSessions := remoteRecentSessions s;
               remoteStats := remoteStats s;
               intervals := intervals s ++ [autoRefreshDelay] |}).

End Page.

(** ** Notions used to state the properties *)

(** The sum of a numeric field over a list of sessions, a missing field
    counting as [0]. *)
Fixpoint sumField (field : Session -> option Z) (sessions : list Session) : Z :=
  match sessions with
  | [] => 0
  | s :: rest => orZero (field s) + sumField field rest
  end.

(** A session that carries the three fields of the aggregation example. *)
Definition sessionOf (total correct time : Z) : Session :=
  {| category := None; totalQuestions := Some total; correctAnswers := Some correct;
     skipped := None; totalTime := Some time; timestamp := None; createdAt := None |}.

(** The bucket a session is assigned to: the first one, in list order,
    whose closed interval contains the session's date. *)
Definition assignedBucket (dateRange : list Bucket) (s : Session) : option Bucket :=
  find (fun dr => within (start dr) (end_ dr) s) dateRange.

Definition assignedTo (dateRange : list Bucket) (k : string) (s : Session) : bool :=
  match assignedBucket dateRange s with
  | Some dr => String.eqb (key dr) k
  | None => false
  end.

(** A page as it is constructed, before any data is loaded. *)
Definition initialPage (period : string) : ProgressPage :=
  {| selectedPeriod := period; customStartDate := None; customEndDate := None;
     chartLoaded := false; isLoading := true; isFirebaseConnected := false;
     dataSource := "Loading..."; lastDataUpdate := 0; overallStats := zeroStats |}.


(** The start of local calendar day number [day] (days counted from
    1970-01-01 in local time), and the bucket that spans exactly that day. *)
Definition dayStartOf (tz day : Z) : Z := day * msPerDay - tz.

Definition dayBucket (tz day : Z) : Bucket :=
  let t := dayStartOf tz day in
  {| key := localDateKey tz t; label := labelWeekdayMonthDay tz t;
     start := t; end_ := t + msPerDay - 1 |}.

(** A bounded search: [f] holds on [lo], [lo + 1], ..., [lo + n - 1]. *)
Fixpoint allFrom (f : Z -> bool) (n : nat) (lo : Z) : bool :=
  match n with
  | O => true
  | S k => f lo && allFrom f k (lo + 1)
  end.

(** The integer a double is, when it is one. *)
Definition integerValue (x : float) : option Z :=
  match Prim2SF x with
  | S754_zero _ => Some 0
  | S754_finite s m e =>
      let v := if s then Z.neg m else Z.pos m in
      if 0 <=? e then Some (v * 2 ^ e)
      else if v mod 2 ^ (- e) =? 0 then Some (v / 2 ^ (- e))
      else None
  | _ => None
  end.

(** [x] is an integer at distance at most 1/2 from [num / den]. *)
Definition nearestInteger (num den : Z) (x : float) : bool :=
  match integerValue x with
  | Some n => (2 * num - den <=? 2 * den * n) && (2 * den * n <=? 2 * num + den)
  | None => false
  end.

(** The two quotients of [calculateOverallStats], and the checks that they
    are nearest integers: for a question count [q], over every count of
    correct answers up to 30 and every time up to 60 seconds. *)
Definition accuracyQuotient (c q : Z) : float :=
  Math_round (PrimFloat.mul (PrimFloat.div (ofZ c) (ofZ q)) (ofZ 100)).

Definition timeQuotient (t q : Z) : float :=
  Math_round (PrimFloat.div (ofZ t) (ofZ q)).

Definition accuracyRounds (q c : Z) : bool :=
  nearestInteger (100 * c) q (accuracyQuotient c q).

Definition timeRounds (q t : Z) : bool :=
  nearestInteger t q (timeQuotient t q).

Definition accuracyRoundsUpTo30 (q : Z) : bool := allFrom (accuracyRounds q) 31 0.

Definition timeRoundsUpTo60 (q : Z) : bool := allFrom (timeRounds q) 61 0.

(** Three sessions, the earliest on 3 March 2025 at 10:00 in a zone eight
    hours ahead of UTC. *)
Definition gmt8 : Z := 28800000.

Definition sessionAt (t : Z) : Session :=
  {| category := Some "people"; totalQuestions := Some 5; correctAnswers := Some 4;
     skipped := Some 0; totalTime := Some 40; timestamp := Some (TimeNumber t);
     createdAt := None |}.

Definition marchSessions : list Session :=
  [sessionAt (newDate gmt8 2025 2 5 9 0 0 0);
   sessionAt (newDate gmt8 2025 2 3 10 0 0 0);
   sessionAt (newDate gmt8 2025 2 20 18 30 0 0)].

(** The provenance of the records the page shows, and how the page's
    [dataSource] label reads as a tier: a push of the subscription is live
    data; "No Data" is the label of the local-storage step when it found no
    record. *)
Inductive SourceTier : Type := Live | Cached | Fallback.

Definition tierOfDataSource (label' : string) : option SourceTier :=
  if String.eqb label' "Firebase" then Some Live
  else if String.eqb label' "Firebase (Real-time)" then Some Live
  else if String.eqb label' "Cached Data" then Some Cached
  else if String.eqb label' "Local Storage" then Some Fallback
  else if String.eqb label' "No Data" then Some Fallback
  else None.

(** The key of the cache entry for the game records, and the records the
    cache holds (none when the entry is missing or does not parse). *)
Definition cacheKey (env : Env) : string := ("gameRecords" ++ "_" ++ cacheUid env)%string.

Definition cachedRecords (env : Env) (s : State) : list Session :=
  match localStorage s !! cacheKey env with
  | Some (JsonRecords records) => records
  | _ => []
  end.

(** The key of the user's entry of local storage, and the records read
    from it, from the entry without a user, or from neither (none when the
    text read does not parse). *)
Definition durableKey (env : Env) : string :=
  match storedUserId env with
  | Some uid => if String.eqb uid "" then "gameRecords" else ("gameRecords_" ++ uid)%string
  | None => "gameRecords"
  end.

Definition durableRecords (env : Env) (s : State) : list Session :=
  match orText (localStorage s !! durableKey env)
               (orText (localStorage s !! "gameRecords") (JsonRecords [])) with
  | JsonRecords records => records
  | NotJson _ => []
  end.

(** Scenarios: a signed-in user on a device whose cache entry holds one
    earlier record; the remote store unreachable, reachable and empty, and
    reachable but refusing writes. *)
Definition earlierRecord : Session := sessionAt (newDate gmt8 2025 2 3 10 0 0 0).

Definition newRecord : Session :=
  {| category := Some "places"; totalQuestions := Some 10; correctAnswers := Some 8;
     skipped := Some 1; totalTime := Some 100;
     timestamp := Some (TimeNumber (newDate gmt8 2025 2 4 9 0 0 0)); createdAt := None |}.

Definition clock : Z := newDate gmt8 2025 2 4 9 0 5 0.

Definition offlineEnv : Env :=
  {| tz := gmt8; now := clock; currentUser := Some "u1"; storedUserId := Some "u1";
     remoteFetch := None; remoteWriteOk := false |}.

Definition liveEmptyEnv : Env :=
  {| tz := gmt8; now := clock; currentUser := Some "u1"; storedUserId := Some "u1";
     remoteFetch := Some []; remoteWriteOk := true |}.

Definition liveEnv : Env :=
  {| tz := gmt8; now := clock; currentUser := Some "u1"; storedUserId := Some "u1";
     remoteFetch := Some [earlierRecord]; remoteWriteOk := true |}.

Definition stateWith (period : string) (items : gmap string StoredText) : State :=
  {| page := initialPage period; localStorage := items; remoteGameRecords := [];
     remoteRecentSessions := []; remoteStats := None; intervals := [] |}.

Definition deviceState : State :=
  stateWith "all" {[ "gameRecords_u1"%string := JsonRecords [earlierRecord] ]}.

(** A device whose cache entry is empty and whose entry without a user
    holds one record. *)
Definition legacyState : State :=
  stateWith "all" {[ "gameRecords"%string := JsonRecords [earlierRecord] ]}.

(** ** More of ProgressPage: the statistics over time, a new session, recalculation *)

(** [{ allTime, month, today, week }] *)
Record OverTime (A : Type) : Type := mkOverTime {
  allTime : A;
  month : A;
  today : A;
  week : A
}.
Arguments mkOverTime {A}.
Arguments allTime {A}.
Arguments month {A}.
Arguments today {A}.
Arguments week {A}.

(** [calculateAllTimeAccuracy(sessions)] *)
Definition calculateAllTimeAccuracy (sessions : list Session) : float :=
  match sessions with
  | [] => PrimFloat.zero
  | _ =>
      let totalQuestions := reduceField totalQuestions sessions in
      let totalCorrect := reduceField correctAnswers sessions in
      if 0 <? totalQuestions
      then Math_round (PrimFloat.mul
                         (PrimFloat.div (ofZ totalCorrect) (ofZ totalQuestions))
                         (ofZ 100))
      else PrimFloat.zero
  end.

(** [calculateAllTimeAvgTime(sessions)] *)
Definition calculateAllTimeAvgTime (sessions : list Session) : float :=
  match sessions with
  | [] => PrimFloat.zero
  | _ =>
      let totalQuestions := reduceField totalQuestions sessions in
      let totalTime := reduceField totalTime sessions in
      if 0 <? totalQuestions
      then Math_round (PrimFloat.div (ofZ totalTime) (ofZ totalQuestions))
      else PrimFloat.zero
  end.

(** [calculateAllTimeCardsReviewed(sessions)] *)
Definition calculateAllTimeCardsReviewed (sessions : list Session) : Z :=
  match sessions with
  | [] => 0
  | _ => reduceField totalQuestions sessions
  end.

(** [calculateAllTimeCardsSkipped(sessions)] *)
Definition calculateAllTimeCardsSkipped (sessions : list Session) : Z :=
  match sessions with
  | [] => 0
  | _ => reduceField skipped sessions
  end.

Section OverTimeStats.
Variable tz : Z.
Variable now : Z.

(** [new Date(now.getFullYear(), now.getMonth(), now.getDate())] *)
Definition startOfToday : Z :=
  newDate tz (getFullYear tz now) (getMonth tz now) (getDate tz now) 0 0 0 0.

Definition weekAgo : Z := startOfToday - 7 * 24 * 60 * 60 * 1000.

Definition monthAgo : Z := startOfToday - 30 * 24 * 60 * 60 * 1000.

(** [sessions.filter(s => new Date(s.timestamp || s.createdAt || 0) >= since)] *)
Definition sessionsSince (since : Z) (sessions : list Session) : list Session :=
  List.filter (fun s => since <=? sessionDate s) sessions.

(** [calculateAccuracyOverTime(sessions)] *)
Definition calculateAccuracyOverTime (sessions : list Session) : OverTime float :=
  let calculateAccuracy := fun filteredSessions : list Session =>
    match filteredSessions with
    | [] => PrimFloat.zero
    | _ =>
        let totalQuestions := reduceField totalQuestions filteredSessions in
        let totalCorrect := reduceField correctAnswers filteredSessions in
        if 0 <? totalQuestions
        then Math_round (PrimFloat.mul
                           (PrimFloat.div (ofZ totalCorrect) (ofZ totalQuestions))
                           (ofZ 100))
        else PrimFloat.zero
    end in
  {| allTime := calculateAllTimeAccuracy sessions;
     month := calculateAccuracy (sessionsSince monthAgo sessions);
     today := calculateAccuracy (sessionsSince startOfToday sessions);
     week := calculateAccuracy (sessionsSince weekAgo sessions) |}.

(** [calculateAvgTimePerCardOverTime(sessions)] *)
Definition calculateAvgTimePerCardOverTime (sessions : list Session) : OverTime float :=
  let calculateAvgTime := fun filteredSessions : list Session =>
    match filteredSessions with
    | [] => PrimFloat.zero
    | _ =>
        let totalQuestions := reduceField totalQuestions filteredSessions in
        let totalTime := reduceField totalTime filteredSessions in
        if 0 <? totalQuestions
        then Math_round (PrimFloat.div (ofZ totalTime) (ofZ totalQuestions))
        else PrimFloat.zero
    end in
  {| allTime := calculateAllTimeAvgTime sessions;
     month := calculateAvgTime (sessionsSince monthAgo sessions);
     today := calculateAvgTime (sessionsSince startOfToday sessions);
     week := calculateAvgTime (sessionsSince weekAgo sessions) |}.

(** [calculateCardsReviewedOverTime(sessions)] *)
Definition calculateCardsReviewedOverTime (sessions : list Session) : OverTime Z :=
  let calculateCardsReviewed := fun filteredSessions : list Session =>
    reduceField totalQuestions filteredSessions in
  {| allTime := calculateAllTimeCardsReviewed sessions;
     month := calculateCardsReviewed (sessionsSince monthAgo sessions);
     today := calculateCardsReviewed (sessionsSince startOfToday sessions);
     week := calculateCardsReviewed (sessionsSince weekAgo sessions) |}.

(** [calculateCardsSkippedOverTime(sessions)] *)
Definition calculateCardsSkippedOverTime (sessions : list Session) : OverTime Z :=
  let calculateCardsSkipped := fun filteredSessions : list Session =>
    reduceField skipped filteredSessions in
  {| allTime := calculateAllTimeCardsSkipped sessions;
     month := calculateCardsSkipped (sessionsSince monthAgo sessions);
     today := calculateCardsSkipped (sessionsSince startOfToday sessions);
     week := calculateCardsSkipped (sessionsSince weekAgo sessions) |}.

End OverTimeStats.

Section PageMore.
Variable env : Env.
(** [updateChart()], left open as before. *)
Variable updateChart : M unit.

(** [getGameSessionData()]: the remote store, then the cache, then the
    user's entry of local storage; the sessions of the selected period, and
    none when anything throws. *)
Definition getGameSessionData : M (list Session) :=
  tryCatch
    (let* allSessions :=
       tryCatch
         (let* fetched := getUserGameSessions env None None in
          modifyPage (setConnected true) ;;
          modifyPage (setDataSource "Firebase") ;;
          ret fetched)
         (modifyPage (setConnected false) ;;
          let* cached := getCachedData env "gameRecords" [] in
          match cached with
          | [] =>
              let localKey := match storedUserId env with
                              | Some uid => if String.eqb uid "" then "gameRecords"
                                            else ("gameRecords_" ++ uid)%string
                              | None => "gameRecords"
                              end in
              let* item := getItem localKey in
              let raw := orText item (JsonRecords []) in
              tryCatch (JSON_parse raw) (ret [])
          | _ => ret cached
          end) in
     let* this := getPage in
     ret (filterSessionsByPeriod (tz env) (now env) this allSessions))
    (ret []).

(** [recalculateForCurrentFilter()] *)
Definition recalculateForCurrentFilter : M unit :=
  let* sessions := getGameSessionData in
  modifyPage (calculateOverallStats sessions) ;;
  updateChart.

(** [handleNewGameSession(sessionData)]: the new session is put in front
    of the sessions fetched (or cached), and the statistics are recomputed. *)
Definition handleNewGameSession (sessionData : Session) : M unit :=
  tryCatch
    (let* sessions := tryCatch (getUserGameSessions env None None)
                               (getCachedData env "gameRecords" []) in
     let sessions := sessionData :: sessions in
     let* this := getPage in
     let filtered := filterSessionsByPeriod (tz env) (now env) this sessions in
     modifyPage (calculateOverallStats filtered) ;;
     let* this := getPage in
     if chartLoaded this then updateChart else ret tt)
    (ret tt).

End PageMore.

(** ** Notions used to state the further properties *)

(** The bucket of the custom period that spans local day [day]. *)
Definition customDayBucket (tz day : Z) : Bucket :=
  let t := dayStartOf tz day in
  {| key := localDateKey tz t; label := labelMonthDay tz t;
     start := t; end_ := t + msPerDay - 1 |}.

(** A method that leaves the page and local storage as they are. *)
Definition keepsPageAndStorage (c : M unit) : Prop :=
  forall s, page (snd (c s)) = page s /\ localStorage (snd (c s)) = localStorage s.

(** The day number of the first day of the month [i] months after the
    month of instant [e], as the month branch computes it. *)
Definition monthStartDay (tz e i : Z) : Z :=
  MakeDay (getFullYear tz e) (getMonth tz e + i) 1.

(** The records read from the user's entry of local storage alone (none
    when the entry is missing, empty or does not parse). *)
Definition ownRecords (env : Env) (s : State) : list Session :=
  match orText (localStorage s !! durableKey env) (JsonRecords []) with
  | JsonRecords records => records
  | NotJson _ => []
  end.

(** The sessions that [getGameSessionData] and [handleNewGameSession]
    start from: those fetched, or what the given fallback finds. *)
Definition fetchedOr (env : Env) (s : State) (fallback : list Session) : list Session :=
  match fst (getUserGameSessions env None None s) with
  | Returned fetched => fetched
  | Thrown => fallback
  end.

(** The environment at a later (or earlier) reading of the clock. *)
Definition atClock (env : Env) (t : Z) : Env :=
  {| tz := tz env; now := t; currentUser := currentUser env;
     storedUserId := storedUserId env; remoteFetch := remoteFetch env;
     remoteWriteOk := remoteWriteOk env |}.

(** The number a string of two decimal digits stands for. *)
Definition twoDigits (s : string) : Z :=
  match s with
  | String a (String b EmptyString) =>
      (Z.of_N (N_of_ascii a) - 48) * 10 + (Z.of_N (N_of_ascii b) - 48)
  | _ => -1
  end.

(** The entry that the all branch records for a session: its local date
    key, with the date the key is printed from. *)
Definition dateEntryOf (tz : Z) (session : Session) : string * (Z * Z * Z) :=
  (localDateKey tz (sessionDate session),
   civilFromDays (localDay tz (sessionDate session))).

Definition twoDigitsChecked (n : Z) : bool :=
  (twoDigits (padStart2 (ofInt n)) =? n) &&
  Nat.eqb (String.length (padStart2 (ofInt n))) 2.

(** The local day that the all branch computes back from an entry. *)
Definition dayOfEntry (e : string * (Z * Z * Z)) : Z :=
  let '(_, (y, m, d)) := e in daysFromCivil y m d.

(** The bucket of the all branch for the date key of a session on local
    day [day], when local time is [shift] days off at midnight UTC. *)
Definition shiftedDayBucket (tz : Z) (k : string) (day shift : Z) : Bucket :=
  {| key := k; label := labelWeekdayMonthDay tz (day * msPerDay);
     start := dayStartOf tz (day + shift);
     end_ := dayStartOf tz (day + shift) + msPerDay - 1 |}.

(** New York on 2 November 2025, the day the clocks go back: a page whose
    custom range is that day alone and a session at 23:30 of that day. *)
Definition nov2Noon : Z := Zoned.newDate newYork2025 2025 10 2 12 0 0 0.

Definition customNov2 : ProgressPage :=
  {| selectedPeriod := "custom"; customStartDate := Some nov2Noon;
     customEndDate := Some nov2Noon; chartLoaded := false; isLoading := false;
     isFirebaseConnected := false; dataSource := "Loading..."; lastDataUpdate := 0;
     overallStats := zeroStats |}.

Definition lateOnNov2 : Session := sessionAt (Zoned.newDate newYork2025 2025 10 2 23 30 0 0).

(** The first instant of that day, and its last hour: the 25th, which
    starts 24 hours after the day does. *)
Definition nov2Start : Z := Zoned.setHours newYork2025 nov2Noon 0 0 0 0.

Definition lastHourOfNov2 (t : Z) : Prop :=
  nov2Start + 24 * 3600000 <= t <= nov2Start + 25 * 3600000 - 1.

(** The custom range from 3 to 5 March 2025, eight hours ahead of UTC. *)
Definition customMarch : ProgressPage :=
  {| selectedPeriod := "custom";
     customStartDate := Some (newDate gmt8 2025 2 3 0 0 0 0);
     customEndDate := Some (newDate gmt8 2025 2 5 0 0 0 0);
     chartLoaded := false; isLoading := false; isFirebaseConnected := false;
     dataSource := "Loading..."; lastDataUpdate := 0; overallStats := zeroStats |}.

(** A white-space run: one or more code units of the class [\s]; and a
    word: code units none of which is white space. *)
Fixpoint allWhiteSpace (r : string) : bool :=
  match r with
  | EmptyString => true
  | String c rest => isWhiteSpace c && allWhiteSpace rest
  end.

Definition whiteSpaceRun (r : string) : Prop := r <> ""%string /\ allWhiteSpace r = true.

Fixpoint noWhiteSpace (w : string) : bool :=
  match w with
  | EmptyString => true
  | String c rest => negb (isWhiteSpace c) && noWhiteSpace rest
  end.

(** Two adjacent day buckets of March 2025, a bucket that spans both, and
    sessions at the last instant of the first day, at the first instant of
    the second, and one that carries its date in [createdAt] only. *)
Definition march3 : Bucket := dayBucket gmt8 (localDay gmt8 (newDate gmt8 2025 2 3 0 0 0 0)).

Definition march4 : Bucket := dayBucket gmt8 (localDay gmt8 (newDate gmt8 2025 2 4 0 0 0 0)).

Definition bothDays : Bucket :=
  {| key := "both"; label := "Mar 3-4"; start := start march3; end_ := end_ march4 |}.

Definition lastInstantOfMarch3 : Session := sessionAt (newDate gmt8 2025 2 3 23 59 59 999).

Definition firstInstantOfMarch4 : Session := sessionAt (newDate gmt8 2025 2 4 0 0 0 0).

Definition createdOnMarch4 : Session :=
  {| category := Some "places"; totalQuestions := Some 3; correctAnswers := Some 1;
     skipped := Some 0; totalTime := Some 20; timestamp := Some (TimeNumber 0);
     createdAt := Some (TimeIso (newDate gmt8 2025 2 4 12 0 0 0)) |}.



(** ** The inputs for which the embedding is exact *)

(** Counts that the engine adds exactly.  The engine's [reduce] adds
    binary64 numbers, [reduceField] adds integers: the two agree when the
    summed fields are not negative and their sum is at most 2^53, since every
    partial sum is then an integer that binary64 holds exactly.  Past 2^53
    the engine's sum loses the low bits and depends on the order of the
    sessions. *)
Definition countsAddExactly (sessions : list Session) : Prop :=
  forall field : Session -> option Z,
    In field [totalQuestions; correctAnswers; skipped; totalTime] ->
    (forall s, In s sessions -> 0 <= orZero (field s)) /\
    sumField field sessions <= 9007199254740992.

(** Dates that every [Date] computed from them is valid for: a zone
    offset of less than a day and sessions dated in the years 1000 to 9999.
    A [Date] holds at most 8.64e15 milliseconds on either side of the epoch;
    past that, and for a timestamp string that does not parse, it is an
    Invalid Date, all of whose comparisons are false and whose date key
    reads NaN-NaN-NaN. *)
Definition ordinaryDates (tz : Z) (sessions : list Session) : Prop :=
  - msPerDay < tz < msPerDay /\
  forall s, In s sessions -> 1000 <= getFullYear tz (sessionDate s) <= 9999.

(** * Properties *)

(** ** Aggregation *)

Lemma reduce_from (field : Session -> option Z) (sessions : list Session) (a : Z) :
  fold_left (fun sum s => sum + orZero (field s)) sessions a = a + sumField field sessions.
Proof.
  revert a. induction sessions as [|s rest IH]; intros a; simpl.
  - lia.
  - rewrite IH. lia.
Qed.

Lemma reduceField_sumField (field : Session -> option Z) (sessions : list Session) :
  reduceField field sessions = sumField field sessions.
Proof. unfold reduceField. rewrite reduce_from. lia. Qed.

Lemma overallStatsOf_sums (sessions : list Session) :
  overallStatsOf sessions =
  let q := sumField totalQuestions sessions in
  {| accuracy :=
       if 0 <? q
       then Math_round (PrimFloat.mul
                          (PrimFloat.div (ofZ (sumField correctAnswers sessions)) (ofZ q))
                          (ofZ 100))
       else PrimFloat.zero;
     avgTimePerCard :=
       if 0 <? q
       then Math_round (PrimFloat.div (ofZ (sumField totalTime sessions)) (ofZ q))
       else PrimFloat.zero;
     totalCards := q;
     skippedCards := sumField skipped sessions |}.
Proof.
  destruct sessions as [|s rest].
  - reflexivity.
  - unfold overallStatsOf. rewrite !reduceField_sumField. reflexivity.
Qed.

(** The quotient is the engine's: 29 correct answers out of 200 give
    0.145 * 100 = 14.499999999999998 in binary64, which rounds to 14. *)
Remark accuracy_in_binary64 :
  accuracy (overallStatsOf [sessionOf 200 29 0]) = 14%float /\
  accuracy (overallStatsOf [sessionOf 8 1 0]) = 13%float /\
  accuracy (overallStatsOf [sessionOf 5 7 0]) = 140%float.
Proof. repeat split; vm_compute; reflexivity. Qed.

Lemma allFrom_spec (f : Z -> bool) (n : nat) (lo : Z) :
  allFrom f n lo = true -> forall z, lo <= z < lo + Z.of_nat n -> f z = true.
Proof.
  revert lo. induction n as [|k IH]; intros lo H z Hz.
  - simpl in Hz. lia.
  - simpl in H. apply andb_true_iff in H as [Hlo Hrest].
    destruct (Z.eq_dec z lo) as [->|Hne]; [exact Hlo|].
    apply (IH (lo + 1) Hrest). lia.
Qed.

Lemma accuracy_rounding_checked : allFrom accuracyRoundsUpTo30 25 1 = true.
Proof. vm_compute. reflexivity. Qed.

Lemma time_rounding_checked : allFrom timeRoundsUpTo60 25 1 = true.
Proof. vm_compute. reflexivity. Qed.

(** For sessions with 1 to 25 questions in all, at most 30 correct
    answers and at most 60 seconds, the published accuracy is an integer
    nearest to the percentage of correct answers and the published average
    time an integer nearest to the seconds per question. *)
Lemma overallStatsOf_nearest_integers (sessions : list Session) :
  1 <= sumField totalQuestions sessions <= 25 ->
  0 <= sumField correctAnswers sessions <= 30 ->
  0 <= sumField totalTime sessions <= 60 ->
  nearestInteger (100 * sumField correctAnswers sessions)
                 (sumField totalQuestions sessions)
                 (accuracy (overallStatsOf sessions)) = true /\
  nearestInteger (sumField totalTime sessions) (sumField totalQuestions sessions)
                 (avgTimePerCard (overallStatsOf sessions)) = true.
Proof.
  intros Hq Hc Ht. rewrite overallStatsOf_sums. cbv zeta. cbn [accuracy avgTimePerCard].
  destruct (Z.ltb_spec 0 (sumField totalQuestions sessions)) as [_|]; [|lia].
  assert (Hr : 1 <= sumField totalQuestions sessions < 1 + Z.of_nat 25) by lia.
  split.
  - pose proof (allFrom_spec _ _ _ accuracy_rounding_checked _ Hr) as H.
    apply (allFrom_spec _ _ _ H). lia.
  - pose proof (allFrom_spec _ _ _ time_rounding_checked _ Hr) as H.
    apply (allFrom_spec _ _ _ H). lia.
Qed.

Lemma sumField_nonneg (field : Session -> option Z) (sessions : list Session) :
  (forall s, In s sessions -> 0 <= orZero (field s)) /\
  sumField field sessions <= 9007199254740992 ->
  0 <= sumField field sessions.
Proof.
  intros [Hpos _]. induction sessions as [|s rest IH]; simpl; [lia|].
  pose proof (Hpos s (or_introl eq_refl)).
  pose proof (IH (fun x Hx => Hpos x (or_intror Hx))). lia.
Qed.

Lemma overallStats_calculate (sessions : list Session) (this : ProgressPage) :
  overallStats (calculateOverallStats sessions this) = overallStatsOf sessions.
Proof. reflexivity. Qed.

(** C1.  For every list of sessions whose counts the engine adds exactly
    (non-negative fields, sums up to 2^53), [calculateOverallStats] publishes
    cards reviewed = the sum of [totalQuestions], cards skipped = the sum of
    [skipped], accuracy = [Math.round((sum of correctAnswers / sum of
    totalQuestions) * 100)] and average time per card = [Math.round(sum of
    totalTime / sum of totalQuestions)], the quotients taken in binary64 and
    the last two being [0] when the summed [totalQuestions] is not positive.
    For up to 25 questions, 30 correct answers and 60 seconds in all, the
    accuracy is an integer at distance at most 1/2 from the percentage of
    correct answers, and the average time one at distance at most 1/2 from
    the seconds per question.  For the sessions {total 10, correct 8,
    time 100} and {total 5, correct 5, time 50} this is accuracy 87, average
    time 10 and 15 cards reviewed. *)
Theorem C1_calculateOverallStats_sums :
  (forall (sessions : list Session) (this : ProgressPage),
     countsAddExactly sessions ->
     let stats := overallStats (calculateOverallStats sessions this) in
     let q := sumField totalQuestions sessions in
     totalCards stats = q /\
     skippedCards stats = sumField skipped sessions /\
     accuracy stats =
       (if 0 <? q
        then Math_round (PrimFloat.mul
                           (PrimFloat.div (ofZ (sumField correctAnswers sessions)) (ofZ q))
                           (ofZ 100))
        else PrimFloat.zero) /\
     avgTimePerCard stats =
       (if 0 <? q
        then Math_round (PrimFloat.div (ofZ (sumField totalTime sessions)) (ofZ q))
        else PrimFloat.zero)) /\
  (forall (sessions : list Session) (this : ProgressPage),
     countsAddExactly sessions ->
     1 <= sumField totalQuestions sessions <= 25 ->
     sumField correctAnswers sessions <= 30 ->
     sumField totalTime sessions <= 60 ->
     let stats := overallStats (calculateOverallStats sessions this) in
     nearestInteger (100 * sumField correctAnswers sessions)
                    (sumField totalQuestions sessions) (accuracy stats) = true /\
     nearestInteger (sumField totalTime sessions)
                    (sumField totalQuestions sessions) (avgTimePerCard stats) = true) /\
  countsAddExactly [sessionOf 10 8 100; sessionOf 5 5 50] /\
  (forall this : ProgressPage,
     let stats := overallStats
                    (calculateOverallStats [sessionOf 10 8 100; sessionOf 5 5 50] this) in
     accuracy stats = 87%float /\ avgTimePerCard stats = 10%float /\ totalCards stats = 15).
Proof.
  split.
  { intros sessions this _. cbv zeta.
    rewrite overallStats_calculate, overallStatsOf_sums. cbn -[Math_round ofZ Z.ltb].
    repeat split; reflexivity. }
  split.
  { intros sessions this Hexact Hq Hc Ht. cbv zeta. rewrite overallStats_calculate.
    apply overallStatsOf_nearest_integers; [exact Hq| |].
    - split; [|exact Hc]. apply sumField_nonneg.
      apply (Hexact correctAnswers). right. left. reflexivity.
    - split; [|exact Ht]. apply sumField_nonneg.
      apply (Hexact totalTime). right. right. right. left. reflexivity. }
  split.
  { intros field Hfield. cbn [In] in Hfield.
    destruct Hfield as [<-|[<-|[<-|[<-|[]]]]];
      (split; [intros s [<-|[<-|[]]]; cbn; lia|cbn; lia]). }
  intros this. cbv zeta. rewrite overallStats_calculate.
  repeat split; vm_compute; reflexivity.
Qed.

Lemma empty_grouping_lookup (dateRange : list Bucket) (m : gmap string (list Session))
      (k : string) :
  fold_left (fun m dr => <[key dr := []]> m) dateRange m !! k =
  if existsb (String.eqb k) (map key dateRange) then Some [] else m !! k.
Proof.
  revert m. induction dateRange as [|dr rest IH]; intros m; simpl.
  - reflexivity.
  - rewrite IH. destruct (existsb (String.eqb k) (map key rest)) eqn:E.
    + rewrite orb_true_r. reflexivity.
    + rewrite orb_false_r. destruct (String.eqb_spec k (key dr)) as [->|Hne].
      * apply lookup_insert_eq.
      * apply lookup_insert_ne. congruence.
Qed.

(** C5.  On the empty list [calculateOverallStats] publishes exactly
    accuracy 0, average time 0, 0 cards reviewed and 0 cards skipped, none
    of them NaN, whatever the page's period is; and for every category the
    chart series over no sessions is 0 in every bucket. *)
Theorem C5_calculateOverallStats_empty :
  (forall this : ProgressPage,
     let stats := overallStats (calculateOverallStats [] this) in
     accuracy stats = PrimFloat.zero /\ avgTimePerCard stats = PrimFloat.zero /\
     totalCards stats = 0 /\ skippedCards stats = 0 /\
     PrimFloat.is_nan (accuracy stats) = false /\
     PrimFloat.is_nan (avgTimePerCard stats) = false) /\
  (forall (dateRange : list Bucket) (catKey : string),
     chartSeries (groupSessionsIntoBuckets [] dateRange) dateRange catKey =
     map (fun _ => PrimFloat.zero) dateRange).
Proof.
  split.
  - intros this. cbv zeta. rewrite overallStats_calculate. simpl.
    repeat split; reflexivity.
  - intros dateRange catKey. unfold chartSeries, groupSessionsIntoBuckets. simpl.
    apply map_ext. intros dr. rewrite empty_grouping_lookup.
    destruct (existsb _ _); reflexivity.
Qed.



(** ** Category classification *)

(** The category of a session depends on its label only, a missing label
    being read as the empty string. *)
Lemma classifySession_category (s : Session) :
  classifySession s =
  classify (match category s with Some raw => raw | None => "" end).
Proof.
  unfold classify, classifySession.
  destruct s as [c q ca sk tt ts cr]. destruct c as [raw|]; reflexivity.
Qed.

Lemma classify_normalise (raw : string) :
  classify raw =
  let c := normalise raw in
  if String.eqb c "people" || String.eqb c "name-that-memory-people" then People
  else if String.eqb c "places" || String.eqb c "name-that-memory-places" then Places
  else if String.eqb c "objects" || String.eqb c "name-that-memory-objects" then Objects
  else if String.eqb c "category-match" || String.eqb c "categorymatch"
          || String.eqb c "category match" then CategoryMatch
  else Other.
Proof.
  unfold classify, classifySession, cats, isSessionInCategory, withCategory, normalise.
  cbn -[String.eqb replaceWhiteSpace toLowerCase].
  change (String.eqb "people" "category-match") with false.
  change (String.eqb "places" "category-match") with false.
  change (String.eqb "objects" "category-match") with false.
  change (String.eqb "category-match" "category-match") with true.
  change (String.append "name-that-memory-" "people") with "name-that-memory-people".
  change (String.append "name-that-memory-" "places") with "name-that-memory-places".
  change (String.append "name-that-memory-" "objects") with "name-that-memory-objects".
  cbv iota.
  repeat (match goal with
          | |- context [if ?b then _ else _] => destruct b; cbn [fst snd]
          end; try reflexivity).
Qed.

Lemma lowerChar_of_whiteSpace (c : ascii) : isWhiteSpace c = true -> lowerChar c = c.
Proof. destruct c as [[] [] [] [] [] [] [] []]; intros H; try discriminate H; reflexivity. Qed.

Lemma toLowerCase_append (a b : string) :
  toLowerCase (a ++ b) = (toLowerCase a ++ toLowerCase b)%string.
Proof. induction a as [|c a IH]; simpl; [|rewrite IH]; reflexivity. Qed.

Lemma toLowerCase_run (r : string) : allWhiteSpace r = true -> toLowerCase r = r.
Proof.
  induction r as [|c r IH]; simpl; [reflexivity|].
  intros H. apply andb_true_iff in H as [Hc Hr].
  rewrite (lowerChar_of_whiteSpace c Hc), (IH Hr). reflexivity.
Qed.

(** Inside a run, the rest of the run adds nothing; a run that starts
    outside one gives a single hyphen. *)
Lemma replaceRuns_in_run (r rest : string) :
  allWhiteSpace r = true -> replaceRuns true (r ++ rest) = replaceRuns true rest.
Proof.
  induction r as [|c r IH]; simpl; [reflexivity|].
  intros H. apply andb_true_iff in H as [Hc Hr]. rewrite Hc. apply IH. exact Hr.
Qed.

Lemma replaceRuns_run (r rest : string) :
  whiteSpaceRun r ->
  replaceRuns false (r ++ rest) = String "-" (replaceRuns true rest).
Proof.
  intros [Hne H]. destruct r as [|c r]; [congruence|]. simpl in H |- *.
  apply andb_true_iff in H as [Hc Hr]. rewrite Hc.
  rewrite (replaceRuns_in_run r rest Hr). reflexivity.
Qed.

Lemma replaceRuns_word (inRun : bool) (w rest : string) :
  noWhiteSpace w = true ->
  replaceRuns inRun (w ++ rest)
  = (w ++ match w with
          | EmptyString => replaceRuns inRun rest
          | String _ _ => replaceRuns false rest
          end)%string.
Proof.
  revert inRun. induction w as [|c w IH]; intros inRun H; simpl; [reflexivity|].
  simpl in H. apply andb_true_iff in H as [Hc Hw].
  destruct (isWhiteSpace c); [discriminate|].
  rewrite (IH false Hw). destruct w; reflexivity.
Qed.

Lemma replaceRuns_only_word (inRun : bool) (w : string) :
  noWhiteSpace w = true -> replaceRuns inRun w = w.
Proof.
  revert inRun. induction w as [|c w IH]; intros inRun H; simpl; [reflexivity|].
  simpl in H. apply andb_true_iff in H as [Hc Hw].
  destruct (isWhiteSpace c); [discriminate|]. rewrite (IH false Hw). reflexivity.
Qed.

(** The normal form of a word, a white-space run and more text: the run
    becomes one hyphen, whatever its length and its code units. *)
Lemma normalise_run (w r rest : string) :
  w <> ""%string -> noWhiteSpace (toLowerCase w) = true -> whiteSpaceRun r ->
  normalise (w ++ r ++ rest)
  = (toLowerCase w ++ String "-" (replaceRuns true (toLowerCase rest)))%string.
Proof.
  intros Hw Hword Hrun. unfold normalise, replaceWhiteSpace.
  rewrite !toLowerCase_append, (toLowerCase_run r (proj2 Hrun)).
  rewrite (replaceRuns_word false _ _ Hword).
  destruct w as [|c w]; [congruence|]. cbn [toLowerCase].
  rewrite (replaceRuns_run r _ Hrun). reflexivity.
Qed.

(** C8.  Classification is a total function of the label.  A label whose
    normal form (lower case, white-space runs turned into hyphens) is one of
    the spellings of a category is classified as that category; so is every
    spelling itself; a label whose normal form is no spelling is classified
    as [Other].  Two words of a spelling may be set apart by any white-space
    run, of any length and of any white-space code units, in any letter case:
    the run counts as one hyphen.  "Category Match", "categorymatch" and
    "category-match" are category-match; "name-that-memory-people" and
    "people" are people. *)
Theorem C8_classify_spellings :
  (forall (raw : string) (cat : CanonicalCategory),
     In (normalise raw) (spellings cat) -> classify raw = cat) /\
  (forall (spelling : string) (cat : CanonicalCategory),
     In spelling (spellings cat) -> classify spelling = cat) /\
  (forall raw : string,
     (forall cat, ~ In (normalise raw) (spellings cat)) -> classify raw = Other) /\
  (forall r : string,
     whiteSpaceRun r ->
     normalise ("Category" ++ r ++ "Match") = "category-match"%string /\
     classify ("Category" ++ r ++ "Match") = CategoryMatch /\
     classify ("CATEGORY" ++ r ++ "match") = CategoryMatch) /\
  (forall r1 r2 r3 : string,
     whiteSpaceRun r1 -> whiteSpaceRun r2 -> whiteSpaceRun r3 ->
     classify ("Name" ++ r1 ++ "That" ++ r2 ++ "Memory" ++ r3 ++ "People") = People /\
     classify ("name" ++ r1 ++ "that" ++ r2 ++ "memory" ++ r3 ++ "places") = Places /\
     classify ("NAME" ++ r1 ++ "THAT" ++ r2 ++ "MEMORY" ++ r3 ++ "OBJECTS") = Objects) /\
  classify "Category Match" = CategoryMatch /\
  classify "categorymatch" = CategoryMatch /\
  classify "category-match" = CategoryMatch /\
  classify "name-that-memory-people" = People /\
  classify "people" = People /\
  classify "Name That Memory People" = People /\
  classify "category   match" = CategoryMatch /\
  classify "Category Matching" = Other /\
  classify "" = Other.
Proof.
  assert (Hnorm : forall raw cat, In (normalise raw) (spellings cat) -> classify raw = cat).
  { intros raw cat Hin. rewrite classify_normalise. cbv zeta.
    destruct cat; simpl in Hin;
      repeat (destruct Hin as [Hin|Hin]; [rewrite <- Hin; reflexivity|]);
      contradiction. }
  split; [exact Hnorm|].
  split.
  { intros spelling cat Hin. apply Hnorm.
    destruct cat; simpl in Hin;
      repeat (destruct Hin as [Hin|Hin]; [subst spelling; vm_compute; tauto|]);
      contradiction. }
  split.
  { intros raw Hnone. rewrite classify_normalise. cbv zeta.
    assert (Hne : forall cat lit, In lit (spellings cat) ->
                                  String.eqb (normalise raw) lit = false).
    { intros cat lit Hlit. apply String.eqb_neq. intros Heq.
      apply (Hnone cat). rewrite Heq. exact Hlit. }
    rewrite (Hne People "people"), (Hne People "name-that-memory-people"),
      (Hne Places "places"), (Hne Places "name-that-memory-places"),
      (Hne Objects "objects"), (Hne Objects "name-that-memory-objects"),
      (Hne CategoryMatch "category-match"), (Hne CategoryMatch "categorymatch"),
      (Hne CategoryMatch "category match"); simpl; tauto. }
  split.
  { intros r Hr.
    assert (H1 : normalise ("Category" ++ r ++ "Match") = "category-match"%string).
    { rewrite normalise_run; [reflexivity|discriminate|reflexivity|exact Hr]. }
    assert (H2 : normalise ("CATEGORY" ++ r ++ "match") = "category-match"%string).
    { rewrite normalise_run; [reflexivity|discriminate|reflexivity|exact Hr]. }
    split; [exact H1|].
    split; apply Hnorm; [rewrite H1|rewrite H2]; left; reflexivity. }
  split.
  { intros r1 r2 r3 Hr1 Hr2 Hr3.
    assert (Hthree : forall w1 w2 w3 w4 : string,
              w1 <> ""%string -> noWhiteSpace (toLowerCase w1) = true ->
              w2 <> ""%string -> noWhiteSpace (toLowerCase w2) = true ->
              w3 <> ""%string -> noWhiteSpace (toLowerCase w3) = true ->
              noWhiteSpace (toLowerCase w4) = true ->
              normalise (w1 ++ r1 ++ w2 ++ r2 ++ w3 ++ r3 ++ w4)
              = (toLowerCase w1 ++ "-" ++ toLowerCase w2 ++ "-" ++ toLowerCase w3
                 ++ "-" ++ toLowerCase w4)%string).
    { intros w1 w2 w3 w4 N1 W1 N2 W2 N3 W3 W4.
      rewrite (normalise_run w1 r1 _ N1 W1 Hr1).
      rewrite !toLowerCase_append, (toLowerCase_run r2 (proj2 Hr2)),
        (toLowerCase_run r3 (proj2 Hr3)).
      rewrite (replaceRuns_word true _ _ W2).
      destruct w2 as [|c2 w2]; [congruence|]. cbn [toLowerCase].
      rewrite (replaceRuns_run r2 _ Hr2).
      rewrite (replaceRuns_word true _ _ W3).
      destruct w3 as [|c3 w3]; [congruence|]. cbn [toLowerCase].
      rewrite (replaceRuns_run r3 _ Hr3).
      rewrite (replaceRuns_only_word true _ W4). reflexivity. }
    split; [|split]; apply Hnorm; rewrite Hthree;
      try discriminate; try reflexivity; simpl; tauto. }
  repeat split; reflexivity.
Qed.

(** ** Grouping sessions into buckets *)

Lemma within_closed (start' end' : Z) (s : Session) :
  within start' end' s = true <-> start' <= sessionDate s <= end'.
Proof. unfold within. rewrite andb_true_iff, !Z.leb_le. tauto. Qed.

Lemma assignedBucket_first (s : Session) (pre post : list Bucket) (dr : Bucket) :
  forallb (fun b => negb (within (start b) (end_ b) s)) pre = true ->
  within (start dr) (end_ dr) s = true ->
  assignedBucket (pre ++ dr :: post) s = Some dr.
Proof.
  unfold assignedBucket. induction pre as [|b pre IH]; simpl; intros Hpre Hdr.
  - rewrite Hdr. reflexivity.
  - apply andb_true_iff in Hpre as [Hb Hpre].
    apply negb_true_iff in Hb. rewrite Hb. apply IH; assumption.
Qed.

Lemma assignedBucket_none (s : Session) (dateRange : list Bucket) :
  (forall dr, In dr dateRange -> within (start dr) (end_ dr) s = false) ->
  assignedBucket dateRange s = None.
Proof.
  unfold assignedBucket. induction dateRange as [|b rest IH]; simpl; intros H.
  - reflexivity.
  - rewrite (H b (or_introl eq_refl)). apply IH. intros dr Hin. apply H. right. exact Hin.
Qed.

Lemma assignedTo_inv (dateRange : list Bucket) (k : string) (s : Session) :
  assignedTo dateRange k s = true ->
  exists dr, assignedBucket dateRange s = Some dr /\ key dr = k /\ In dr dateRange /\
             within (start dr) (end_ dr) s = true.
Proof.
  unfold assignedTo. destruct (assignedBucket dateRange s) as [dr|] eqn:E; [|discriminate].
  intros Hk. apply String.eqb_eq in Hk. exists dr.
  unfold assignedBucket in E. apply find_some in E as [Hin Hw]. auto.
Qed.

Lemma grouping_fold_lookup (dateRange : list Bucket) (sessions : list Session)
      (m : gmap string (list Session)) (k : string) :
  fold_left
    (fun m s =>
       match find (fun dr => within (start dr) (end_ dr) s) dateRange with
       | Some dr => alter (fun l => l ++ [s]) (key dr) m
       | None => m
       end) sessions m !! k
  = (fun l => l ++ List.filter (assignedTo dateRange k) sessions) <$> (m !! k).
Proof.
  revert m. induction sessions as [|s rest IH]; intros m; simpl.
  - destruct (m !! k); simpl; [rewrite app_nil_r|]; reflexivity.
  - rewrite IH. unfold assignedTo at 2, assignedBucket.
    destruct (find (fun dr => within (start dr) (end_ dr) s) dateRange) as [dr|].
    + rewrite lookup_alter. destruct (String.eqb_spec (key dr) k) as [->|Hne].
      * rewrite decide_True by reflexivity.
        destruct (m !! k); simpl; [rewrite <- app_assoc|]; reflexivity.
      * rewrite decide_False by exact Hne. reflexivity.
    + reflexivity.
Qed.

Lemma groupSessionsIntoBuckets_lookup (sessions : list Session) (dateRange : list Bucket)
      (k : string) :
  groupSessionsIntoBuckets sessions dateRange !! k =
  if existsb (String.eqb k) (map key dateRange)
  then Some (List.filter (assignedTo dateRange k) sessions)
  else None.
Proof.
  unfold groupSessionsIntoBuckets. rewrite grouping_fold_lookup, empty_grouping_lookup.
  rewrite lookup_empty. destruct (existsb _ _); reflexivity.
Qed.

Lemma grouped_member (sessions : list Session) (dateRange : list Bucket)
      (k : string) (l : list Session) (s : Session) :
  groupSessionsIntoBuckets sessions dateRange !! k = Some l -> In s l ->
  In s sessions /\ assignedTo dateRange k s = true.
Proof.
  rewrite groupSessionsIntoBuckets_lookup.
  destruct (existsb _ _); [|discriminate].
  intros [= <-] Hin. apply filter_In in Hin. exact Hin.
Qed.

(** C4.  [groupSessionsIntoBuckets] files every session under the key of
    the first bucket, in list order, whose closed interval [start, end]
    contains the session's date, and under no key when no bucket contains it:
    the list under a bucket key is exactly the sessions assigned to that key,
    in input order.  A session dated at the inclusive end of a bucket that no
    earlier bucket contains is filed under that bucket.  No session is filed
    under two keys, and every filed session is one of the input.  The date of
    a session is its [timestamp], a number other than 0 or a string, and
    otherwise its [createdAt], and the epoch when both are missing or 0.  A
    session stamped 3 March 2025 23:59:59.999 is filed under 2025-03-03 and
    not under 2025-03-04, one stamped a millisecond later under 2025-03-04;
    and with the buckets listed as 4 March, a bucket that spans both days and
    3 March, the former is filed under the spanning bucket, which comes before
    its own day, and the latter still under 2025-03-04. *)
Theorem C4_groupSessionsIntoBuckets_first_bucket
        (sessions : list Session) (dateRange : list Bucket) :
  let grouped := groupSessionsIntoBuckets sessions dateRange in
  (forall k : string,
     grouped !! k =
     if existsb (String.eqb k) (map key dateRange)
     then Some (List.filter (assignedTo dateRange k) sessions)
     else None) /\
  (forall (s : Session) (dr : Bucket),
     within (start dr) (end_ dr) s = true <-> start dr <= sessionDate s <= end_ dr) /\
  (forall (s : Session) (pre post : list Bucket) (dr : Bucket),
     dateRange = pre ++ dr :: post ->
     forallb (fun b => negb (within (start b) (end_ b) s)) pre = true ->
     within (start dr) (end_ dr) s = true ->
     assignedBucket dateRange s = Some dr) /\
  (forall (s : Session) (pre post : list Bucket) (dr : Bucket),
     dateRange = pre ++ dr :: post ->
     forallb (fun b => negb (within (start b) (end_ b) s)) pre = true ->
     start dr <= end_ dr -> sessionDate s = end_ dr -> In s sessions ->
     exists l, grouped !! key dr = Some l /\ In s l) /\
  (forall (s : Session) (dr : Bucket),
     In s sessions -> assignedBucket dateRange s = Some dr ->
     exists l, grouped !! key dr = Some l /\ In s l) /\
  (forall s : Session,
     (forall dr, In dr dateRange -> within (start dr) (end_ dr) s = false) ->
     forall k l, grouped !! k = Some l -> ~ In s l) /\
  (forall (s : Session) (k1 k2 : string) (l1 l2 : list Session),
     grouped !! k1 = Some l1 -> grouped !! k2 = Some l2 ->
     In s l1 -> In s l2 -> k1 = k2) /\
  (forall (k : string) (l : list Session) (s : Session),
     grouped !! k = Some l -> In s l -> In s sessions) /\
  (forall (s : Session) (t : Z),
     (timestamp s = Some (TimeNumber t) /\ t <> 0 \/ timestamp s = Some (TimeIso t)) ->
     sessionDate s = t) /\
  (forall (s : Session) (t : Z),
     timestamp s = None \/ timestamp s = Some (TimeNumber 0) ->
     (createdAt s = Some (TimeNumber t) /\ t <> 0 \/ createdAt s = Some (TimeIso t)) ->
     sessionDate s = t) /\
  (forall s : Session,
     timestamp s = None \/ timestamp s = Some (TimeNumber 0) ->
     createdAt s = None \/ createdAt s = Some (TimeNumber 0) ->
     sessionDate s = 0) /\
  (key march3 = "2025-03-03"%string /\ key march4 = "2025-03-04"%string /\
   timestamp lastInstantOfMarch3 = Some (TimeNumber (end_ march3)) /\
   timestamp firstInstantOfMarch4 = Some (TimeNumber (end_ march3 + 1)) /\
   groupSessionsIntoBuckets [firstInstantOfMarch4; lastInstantOfMarch3; createdOnMarch4]
                            [march3; march4]
   = {[ "2025-03-03"%string := [lastInstantOfMarch3];
        "2025-03-04"%string := [firstInstantOfMarch4; createdOnMarch4] ]} /\
   groupSessionsIntoBuckets [firstInstantOfMarch4; lastInstantOfMarch3; createdOnMarch4]
                            [march4; bothDays; march3]
   = {[ "2025-03-03"%string := [];
        "both"%string := [lastInstantOfMarch3];
        "2025-03-04"%string := [firstInstantOfMarch4; createdOnMarch4] ]}).
Proof.
  cbv zeta.
  assert (Hfiled : forall s dr, In s sessions -> assignedBucket dateRange s = Some dr ->
            exists l, groupSessionsIntoBuckets sessions dateRange !! key dr = Some l /\ In s l).
  { intros s dr Hin Has. rewrite groupSessionsIntoBuckets_lookup.
    assert (Hdr : In dr dateRange).
    { unfold assignedBucket in Has. apply find_some in Has. tauto. }
    assert (Hk : existsb (String.eqb (key dr)) (map key dateRange) = true).
    { apply existsb_exists. exists (key dr). split.
      - apply in_map. exact Hdr.
      - apply String.eqb_refl. }
    rewrite Hk. eexists. split; [reflexivity|].
    apply filter_In. split; [exact Hin|].
    unfold assignedTo. rewrite Has. apply String.eqb_refl. }
  split; [intros k; apply groupSessionsIntoBuckets_lookup|].
  split; [intros s dr; apply within_closed|].
  split; [intros s pre post dr -> Hpre Hdr; apply assignedBucket_first; assumption|].
  split.
  { intros s pre post dr Heq Hpre Hle Hend Hin. apply Hfiled; [exact Hin|].
    rewrite Heq. apply assignedBucket_first; [exact Hpre|].
    apply within_closed. lia. }
  split; [exact Hfiled|].
  split.
  { intros s Hnone k l Hl Hin.
    destruct (grouped_member _ _ _ _ _ Hl Hin) as [_ Has].
    apply assignedTo_inv in Has as (dr & _ & _ & Hdr & Hw).
    rewrite (Hnone dr Hdr) in Hw. discriminate. }
  split.
  { intros s k1 k2 l1 l2 H1 H2 Hin1 Hin2.
    destruct (grouped_member _ _ _ _ _ H1 Hin1) as [_ Ha1].
    destruct (grouped_member _ _ _ _ _ H2 Hin2) as [_ Ha2].
    apply assignedTo_inv in Ha1 as (d1 & E1 & K1 & _).
    apply assignedTo_inv in Ha2 as (d2 & E2 & K2 & _).
    congruence. }
  split.
  { intros k l s Hl Hin. destruct (grouped_member _ _ _ _ _ Hl Hin) as [H _]. exact H. }
  split.
  { intros s t [[Ht Hne]|Ht]; unfold sessionDate; rewrite Ht; cbn [truthyTime instantOf].
    - apply Z.eqb_neq in Hne. rewrite Hne. reflexivity.
    - reflexivity. }
  split.
  { intros s t Hts Hcr. unfold sessionDate.
    assert (Hc : match createdAt s with
                 | Some w => if truthyTime w then instantOf w else 0
                 | None => 0
                 end = t).
    { destruct Hcr as [[Hc Hne]|Hc]; rewrite Hc; cbn [truthyTime instantOf].
      - apply Z.eqb_neq in Hne. rewrite Hne. reflexivity.
      - reflexivity. }
    destruct Hts as [Hts|Hts]; rewrite Hts; [exact Hc|]. cbn [truthyTime]. exact Hc. }
  split.
  { intros s Hts Hcr. unfold sessionDate.
    assert (Hc : match createdAt s with
                 | Some w => if truthyTime w then instantOf w else 0
                 | None => 0
                 end = 0).
    { destruct Hcr as [Hc|Hc]; rewrite Hc; reflexivity. }
    destruct Hts as [Hts|Hts]; rewrite Hts; [exact Hc|]. cbn [truthyTime]. exact Hc. }
  split; [vm_compute; reflexivity|]. split; [vm_compute; reflexivity|].
  split; [vm_compute; reflexivity|]. split; [vm_compute; reflexivity|].
  split; vm_compute; reflexivity.
Qed.

(** ** Calendar arithmetic *)

(** The civil date of a day number is a date (month 1 to 12, day 1 to 31)
    and converts back to the day number. *)
Lemma civil_round_trip (z : Z) :
  let '(y, m, d) := civilFromDays z in
  1 <= m <= 12 /\ 1 <= d <= 31 /\ daysFromCivil y m d = z.
Proof.
  unfold civilFromDays. cbv zeta.
  set (z1 := z + 719468).
  set (era := z1 / 146097).
  set (doe := z1 - era * 146097).
  assert (Hdoe : 0 <= doe < 146097).
  { subst doe era. pose proof (Z.div_mod z1 146097 ltac:(lia)).
    pose proof (Z.mod_pos_bound z1 146097 ltac:(lia)). lia. }
  set (yoe := (doe - doe / 1460 + doe / 36524 - doe / 146096) / 365).
  assert (Hyoe : 0 <= yoe <= 399 /\ 0 <= doe - (365 * yoe + yoe / 4 - yoe / 100) <= 365).
  { subst yoe. clearbody doe. clear -Hdoe. Z.div_mod_to_equations. lia. }
  set (doy := doe - (365 * yoe + yoe / 4 - yoe / 100)) in *.
  set (mp := (5 * doy + 2) / 153).
  assert (Hmp : 0 <= mp <= 11 /\ 1 <= doy - (153 * mp + 2) / 5 + 1 <= 31).
  { subst mp. destruct Hyoe as [_ Hdoy]. clearbody doy. clear -Hdoy.
    Z.div_mod_to_equations. lia. }
  destruct Hmp as [Hmp Hd]. destruct Hyoe as [Hyoe Hdoy].
  unfold daysFromCivil. cbv zeta.
  destruct (Z.ltb_spec mp 10) as [Hlt|Hge].
  - destruct (Z.leb_spec (mp + 3) 2) as [?|_]; [lia|].
    destruct (Z.ltb_spec 2 (mp + 3)) as [_|?]; [|lia].
    split; [lia|]. split; [exact Hd|].
    replace (yoe + era * 400 + 0) with (yoe + era * 400) by lia.
    rewrite Z.div_add by lia. rewrite (Z.div_small yoe 400) by lia.
    replace (mp + 3 - 3) with mp by lia.
    replace (yoe + era * 400 - (0 + era) * 400) with yoe by lia.
    fold mp. subst doy doe z1. lia.
  - destruct (Z.leb_spec (mp - 9) 2) as [_|?]; [|lia].
    destruct (Z.ltb_spec 2 (mp - 9)) as [?|_]; [lia|].
    split; [lia|]. split; [exact Hd|].
    replace (yoe + era * 400 + 1 - 1) with (yoe + era * 400) by lia.
    rewrite Z.div_add by lia. rewrite (Z.div_small yoe 400) by lia.
    replace (mp - 9 + 9) with mp by lia.
    replace (yoe + era * 400 - (0 + era) * 400) with yoe by lia.
    subst doy doe z1. lia.
Qed.

Lemma daysFromCivil_day (y m d : Z) :
  daysFromCivil y m 1 + d - 1 = daysFromCivil y m d.
Proof. unfold daysFromCivil. cbv zeta. lia. Qed.

Lemma localDay_of_day (tz day k : Z) :
  0 <= k < msPerDay -> localDay tz (day * msPerDay + k - tz) = day.
Proof.
  intros Hk. unfold localDay, Day.
  replace (day * msPerDay + k - tz + tz) with (k + day * msPerDay) by lia.
  rewrite Z.div_add by (unfold msPerDay; lia).
  rewrite Z.div_small by exact Hk. lia.
Qed.

(** [d.setDate(d.getDate() + i)] moves a date by [i] local days and keeps
    the time of day. *)
Lemma setDate_getDate (tz t i : Z) :
  setDate tz t (getDate tz t + i) =
  (localDay tz t + i) * msPerDay + TimeWithinDay (t + tz) - tz.
Proof.
  unfold setDate, getFullYear, getMonth, getDate, MakeDay.
  pose proof (civil_round_trip (localDay tz t)) as H.
  destruct (civilFromDays (localDay tz t)) as [[y m] d]. simpl.
  destruct H as (Hm & _ & Hd).
  rewrite (Z.div_small (m - 1) 12) by lia.
  rewrite (Z.mod_small (m - 1) 12) by lia.
  replace (y + 0) with y by lia. replace (m - 1 + 1) with m by lia.
  replace (daysFromCivil y m 1 + (d + i) - 1) with (daysFromCivil y m 1 + d - 1 + i) by lia.
  rewrite daysFromCivil_day, Hd. reflexivity.
Qed.

Lemma weekBucket_dayBucket (tz earliestSession i : Z) :
  weekBucket tz earliestSession i = dayBucket tz (localDay tz earliestSession + i).
Proof.
  unfold weekBucket, dayBucket. cbv zeta.
  assert (Hstart : setHours tz (setDate tz earliestSession (getDate tz earliestSession + i))
                            0 0 0 0
                   = dayStartOf tz (localDay tz earliestSession + i)).
  { rewrite setDate_getDate. unfold setHours.
    rewrite localDay_of_day
      by (unfold TimeWithinDay; apply Z.mod_pos_bound; unfold msPerDay; lia).
    unfold dayStartOf, MakeTime. lia. }
  rewrite Hstart. f_equal.
  unfold setHours, dayStartOf.
  replace ((localDay tz earliestSession + i) * msPerDay - tz)
    with ((localDay tz earliestSession + i) * msPerDay + 0 - tz) by lia.
  rewrite localDay_of_day by (unfold msPerDay; lia).
  unfold MakeTime, msPerDay. lia.
Qed.

(** A day bucket holds exactly the instants of its local calendar day. *)
Lemma dayBucket_day (tz day t : Z) :
  start (dayBucket tz day) <= t <= end_ (dayBucket tz day) <-> localDay tz t = day.
Proof.
  unfold dayBucket, dayStartOf, localDay, Day. simpl.
  assert (Hpos : 0 < msPerDay) by (unfold msPerDay; lia).
  pose proof (Z.div_mod (t + tz) msPerDay ltac:(lia)) as Hdm.
  pose proof (Z.mod_pos_bound (t + tz) msPerDay Hpos) as Hb.
  split; intros H; nia.
Qed.

Lemma earliest_fold (sessions : list Session) (a : Z) :
  let r := fold_left (fun earliest session =>
                        let sessionDate := sessionDate session in
                        if sessionDate <? earliest then sessionDate else earliest)
                     sessions a in
  (r = a \/ In r (map sessionDate sessions)) /\ r <= a /\
  (forall s, In s sessions -> r <= sessionDate s).
Proof.
  revert a. induction sessions as [|s rest IH]; intros a; cbv zeta; simpl.
  - split; [left; reflexivity|]. split; [lia|]. intros s [].
  - specialize (IH (if sessionDate s <? a then sessionDate s else a)).
    cbv zeta in IH. destruct IH as (Hin & Hle & Hall).
    destruct (Z.ltb_spec (sessionDate s) a) as [Hlt|Hge].
    + split; [destruct Hin as [->|Hin]; [right; left; reflexivity|right; right; exact Hin]|].
      split; [lia|]. intros s' [<-|Hs']; [lia|apply Hall; exact Hs'].
    + split; [destruct Hin as [->|Hin]; [left; reflexivity|right; right; exact Hin]|].
      split; [lia|]. intros s' [<-|Hs']; [lia|apply Hall; exact Hs'].
Qed.

(** The earliest session date of a list that is not empty is the least of
    its session dates. *)
Lemma earliestSessionOf_min (first : Session) (rest : list Session) :
  let e := earliestSessionOf first (first :: rest) in
  In e (map sessionDate (first :: rest)) /\
  (forall s, In s (first :: rest) -> e <= sessionDate s).
Proof.
  cbv zeta. unfold earliestSessionOf.
  pose proof (earliest_fold (first :: rest) (sessionDate first)) as H.
  cbv zeta in H. destruct H as (Hin & _ & Hall).
  split; [|exact Hall].
  destruct Hin as [->|Hin]; [left; reflexivity|exact Hin].
Qed.

(** ** The buckets of the week period *)

Lemma localDateKey_localDay (tz t1 t2 : Z) :
  localDay tz t1 = localDay tz t2 -> localDateKey tz t1 = localDateKey tz t2.
Proof.
  intros H. unfold localDateKey, getFullYear, getMonth, getDate. rewrite H. reflexivity.
Qed.

Lemma localDay_dayStartOf (tz day : Z) : localDay tz (dayStartOf tz day) = day.
Proof.
  unfold dayStartOf.
  replace (day * msPerDay - tz) with (day * msPerDay + 0 - tz) by lia.
  apply localDay_of_day. unfold msPerDay. lia.
Qed.

Lemma week_range (tz now : Z) (this : ProgressPage) (first : Session)
      (rest : list Session) :
  selectedPeriod this = "week" ->
  getChartDateRangeFromSessions tz now this (first :: rest) =
  map (fun i => dayBucket tz (localDay tz (earliestSessionOf first (first :: rest)) + i))
      [0; 1; 2; 3; 4; 5; 6; 7].
Proof.
  intros Hweek. unfold getChartDateRangeFromSessions. rewrite Hweek.
  change (String.eqb "week" "today") with false.
  change (String.eqb "week" "week") with true. cbv iota.
  change (indices 8) with [0; 1; 2; 3; 4; 5; 6; 7].
  apply map_ext. intros i. apply weekBucket_dayBucket.
Qed.

(** The sessions of March 2025 are dated in ordinary years. *)
Lemma march_ordinaryDates : ordinaryDates gmt8 marchSessions.
Proof.
  split; [unfold gmt8, msPerDay; lia|].
  intros s [<-|[<-|[<-|[]]]]; vm_compute; split; discriminate.
Qed.

(** C2.  In the week period, for a list of sessions that is not empty and
    whose dates are ordinary (valid dates of the years 1000 to 9999),
    [getChartDateRangeFromSessions] returns, whatever the clock shows, the 8
    buckets of the 8 consecutive local calendar days that start with the day
    of the least session date: bucket [i] holds exactly the instants of day
    [i] after that day, each bucket starts one millisecond after the previous
    one ends, and the first bucket contains the least session date and carries
    its date as key.  For sessions whose earliest date is 3 March 2025 the keys
    are 2025-03-03 to 2025-03-10. *)
Theorem C2_week_buckets_from_earliest_session
        (tz : Z) (this : ProgressPage) (sessions : list Session) :
  selectedPeriod this = "week" ->
  sessions <> [] ->
  ordinaryDates tz sessions ->
  exists minTimestamp : Z,
    In minTimestamp (map sessionDate sessions) /\
    (forall s, In s sessions -> minTimestamp <= sessionDate s) /\
    (forall now : Z,
       getChartDateRangeFromSessions tz now this sessions =
       map (fun i => dayBucket tz (localDay tz minTimestamp + i))
           [0; 1; 2; 3; 4; 5; 6; 7]) /\
    (forall now : Z,
       List.length (getChartDateRangeFromSessions tz now this sessions) = 8%nat) /\
    (forall day t : Z,
       start (dayBucket tz day) <= t <= end_ (dayBucket tz day) <-> localDay tz t = day) /\
    (forall day : Z, start (dayBucket tz (day + 1)) = end_ (dayBucket tz day) + 1) /\
    (forall (now : Z) (first : Bucket) (rest : list Bucket),
       getChartDateRangeFromSessions tz now this sessions = first :: rest ->
       start first <= minTimestamp <= end_ first /\
       key first = localDateKey tz minTimestamp) /\
    (forall now : Z,
       map key (getChartDateRangeFromSessions gmt8 now (initialPage "week") marchSessions) =
       ["2025-03-03"; "2025-03-04"; "2025-03-05"; "2025-03-06";
        "2025-03-07"; "2025-03-08"; "2025-03-09"; "2025-03-10"]).
Proof.
  intros Hweek Hne _. destruct sessions as [|first rest]; [congruence|].
  exists (earliestSessionOf first (first :: rest)).
  destruct (earliestSessionOf_min first rest) as [Hin Hmin].
  split; [exact Hin|]. split; [exact Hmin|].
  split; [intros now; apply week_range; exact Hweek|].
  split; [intros now; rewrite week_range by exact Hweek; reflexivity|].
  split; [intros day t; apply dayBucket_day|].
  split.
  { intros day. unfold dayBucket, dayStartOf. simpl. lia. }
  split.
  { intros now b bs. rewrite week_range by exact Hweek. simpl. intros [= <- _].
    rewrite Z.add_0_r. split.
    - apply dayBucket_day. reflexivity.
    - unfold dayBucket. simpl. apply localDateKey_localDay. apply localDay_dayStartOf. }
  intros now. unfold marchSessions. rewrite week_range by reflexivity.
  vm_compute. reflexivity.
Qed.

(** C2 at three sessions of March 2025, the earliest on 3 March. *)
Lemma C2_week_buckets_march_witness :
  exists minTimestamp : Z,
    In minTimestamp (map sessionDate marchSessions) /\
    localDateKey gmt8 minTimestamp = "2025-03-03" /\
    forall now : Z,
      getChartDateRangeFromSessions gmt8 now (initialPage "week") marchSessions =
      map (fun i => dayBucket gmt8 (localDay gmt8 minTimestamp + i))
          [0; 1; 2; 3; 4; 5; 6; 7].
Proof.
  assert (Hne : marchSessions <> []) by discriminate.
  destruct (C2_week_buckets_from_earliest_session gmt8 (initialPage "week") marchSessions
              eq_refl Hne march_ordinaryDates) as (m & Hin & _ & Hrange & _).
  exists m. split; [exact Hin|]. split; [|exact Hrange].
  simpl in Hin. destruct Hin as [<-|[<-|[<-|[]]]].
  - specialize (Hrange 0). vm_compute in Hrange. discriminate Hrange.
  - vm_compute. reflexivity.
  - specialize (Hrange 0). vm_compute in Hrange. discriminate Hrange.
Defined.

(** ** Loading: the three tiers *)

Lemma getUserGameSessions_state (env : Env) (userId : option string)
      (limitCount : option nat) :
  exists o, forall s, getUserGameSessions env userId limitCount s = (o, s).
Proof.
  unfold getUserGameSessions.
  destruct (orString userId (orString (currentUser env) "")).
  - exists Thrown. reflexivity.
  - destruct (remoteFetch env) as [docs|].
    + destruct limitCount as [[|n]|]; eexists; reflexivity.
    + exists Thrown. reflexivity.
Qed.

Lemma getCachedData_run (env : Env) (s : State) :
  getCachedData env "gameRecords" [] s = (Returned (cachedRecords env s), s).
Proof.
  unfold getCachedData, cachedRecords, cacheKey, tryCatch, bind, getItem, ret.
  destruct (localStorage s !! _) as [[records|text]|]; simpl; try reflexivity.
  destruct (negb (String.eqb text "")); reflexivity.
Qed.

Lemma cacheData_run (env : Env) (data : list Session) (s : State) :
  cacheData env "gameRecords" data s
  = (Returned tt, withItem (cacheKey env) (JsonRecords data) s).
Proof. reflexivity. Qed.

Lemma updateFirebaseStats_run (env : Env) (sessions : list Session) (s : State) :
  exists s', tryCatch (updateFirebaseStats env sessions) (ret tt) s = (Returned tt, s') /\
             page s' = page s /\ localStorage s' = localStorage s.
Proof.
  unfold updateFirebaseStats, updateUserStats, tryCatch, bind, getPage, ret, throw.
  destruct (negb (isFirebaseConnected (page s))); simpl.
  - exists s. auto.
  - destruct (currentUser env); simpl.
    + destruct (remoteWriteOk env); simpl; eexists; split; try reflexivity; auto.
    + exists s. auto.
Qed.

(** What the inner [try]/[catch] does when the remote fetch throws. *)
Lemma resolveSessions_remote_failure (env : Env) (s : State) :
  fst (getUserGameSessions env None None s) = Thrown ->
  resolveSessions env s =
  match cachedRecords env s with
  | [] =>
      (Returned (durableRecords env s),
       withPage (setDataSource (match durableRecords env s with
                                | [] => "No Data"
                                | _ => "Local Storage"
                                end))
                (withPage (setConnected false) s))
  | _ =>
      (Returned (cachedRecords env s),
       withPage (setDataSource "Cached Data") (withPage (setConnected false) s))
  end.
Proof.
  intros Hfail. destruct (getUserGameSessions_state env None None) as [o Ho].
  rewrite Ho in Hfail. simpl in Hfail. subst o.
  unfold resolveSessions, tryCatch at 1. unfold bind at 1. rewrite Ho.
  unfold bind at 1. unfold modifyPage at 1. unfold bind at 1.
  rewrite getCachedData_run.
  change (cachedRecords env (withPage (setConnected false) s)) with (cachedRecords env s).
  destruct (cachedRecords env s) as [|c cs].
  - unfold durableRecords, bind, getItem, tryCatch, modifyPage, ret.
    change (localStorage (withPage (setConnected false) s)) with (localStorage s).
    fold (durableKey env).
    destruct (orText (localStorage s !! durableKey env)
                     (orText (localStorage s !! "gameRecords") (JsonRecords [])))
      as [records|text]; simpl; [destruct records|]; reflexivity.
  - reflexivity.
Qed.

(** What the inner [try]/[catch] does when the remote fetch returns. *)
Lemma resolveSessions_remote_success (env : Env) (s : State) (sessions : list Session) :
  fst (getUserGameSessions env None None s) = Returned sessions ->
  resolveSessions env s =
  (Returned sessions, withPage (setDataSource "Firebase") (withPage (setConnected true) s)).
Proof.
  intros Hok. destruct (getUserGameSessions_state env None None) as [o Ho].
  rewrite Ho in Hok. simpl in Hok. subst o.
  unfold resolveSessions, tryCatch, bind. rewrite Ho. reflexivity.
Qed.

(** [filterSessionsByPeriod] reads the period and the custom dates of the
    page, nothing else. *)
Lemma filterSessionsByPeriod_fields (tz now : Z) (p1 p2 : ProgressPage)
      (sessions : list Session) :
  selectedPeriod p1 = selectedPeriod p2 ->
  customStartDate p1 = customStartDate p2 ->
  customEndDate p1 = customEndDate p2 ->
  filterSessionsByPeriod tz now p1 sessions = filterSessionsByPeriod tz now p2 sessions.
Proof.
  intros H1 H2 H3. unfold filterSessionsByPeriod, getChartDateRangeFromSessions.
  rewrite H1, H2, H3. reflexivity.
Qed.

(** The rest of [loadProgressData], once the sessions are resolved into
    state [s1]: the statistics, the cache write under its guard, and the
    loading flag. *)
Lemma loadProgressData_after (env : Env) (s : State) (sessions : list Session) (s1 : State) :
  resolveSessions env (withPage (setLastDataUpdate (now env)) (withPage (setLoading true) s))
  = (Returned sessions, s1) ->
  exists s2,
    loadProgressData env s = (Returned tt, s2) /\
    isFirebaseConnected (page s2) = isFirebaseConnected (page s1) /\
    dataSource (page s2) = dataSource (page s1) /\
    isLoading (page s2) = false /\
    overallStats (page s2)
    = overallStatsOf (filterSessionsByPeriod (tz env) (now env) (page s1) sessions) /\
    localStorage s2
    = match filterSessionsByPeriod (tz env) (now env) (page s1) sessions with
      | [] => localStorage s1
      | _ => <[cacheKey env := JsonRecords sessions]> (localStorage s1)
      end.
Proof.
  intros Hres. unfold loadProgressData, tryCatch at 1.
  unfold bind at 1. unfold modifyPage at 1. unfold bind at 1. unfold modifyPage at 1.
  unfold bind at 1. rewrite Hres. unfold bind at 1. unfold getPage at 1.
  destruct (filterSessionsByPeriod (tz env) (now env) (page s1) sessions) as [|f fs] eqn:Ef.
  - unfold bind at 1. unfold bind at 1. unfold modifyPage at 1.
    destruct (updateFirebaseStats_run env []
                (withPage (setOverallStats
                             {| accuracy := PrimFloat.zero; avgTimePerCard := PrimFloat.zero;
                                totalCards := 0; skippedCards := 0 |}) s1))
      as (s' & Hrun & Hp & Hl).
    unfold bind at 1. rewrite Hrun. unfold modifyPage.
    eexists. split; [reflexivity|]. simpl. rewrite Hp, Hl. simpl. repeat split; reflexivity.
  - unfold bind at 1. unfold bind at 1. unfold modifyPage at 1.
    unfold bind at 1. rewrite cacheData_run.
    destruct (updateFirebaseStats_run env sessions
                (withItem (cacheKey env) (JsonRecords sessions)
                   (withPage (calculateOverallStats (f :: fs)) s1)))
      as (s' & Hrun & Hp & Hl).
    unfold bind at 1. rewrite Hrun. unfold modifyPage.
    eexists. split; [reflexivity|]. simpl. rewrite Hp, Hl. simpl. repeat split; reflexivity.
Qed.

(** [loadProgressData] always returns: no exception escapes it. *)
Lemma loadProgressData_returns (env : Env) (s : State) :
  exists s2, loadProgressData env s = (Returned tt, s2).
Proof.
  set (s0 := withPage (setLastDataUpdate (now env)) (withPage (setLoading true) s)).
  destruct (getUserGameSessions_state env None None) as [o Ho].
  destruct o as [sessions|].
  - destruct (loadProgressData_after env s sessions _
                (resolveSessions_remote_success env s0 sessions
                   ltac:(rewrite Ho; reflexivity))) as (s2 & H & _).
    exists s2. exact H.
  - assert (Hf : fst (getUserGameSessions env None None s0) = Thrown)
      by (rewrite Ho; reflexivity).
    pose proof (resolveSessions_remote_failure env s0 Hf) as Hres.
    destruct (cachedRecords env s0);
      destruct (loadProgressData_after env s _ _ Hres) as (s2 & H & _);
      exists s2; exact H.
Qed.



(** ** Loading: the live tier and the cache *)

(** What [loadProgressData] does when the remote fetch returns: the page
    is marked as connected and labelled "Firebase", and the fetched records
    are written to the cache exactly when at least one of them falls in the
    selected period; otherwise local storage is left as it was. *)
Lemma loadProgressData_live (env : Env) (s : State) (sessions : list Session) :
  fst (getUserGameSessions env None None s) = Returned sessions ->
  exists s2 : State,
    loadProgressData env s = (Returned tt, s2) /\
    isFirebaseConnected (page s2) = true /\
    dataSource (page s2) = "Firebase" /\
    (filterSessionsByPeriod (tz env) (now env) (page s) sessions <> [] ->
       localStorage s2 = <[cacheKey env := JsonRecords sessions]> (localStorage s)) /\
    (filterSessionsByPeriod (tz env) (now env) (page s) sessions = [] ->
       localStorage s2 = localStorage s).
Proof.
  intros Hok.
  set (s0 := withPage (setLastDataUpdate (now env)) (withPage (setLoading true) s)).
  assert (Hok0 : fst (getUserGameSessions env None None s0) = Returned sessions).
  { destruct (getUserGameSessions_state env None None) as [o Ho].
    rewrite Ho in Hok |- *. exact Hok. }
  destruct (loadProgressData_after env s sessions _
              (resolveSessions_remote_success env s0 sessions Hok0))
    as (s2 & Hrun & Hconn & Hsrc & _ & _ & Hstore).
  exists s2. split; [exact Hrun|]. split; [rewrite Hconn; reflexivity|].
  split; [rewrite Hsrc; reflexivity|].
  change (page (withPage (setDataSource "Firebase") (withPage (setConnected true) s0)))
    with (setDataSource "Firebase" (setConnected true
            (setLastDataUpdate (now env) (setLoading true (page s))))) in Hstore.
  rewrite (filterSessionsByPeriod_fields (tz env) (now env)
             (setDataSource "Firebase" (setConnected true
                (setLastDataUpdate (now env) (setLoading true (page s)))))
             (page s) sessions eq_refl eq_refl eq_refl) in Hstore.
  destruct (filterSessionsByPeriod (tz env) (now env) (page s) sessions) as [|f fs].
  - split; [intros Hne; congruence|]. intros _. exact Hstore.
  - split; [|intros Hnil; discriminate]. intros _. exact Hstore.
Qed.

(** A push of the live subscription, in contrast, writes the pushed
    records to the cache whatever their number. *)
Lemma onGameRecords_caches (env : Env) (updateChart : M unit) (sessions : list Session)
      (s : State) :
  exists s2 : State,
    onGameRecords env updateChart sessions s = (Returned tt, s2) /\
    cachedRecords env s2 = sessions.
Proof.
  unfold onGameRecords, bind, modifyPage, getPage, detached, tryCatch, ret.
  destruct (updateChart _) as [[[]|] s1]; rewrite cacheData_run;
    (eexists; split; [reflexivity|]);
    unfold cachedRecords; simpl; rewrite lookup_insert_eq; reflexivity.
Qed.

(** C7, on the code.  Whenever the remote fetch returns, the page reports
    the live tier, whatever the number of records.  But the fetched records
    are written to the cache only when at least one of them falls in the
    selected period.  With zero records fetched, the cache keeps the earlier
    record it held, not the empty set that was fetched.  With one record
    fetched that is dated the day before the clock's, the period [today]
    leaves an empty local storage empty, where the period [all] caches the
    record.  A push of the live subscription writes the same records to the
    cache whatever their number and the period. *)
Theorem C7_fetch_outside_period_is_not_cached :
  (forall (env : Env) (s : State) (sessions : list Session),
     fst (getUserGameSessions env None None s) = Returned sessions ->
     exists s2 : State,
       loadProgressData env s = (Returned tt, s2) /\
       isFirebaseConnected (page s2) = true /\
       tierOfDataSource (dataSource (page s2)) = Some Live /\
       (filterSessionsByPeriod (tz env) (now env) (page s) sessions <> [] ->
          localStorage s2 = <[cacheKey env := JsonRecords sessions]> (localStorage s) /\
          cachedRecords env s2 = sessions) /\
       (filterSessionsByPeriod (tz env) (now env) (page s) sessions = [] ->
          localStorage s2 = localStorage s)) /\
  (fst (getUserGameSessions liveEmptyEnv None None deviceState) = Returned [] /\
   tierOfDataSource (dataSource (page (snd (loadProgressData liveEmptyEnv deviceState))))
   = Some Live /\
   cachedRecords liveEmptyEnv deviceState = [earlierRecord] /\
   cachedRecords liveEmptyEnv (snd (loadProgressData liveEmptyEnv deviceState))
   = [earlierRecord]) /\
  (fst (getUserGameSessions liveEnv None None (stateWith "today" ∅))
   = Returned [earlierRecord] /\
   tierOfDataSource
     (dataSource (page (snd (loadProgressData liveEnv (stateWith "today" ∅)))))
   = Some Live /\
   localStorage (snd (loadProgressData liveEnv (stateWith "today" ∅))) = ∅ /\
   localStorage (snd (loadProgressData liveEnv (stateWith "all" ∅)))
   = {[ "gameRecords_u1"%string := JsonRecords [earlierRecord] ]}) /\
  (forall (env : Env) (updateChart : M unit) (sessions : list Session) (s : State),
     exists s2 : State,
       onGameRecords env updateChart sessions s = (Returned tt, s2) /\
       cachedRecords env s2 = sessions) /\
  cachedRecords liveEmptyEnv (snd (onGameRecords liveEmptyEnv (ret tt) [] deviceState)) = [].
Proof.
  split.
  { intros env s sessions Hok.
    destruct (loadProgressData_live env s sessions Hok)
      as (s2 & Hrun & Hconn & Hsrc & Hwrite & Hskip).
    exists s2. split; [exact Hrun|]. split; [exact Hconn|].
    split; [rewrite Hsrc; reflexivity|].
    split; [|exact Hskip]. intros Hne. split; [exact (Hwrite Hne)|].
    unfold cachedRecords. rewrite (Hwrite Hne), lookup_insert_eq. reflexivity. }
  split.
  { split; [reflexivity|]. split; [vm_compute; reflexivity|].
    split; vm_compute; reflexivity. }
  split.
  { split; [reflexivity|]. split; [vm_compute; reflexivity|].
    split; vm_compute; reflexivity. }
  split; [exact onGameRecords_caches|].
  vm_compute. reflexivity.
Qed.


(** ** Saving a session *)

(** When the remote write throws, [saveGameSession] returns without having
    touched local storage. *)
Lemma saveGameSession_remote_failure (env : Env) (sessionData : Session)
      (progressPageInstance : option (M unit)) (s : State) :
  currentUser env = None \/ remoteWriteOk env = false ->
  saveGameSession env sessionData progressPageInstance s = (Returned tt, s).
Proof.
  intros Hfail.
  unfold saveGameSession, FirebaseService_saveGameSession, addGameRecord, tryCatch, bind,
    throw, ret.
  destruct (currentUser env) as [uid|]; [|reflexivity].
  destruct Hfail as [Hfail|Hfail]; [discriminate|]. rewrite Hfail. reflexivity.
Qed.

(** C6, on the code.  With the remote store refusing the write,
    [saveGameSession] returns normally and the user's entry of local storage
    is what it was: the new record is not appended.  With the remote store
    accepting the write, the record is appended to that entry. *)
Theorem C6_remote_failure_skips_local_append :
  fst (saveGameSession offlineEnv newRecord None deviceState) = Returned tt /\
  snd (saveGameSession offlineEnv newRecord None deviceState) = deviceState /\
  durableRecords offlineEnv (snd (saveGameSession offlineEnv newRecord None deviceState))
  = [earlierRecord] /\
  durableRecords liveEnv (snd (saveGameSession liveEnv newRecord None deviceState))
  = [earlierRecord; withTimestamp (TimeIso clock) newRecord; newRecord].
Proof.
  split; [reflexivity|]. split; [reflexivity|].
  split; [vm_compute; reflexivity|]. vm_compute. reflexivity.
Qed.

(** ** The fallback refresh timer *)

(** A firing of the timer reloads exactly when the last update is more
    than 30000 milliseconds old. *)
Lemma autoRefreshTick_fresh (env : Env) (updateChart : M unit) (s : State) :
  now env - lastDataUpdate (page s) <= 30000 ->
  autoRefreshTick env updateChart s = (Returned tt, s).
Proof.
  intros H. unfold autoRefreshTick, bind, getPage.
  destruct (Z.ltb_spec 30000 (now env - lastDataUpdate (page s))); [lia|reflexivity].
Qed.

Lemma autoRefreshTick_stale (env : Env) (updateChart : M unit) (s : State) :
  30000 < now env - lastDataUpdate (page s) ->
  autoRefreshTick env updateChart s =
  (if chartLoaded (page s) then detached updateChart else ret tt)
    (snd (loadProgressData env s)).
Proof.
  intros H. unfold autoRefreshTick, bind, getPage.
  destruct (Z.ltb_spec 30000 (now env - lastDataUpdate (page s))); [|lia].
  unfold detached at 1, tryCatch at 1.
  destruct (loadProgressData_returns env s) as [s2 Hrun]. rewrite Hrun. reflexivity.
Qed.

(** C9, on the code.  [setupAutoRefresh] sets a repeating timer of 3000
    milliseconds, not of 30000; a firing reloads the data when the last
    update is more than 30000 milliseconds old (here 30001) and does nothing
    otherwise (here exactly 30000). *)
Theorem C9_auto_refresh_every_3000_ms :
  autoRefreshDelay = 3000 /\
  intervals (snd (setupAutoRefresh deviceState)) = [3000] /\
  intervals (snd (setupAutoRefresh deviceState)) <> [30000] /\
  lastDataUpdate
    (page (snd (autoRefreshTick
                  {| tz := gmt8; now := 30001; currentUser := None; storedUserId := None;
                     remoteFetch := None; remoteWriteOk := false |}
                  (ret tt) deviceState))) = 30001 /\
  autoRefreshTick
    {| tz := gmt8; now := 30000; currentUser := None; storedUserId := None;
       remoteFetch := None; remoteWriteOk := false |}
    (ret tt) deviceState = (Returned tt, deviceState).
Proof.
  split; [reflexivity|]. split; [reflexivity|]. split; [discriminate|].
  split; [vm_compute; reflexivity|]. reflexivity.
Qed.

(** ** The loop of the custom period *)

Lemma setDate_next_day (tz cur : Z) :
  setDate tz cur (getDate tz cur + 1) = cur + msPerDay.
Proof.
  rewrite setDate_getDate. unfold localDay, Day, TimeWithinDay.
  pose proof (Z.div_mod (cur + tz) msPerDay ltac:(unfold msPerDay; lia)). lia.
Qed.

(** The fuel [getChartDateRangeFromSessions] gives the loop is enough:
    more fuel adds no bucket. *)
Lemma customLoop_enough_fuel (tz end' : Z) (k : nat) :
  forall (cur : Z) (n : nat),
    Z.to_nat ((end' - cur) / msPerDay + 1) = k ->
    customLoop tz (k + n) cur end' = customLoop tz k cur end'.
Proof.
  assert (Hpos : 0 < msPerDay) by (unfold msPerDay; lia).
  induction k as [|k IH]; intros cur n Hk.
  - assert (Hlt : end' < cur).
    { destruct (Z.lt_ge_cases end' cur) as [H|H]; [exact H|].
      pose proof (Z.div_pos (end' - cur) msPerDay ltac:(lia) Hpos). lia. }
    destruct n as [|n]; simpl; [reflexivity|].
    destruct (Z.leb_spec cur end'); [lia|reflexivity].
  - assert (Hle : cur <= end').
    { destruct (Z.le_gt_cases cur end') as [H|H]; [exact H|].
      pose proof (Z.div_lt_upper_bound (end' - cur) msPerDay 0 Hpos ltac:(lia)). lia. }
    simpl. destruct (Z.leb_spec cur end'); [|lia].
    f_equal. rewrite setDate_next_day. apply IH.
    replace (end' - (cur + msPerDay)) with (end' - cur + (-1) * msPerDay) by lia.
    rewrite Z.div_add by lia. lia.
Qed.

(** * Further properties *)

(** ** The buckets of the other periods *)

Lemma labelWeekdayMonthDay_localDay (tz t1 t2 : Z) :
  localDay tz t1 = localDay tz t2 ->
  labelWeekdayMonthDay tz t1 = labelWeekdayMonthDay tz t2.
Proof.
  intros H. unfold labelWeekdayMonthDay, weekdayShort, monthShort, getDay, getMonth, getDate.
  rewrite H. reflexivity.
Qed.

Lemma labelMonthDay_localDay (tz t1 t2 : Z) :
  localDay tz t1 = localDay tz t2 -> labelMonthDay tz t1 = labelMonthDay tz t2.
Proof.
  intros H. unfold labelMonthDay, monthShort, getMonth, getDate. rewrite H. reflexivity.
Qed.

Lemma setHours_start (tz t : Z) : setHours tz t 0 0 0 0 = dayStartOf tz (localDay tz t).
Proof. unfold setHours, dayStartOf, MakeTime. lia. Qed.

Lemma setHours_end (tz t : Z) :
  setHours tz t 23 59 59 999 = dayStartOf tz (localDay tz t) + msPerDay - 1.
Proof. unfold setHours, dayStartOf, MakeTime, msPerDay. lia. Qed.

(** The instants from the start of day [d1] to the end of day [d2] are
    those whose local day lies between the two. *)
Lemma between_days (tz d1 d2 t : Z) :
  dayStartOf tz d1 <= t <= dayStartOf tz d2 + msPerDay - 1 <->
  d1 <= localDay tz t <= d2.
Proof.
  unfold dayStartOf, localDay, Day.
  assert (Hpos : 0 < msPerDay) by (unfold msPerDay; lia).
  pose proof (Z.div_mod (t + tz) msPerDay ltac:(lia)) as Hdm.
  pose proof (Z.mod_pos_bound (t + tz) msPerDay Hpos) as Hb.
  split; intros H; nia.
Qed.

Lemma todayBucket_dayBucket (tz now : Z) :
  todayBucket tz now = dayBucket tz (localDay tz now).
Proof.
  unfold todayBucket, dayBucket. cbv zeta.
  rewrite setHours_start, setHours_end.
  rewrite (localDateKey_localDay tz now (dayStartOf tz (localDay tz now)))
    by (symmetry; apply localDay_dayStartOf).
  rewrite (labelWeekdayMonthDay_localDay tz now (dayStartOf tz (localDay tz now)))
    by (symmetry; apply localDay_dayStartOf).
  reflexivity.
Qed.

Lemma defaultBucket_dayBucket (tz now i : Z) :
  defaultBucket tz now i = dayBucket tz (localDay tz now - i).
Proof.
  unfold defaultBucket, dayBucket. cbv zeta.
  replace (getDate tz now - i) with (getDate tz now + - i) by lia.
  rewrite setHours_start, setDate_getDate.
  rewrite localDay_of_day
    by (unfold TimeWithinDay; apply Z.mod_pos_bound; unfold msPerDay; lia).
  replace (localDay tz now + - i) with (localDay tz now - i) by lia.
  reflexivity.
Qed.

(** X1.  In the today period, whatever the sessions are,
    [getChartDateRangeFromSessions] returns the single bucket of the current
    local calendar day, which contains the clock's instant, and
    [filterSessionsByPeriod] keeps exactly the sessions dated on that day. *)
Theorem X1_today_period (tz now : Z) (this : ProgressPage) (sessions : list Session) :
  selectedPeriod this = "today" ->
  getChartDateRangeFromSessions tz now this sessions = [dayBucket tz (localDay tz now)] /\
  start (dayBucket tz (localDay tz now)) <= now <= end_ (dayBucket tz (localDay tz now)) /\
  (forall s, In s (filterSessionsByPeriod tz now this sessions) <->
             In s sessions /\ localDay tz (sessionDate s) = localDay tz now).
Proof.
  intros Hp.
  assert (Hrange : getChartDateRangeFromSessions tz now this sessions
                   = [dayBucket tz (localDay tz now)]).
  { unfold getChartDateRangeFromSessions. rewrite Hp.
    change (String.eqb "today" "today") with true. cbv iota.
    rewrite todayBucket_dayBucket. reflexivity. }
  split; [exact Hrange|]. split; [apply dayBucket_day; reflexivity|].
  intros s. unfold filterSessionsByPeriod. rewrite Hp.
  change (String.eqb "today" "all") with false. cbv iota zeta. rewrite Hrange.
  cbn [List.last]. rewrite filter_In, within_closed, dayBucket_day. tauto.
Qed.

Lemma X1_today_period_witness :
  getChartDateRangeFromSessions gmt8 clock (initialPage "today") marchSessions
  = [dayBucket gmt8 (localDay gmt8 clock)].
Proof.
  exact (proj1 (X1_today_period gmt8 clock (initialPage "today") marchSessions eq_refl)).
Defined.

(** With a fixed offset: in a period that is none of today, week, month,
    all and custom, the range is the 7 local calendar days that end with the
    current day, oldest first, and the filter keeps the sessions dated on
    these days. *)
Lemma default_period_fixed (tz now : Z) (this : ProgressPage) (sessions : list Session) :
  String.eqb (selectedPeriod this) "today" = false ->
  String.eqb (selectedPeriod this) "week" = false ->
  String.eqb (selectedPeriod this) "month" = false ->
  String.eqb (selectedPeriod this) "all" = false ->
  String.eqb (selectedPeriod this) "custom" = false ->
  getChartDateRangeFromSessions tz now this sessions
  = map (fun i => dayBucket tz (localDay tz now - i)) [6; 5; 4; 3; 2; 1; 0] /\
  (forall s, In s (filterSessionsByPeriod tz now this sessions) <->
             In s sessions /\
             localDay tz now - 6 <= localDay tz (sessionDate s) <= localDay tz now).
Proof.
  intros H1 H2 H3 H4 H5.
  assert (Hrange : getChartDateRangeFromSessions tz now this sessions
                   = map (fun i => dayBucket tz (localDay tz now - i)) [6; 5; 4; 3; 2; 1; 0]).
  { unfold getChartDateRangeFromSessions. rewrite H1, H2, H3, H4, H5.
    change (rev (indices 7)) with [6; 5; 4; 3; 2; 1; 0].
    apply map_ext. intros i. apply defaultBucket_dayBucket. }
  split; [exact Hrange|].
  intros s. unfold filterSessionsByPeriod. rewrite H4. cbv zeta. rewrite Hrange.
  cbn [map List.last]. rewrite filter_In, within_closed.
  unfold dayBucket. cbn [start end_].
  replace (localDay tz now - 0) with (localDay tz now) by lia.
  rewrite between_days. tauto.
Qed.

Lemma within_dayBucket (tz day : Z) (s : Session) :
  within (start (dayBucket tz day)) (end_ (dayBucket tz day)) s
  = (localDay tz (sessionDate s) =? day).
Proof.
  apply eq_true_iff_eq. rewrite within_closed, dayBucket_day, Z.eqb_eq. tauto.
Qed.

(** Among day buckets a session is assigned to the bucket of its own local
    day, when that day is one of them. *)
Lemma assignedBucket_days (tz : Z) (days : list Z) (s : Session) :
  In (localDay tz (sessionDate s)) days ->
  assignedBucket (map (dayBucket tz) days) s
  = Some (dayBucket tz (localDay tz (sessionDate s))).
Proof.
  unfold assignedBucket. induction days as [|d rest IH]; cbn [map find]; intros Hin.
  - contradiction.
  - rewrite within_dayBucket. destruct (Z.eqb_spec (localDay tz (sessionDate s)) d) as [->|Hne].
    + reflexivity.
    + apply IH. destruct Hin as [Hd|Hin]; [congruence|exact Hin].
Qed.

Lemma key_dayBucket (tz : Z) (s : Session) :
  key (dayBucket tz (localDay tz (sessionDate s))) = localDateKey tz (sessionDate s).
Proof.
  unfold dayBucket. cbn [key]. apply localDateKey_localDay. apply localDay_dayStartOf.
Qed.

(** A session whose local day is one of the days of a list of day buckets
    is filed under its own date key. *)
Lemma filed_under_own_date (tz : Z) (days : list Z) (sessions : list Session) (s : Session) :
  In s sessions -> In (localDay tz (sessionDate s)) days ->
  exists l,
    groupSessionsIntoBuckets sessions (map (dayBucket tz) days)
      !! localDateKey tz (sessionDate s) = Some l /\ In s l.
Proof.
  intros Hs Hday. rewrite groupSessionsIntoBuckets_lookup.
  assert (Hk : existsb (String.eqb (localDateKey tz (sessionDate s)))
                       (map key (map (dayBucket tz) days)) = true).
  { apply existsb_exists. exists (localDateKey tz (sessionDate s)). split.
    - rewrite <- key_dayBucket. apply in_map. apply in_map. exact Hday.
    - apply String.eqb_refl. }
  rewrite Hk. eexists. split; [reflexivity|].
  apply filter_In. split; [exact Hs|].
  unfold assignedTo. rewrite (assignedBucket_days tz days s Hday), key_dayBucket.
  apply String.eqb_refl.
Qed.

Lemma localDay_monotone (tz t1 t2 : Z) : t1 <= t2 -> localDay tz t1 <= localDay tz t2.
Proof.
  intros H. unfold localDay, Day. apply Z.div_le_mono; [unfold msPerDay; lia|lia].
Qed.

(** What the week period keeps of sessions that are not none. *)
Lemma week_filter_kept (tz now : Z) (this : ProgressPage) (first : Session)
      (rest : list Session) (s : Session) :
  selectedPeriod this = "week" ->
  In s (filterSessionsByPeriod tz now this (first :: rest)) <->
  In s (first :: rest) /\
  localDay tz (sessionDate s)
  <= localDay tz (earliestSessionOf first (first :: rest)) + 7.
Proof.
  intros Hp. destruct (earliestSessionOf_min first rest) as [_ Hmin].
  unfold filterSessionsByPeriod. rewrite Hp.
  change (String.eqb "week" "all") with false. cbv iota zeta.
  rewrite (week_range tz now this first rest Hp).
  cbn [map List.last]. rewrite filter_In, within_closed.
  unfold dayBucket. cbn [start end_].
  rewrite Z.add_0_r, between_days. split.
  - intros [Hs Hd]. split; [exact Hs|lia].
  - intros [Hs Hd]. split; [exact Hs|].
    pose proof (localDay_monotone tz _ _ (Hmin s Hs)). lia.
Qed.

Lemma week_filter_nonempty (tz now : Z) (this : ProgressPage) (first : Session)
      (rest : list Session) :
  selectedPeriod this = "week" ->
  filterSessionsByPeriod tz now this (first :: rest) <> [].
Proof.
  intros Hp Hnil. destruct (earliestSessionOf_min first rest) as [Hin _].
  apply in_map_iff in Hin as (s0 & Hs0 & Hin0).
  assert (Hk : In s0 (filterSessionsByPeriod tz now this (first :: rest))).
  { apply week_filter_kept; [exact Hp|]. split; [exact Hin0|]. rewrite Hs0. lia. }
  rewrite Hnil in Hk. contradiction.
Qed.

(** X3.  In the week period, for sessions that are not none and whose
    dates are ordinary (valid dates of the years 1000 to 9999),
    [filterSessionsByPeriod] keeps exactly the sessions dated at most 7 local
    calendar days after the day of the earliest session date; the earliest
    session is among them, so the result is never empty; and
    [groupSessionsIntoBuckets] files every session that is kept under the key
    of its own local date. *)
Theorem X3_week_filter (tz now : Z) (this : ProgressPage) (sessions : list Session) :
  selectedPeriod this = "week" ->
  sessions <> [] ->
  ordinaryDates tz sessions ->
  exists minTimestamp : Z,
    In minTimestamp (map sessionDate sessions) /\
    (forall s, In s sessions -> minTimestamp <= sessionDate s) /\
    (forall s, In s (filterSessionsByPeriod tz now this sessions) <->
               In s sessions /\
               localDay tz (sessionDate s) <= localDay tz minTimestamp + 7) /\
    filterSessionsByPeriod tz now this sessions <> [] /\
    (forall s, In s (filterSessionsByPeriod tz now this sessions) ->
               exists l,
                 groupSessionsIntoBuckets sessions
                   (getChartDateRangeFromSessions tz now this sessions)
                   !! localDateKey tz (sessionDate s) = Some l /\ In s l).
Proof.
  intros Hp Hne _. destruct sessions as [|first rest]; [congruence|].
  set (e := earliestSessionOf first (first :: rest)).
  destruct (earliestSessionOf_min first rest) as [Hin Hmin]. fold e in Hin, Hmin.
  exists e. split; [exact Hin|]. split; [exact Hmin|].
  split; [intros s; apply week_filter_kept; exact Hp|].
  split; [apply week_filter_nonempty; exact Hp|].
  intros s Hs. apply (week_filter_kept tz now this first rest s Hp) in Hs as [Hs Hd].
  fold e in Hd.
  rewrite (week_range tz now this first rest Hp). fold e.
  change (map (fun i => dayBucket tz (localDay tz e + i)) [0; 1; 2; 3; 4; 5; 6; 7])
    with (map (dayBucket tz) (map (fun i => localDay tz e + i) [0; 1; 2; 3; 4; 5; 6; 7])).
  apply filed_under_own_date; [exact Hs|].
  pose proof (localDay_monotone tz _ _ (Hmin s Hs)) as Hmono.
  assert (Hi : exists i, In i [0; 1; 2; 3; 4; 5; 6; 7] /\
                         localDay tz e + i = localDay tz (sessionDate s)).
  { exists (localDay tz (sessionDate s) - localDay tz e). split; [|lia].
    assert (Hr : 0 <= localDay tz (sessionDate s) - localDay tz e <= 7) by lia.
    revert Hr. generalize (localDay tz (sessionDate s) - localDay tz e). intros i Hr.
    simpl. lia. }
  destruct Hi as (i & Hi & Heq). rewrite <- Heq. apply in_map. exact Hi.
Qed.

Lemma X3_week_filter_witness :
  filterSessionsByPeriod gmt8 clock (initialPage "week") marchSessions <> [] /\
  exists minTimestamp : Z, In minTimestamp (map sessionDate marchSessions).
Proof.
  assert (Hne : marchSessions <> []) by discriminate.
  destruct (X3_week_filter gmt8 clock (initialPage "week") marchSessions eq_refl Hne
              march_ordinaryDates)
    as (m & Hin & _ & _ & Hnonempty & _).
  split; [exact Hnonempty|]. exists m. exact Hin.
Defined.

Lemma dayStartOf_next (tz day : Z) : dayStartOf tz day + msPerDay = dayStartOf tz (day + 1).
Proof. unfold dayStartOf. lia. Qed.

(** The loop of the custom period, run from the start of day [d1] to the
    end of day [d2] with one unit of fuel per day, gives the day buckets of
    [d1], [d1 + 1], ..., [d2]. *)
Lemma customLoop_days (tz d2 : Z) (n : nat) :
  forall d1 : Z,
    n = Z.to_nat (d2 - d1 + 1) ->
    customLoop tz n (dayStartOf tz d1) (dayStartOf tz d2 + msPerDay - 1)
    = map (customDayBucket tz) (seqZ d1 (d2 - d1 + 1)).
Proof.
  induction n as [|k IH]; intros d1 Hn.
  - rewrite seqZ_nil by lia. reflexivity.
  - assert (Hle : d1 <= d2) by lia.
    rewrite seqZ_cons by lia. cbn [customLoop map].
    assert (Hcur : dayStartOf tz d1 <= dayStartOf tz d2 + msPerDay - 1).
    { unfold dayStartOf, msPerDay. lia. }
    destruct (Z.leb_spec (dayStartOf tz d1) (dayStartOf tz d2 + msPerDay - 1)); [|lia].
    f_equal.
    rewrite setDate_next_day, dayStartOf_next.
    replace (Z.succ d1) with (d1 + 1) by lia.
    replace (Z.pred (d2 - d1 + 1)) with (d2 - (d1 + 1) + 1) by lia.
    apply IH. lia.
Qed.

Lemma last_map_seqZ (f : Z -> Bucket) (d1 n : Z) (default : Bucket) :
  0 < n -> List.last (map f (seqZ d1 n)) default = f (d1 + n - 1).
Proof.
  intros Hn. replace n with ((n - 1) + 1) at 1 by lia.
  rewrite seqZ_app by lia. rewrite map_app.
  rewrite (seqZ_cons (d1 + (n - 1)) 1) by lia.
  rewrite (seqZ_nil (Z.succ (d1 + (n - 1)))) by lia.
  cbn [map]. rewrite last_last. f_equal. lia.
Qed.

(** With a fixed offset: in the custom period the range is one bucket for
    every local calendar day from the day of the start date to the day of the
    end date, and the filter keeps the sessions dated on these days. *)
Lemma custom_period_fixed (tz now : Z) (this : ProgressPage) (sessions : list Session) :
  selectedPeriod this = "custom" ->
  let d1 := localDay tz (match customStartDate this with Some d => d | None => now end) in
  let d2 := localDay tz (match customEndDate this with Some d => d | None => now end) in
  getChartDateRangeFromSessions tz now this sessions
  = map (customDayBucket tz) (seqZ d1 (d2 - d1 + 1)) /\
  List.length (getChartDateRangeFromSessions tz now this sessions) = Z.to_nat (d2 - d1 + 1) /\
  (forall day t : Z,
     start (customDayBucket tz day) <= t <= end_ (customDayBucket tz day)
     <-> localDay tz t = day) /\
  (forall s, In s (filterSessionsByPeriod tz now this sessions) <->
             In s sessions /\ d1 <= localDay tz (sessionDate s) <= d2).
Proof.
  intros Hp d1 d2.
  assert (Hrange : getChartDateRangeFromSessions tz now this sessions
                   = map (customDayBucket tz) (seqZ d1 (d2 - d1 + 1))).
  { unfold getChartDateRangeFromSessions. rewrite Hp.
    change (String.eqb "custom" "today") with false.
    change (String.eqb "custom" "week") with false.
    change (String.eqb "custom" "month") with false.
    change (String.eqb "custom" "all") with false.
    change (String.eqb "custom" "custom") with true. cbv iota zeta.
    rewrite setHours_start, setHours_end. fold d1 d2.
    apply customLoop_days.
    f_equal. unfold dayStartOf.
    replace (d2 * msPerDay - tz + msPerDay - 1 - (d1 * msPerDay - tz))
      with (msPerDay - 1 + (d2 - d1) * msPerDay) by lia.
    rewrite Z.div_add by (unfold msPerDay; lia).
    rewrite Z.div_small by (unfold msPerDay; lia). lia. }
  split; [exact Hrange|].
  split; [rewrite Hrange, length_map, length_seqZ; reflexivity|].
  split.
  { intros day t. unfold customDayBucket. cbn [start end_].
    rewrite (between_days tz day day t). lia. }
  intros s. unfold filterSessionsByPeriod. rewrite Hp.
  change (String.eqb "custom" "all") with false. cbv iota zeta. rewrite Hrange.
  destruct (Z.le_gt_cases d1 d2) as [Hle|Hgt].
  - pose proof (last_map_seqZ (customDayBucket tz) d1 (d2 - d1 + 1)) as Hlast.
    assert (Hhead : exists rest, map (customDayBucket tz) (seqZ d1 (d2 - d1 + 1))
                                 = customDayBucket tz d1 :: rest).
    { rewrite seqZ_cons by lia. eexists. reflexivity. }
    destruct Hhead as [rest Hhead]. rewrite Hhead in Hlast |- *. cbv iota.
    rewrite Hlast by lia.
    rewrite filter_In, within_closed. unfold customDayBucket. cbn [start end_].
    replace (d1 + (d2 - d1 + 1) - 1) with d2 by lia.
    rewrite between_days. tauto.
  - rewrite seqZ_nil by lia. cbn [map]. split; [intros []|]. intros [_ H]. lia.
Qed.

(** X4 at a page whose custom range is the three days from 3 to 5 March 2025. *)
(** ** The buckets of the month period *)

(** The first day of the month after the month of a day comes after the
    day. *)
Lemma next_month_after (z : Z) :
  let '(y, m, d) := civilFromDays z in
  z < MakeDay y m 1.
Proof.
  unfold civilFromDays. cbv zeta.
  set (z1 := z + 719468).
  set (era := z1 / 146097).
  set (doe := z1 - era * 146097).
  assert (Hdoe : 0 <= doe < 146097).
  { subst doe era. pose proof (Z.div_mod z1 146097 ltac:(lia)).
    pose proof (Z.mod_pos_bound z1 146097 ltac:(lia)). lia. }
  set (yoe := (doe - doe / 1460 + doe / 36524 - doe / 146096) / 365).
  assert (Hyoe : 0 <= yoe <= 399 /\ 0 <= doe - (365 * yoe + yoe / 4 - yoe / 100) <= 365
                 /\ (yoe < 399 -> doe < 365 * (yoe + 1) + (yoe + 1) / 4 - (yoe + 1) / 100)).
  { subst yoe. clearbody doe. clear -Hdoe. Z.div_mod_to_equations. lia. }
  set (doy := doe - (365 * yoe + yoe / 4 - yoe / 100)) in *.
  set (mp := (5 * doy + 2) / 153).
  assert (Hmp : 0 <= mp <= 11 /\ doy < (153 * (mp + 1) + 2) / 5).
  { subst mp. destruct Hyoe as (_ & Hdoy & _). clearbody doy. clear -Hdoy.
    Z.div_mod_to_equations. lia. }
  destruct Hmp as [Hmp Hnext]. destruct Hyoe as (Hyoe & Hdoy & Hyear).
  assert (Hz : z = era * 146097 + doe - 719468) by (subst doe z1; lia).
  assert (Hdoe' : doe = 365 * yoe + yoe / 4 - yoe / 100 + doy) by (subst doy; lia).
  clearbody doy mp yoe doe era. clear z1.
  unfold MakeDay, daysFromCivil. cbv zeta.
  destruct (Z.ltb_spec mp 10) as [Hlt|Hge].
  - destruct (Z.leb_spec (mp + 3) 2) as [?|_]; [lia|].
    replace (yoe + era * 400 + 0) with (yoe + era * 400) by lia.
    assert (Hcase : mp + 3 <= 11 \/ mp + 3 = 12) by lia.
    destruct Hcase as [Hc|Hc].
    + rewrite (Z.div_small (mp + 3) 12) by lia. rewrite (Z.mod_small (mp + 3) 12) by lia.
      destruct (Z.leb_spec (mp + 3 + 1) 2) as [?|_]; [lia|].
      destruct (Z.ltb_spec 2 (mp + 3 + 1)) as [_|?]; [|lia].
      replace (yoe + era * 400 + 0) with (yoe + era * 400) by lia.
      rewrite Z.div_add by lia. rewrite (Z.div_small yoe 400) by lia.
      replace (yoe + era * 400 - (0 + era) * 400) with yoe by lia.
      replace (mp + 3 + 1 - 3) with (mp + 1) by lia. lia.
    + rewrite Hc. change (12 / 12) with 1. change (12 mod 12 + 1) with 1.
      change (1 <=? 2) with true. change (2 <? 1) with false. cbv iota.
      replace (yoe + era * 400 + 1 - 1) with (yoe + era * 400) by lia.
      rewrite Z.div_add by lia. rewrite (Z.div_small yoe 400) by lia.
      replace (yoe + era * 400 - (0 + era) * 400) with yoe by lia.
      replace (1 + 9) with (mp + 1) by lia. lia.
  - destruct (Z.leb_spec (mp - 9) 2) as [_|?]; [|lia].
    assert (Hcase : mp = 10 \/ mp = 11) by lia.
    destruct Hcase as [Hc|Hc]; subst mp.
    + change (10 - 9) with 1. change (1 / 12) with 0. change (1 mod 12 + 1) with 2.
      change (2 <=? 2) with true. change (2 <? 2) with false. cbv iota.
      replace (yoe + era * 400 + 1 + 0 - 1) with (yoe + era * 400) by lia.
      rewrite Z.div_add by lia. rewrite (Z.div_small yoe 400) by lia.
      replace (yoe + era * 400 - (0 + era) * 400) with yoe by lia.
      change (2 + 9) with (10 + 1). lia.
    + change (11 - 9) with 2. change (2 / 12) with 0. change (2 mod 12 + 1) with 3.
      change (3 <=? 2) with false. change (2 <? 3) with true. cbv iota.
      replace (yoe + era * 400 + 1 + 0) with (yoe + 1 + era * 400) by lia.
      rewrite Z.div_add by lia.
      change (3 - 3) with 0. change ((153 * 0 + 2) / 5) with 0.
      assert (Hy : yoe < 399 \/ yoe = 399) by lia.
      destruct Hy as [Hy|Hy].
      * rewrite (Z.div_small (yoe + 1) 400) by lia. specialize (Hyear Hy).
        replace (yoe + 1 + era * 400 - (0 + era) * 400) with (yoe + 1) by lia. lia.
      * subst yoe. change (399 + 1) with 400. change (400 / 400) with 1.
        replace (400 + era * 400 - (1 + era) * 400) with 0 by lia.
        change (0 / 4) with 0. change (0 / 100) with 0. lia.
Qed.

(** The first day of a month comes before the first day of the next. *)
Lemma daysFromCivil_next_month (y m : Z) :
  1 <= m <= 12 ->
  daysFromCivil y m 1 <
  daysFromCivil (if m =? 12 then y + 1 else y) (if m =? 12 then 1 else m + 1) 1.
Proof.
  intros Hm. unfold daysFromCivil. cbv zeta.
  destruct (Z.eqb_spec m 12) as [->|Hne].
  - change (12 <=? 2) with false. change (1 <=? 2) with true.
    change (2 <? 12) with true. change (2 <? 1) with false. cbv iota.
    replace (y + 1 - 1) with y by lia.
    change ((153 * (12 - 3) + 2) / 5) with 275. change ((153 * (1 + 9) + 2) / 5) with 306.
    lia.
  - destruct (Z.leb_spec m 2) as [H2|H2]; destruct (Z.leb_spec (m + 1) 2) as [H3|H3];
      destruct (Z.ltb_spec 2 m) as [H4|H4]; destruct (Z.ltb_spec 2 (m + 1)) as [H5|H5];
      try lia.
    + assert (m = 1) by lia. subst m.
      change ((153 * (1 + 9) + 2) / 5) with 306. change ((153 * (1 + 1 + 9) + 2) / 5) with 337.
      lia.
    + assert (m = 2) by lia. subst m.
      change ((153 * (2 + 9) + 2) / 5) with 337. change ((153 * (2 + 1 - 3) + 2) / 5) with 0.
      Z.div_mod_to_equations. lia.
    + Z.div_mod_to_equations. lia.
Qed.

Lemma MakeDay_next_month (y mo : Z) : MakeDay y mo 1 < MakeDay y (mo + 1) 1.
Proof.
  unfold MakeDay.
  pose proof (Z.mod_pos_bound mo 12 ltac:(lia)) as Hb.
  pose proof (daysFromCivil_next_month (y + mo / 12) (mo mod 12 + 1) ltac:(lia)) as H.
  destruct (Z.eqb_spec (mo mod 12 + 1) 12) as [E|E].
  - assert (E1 : (mo + 1) / 12 = mo / 12 + 1) by (Z.div_mod_to_equations; lia).
    assert (E2 : (mo + 1) mod 12 = 0) by (Z.div_mod_to_equations; lia).
    rewrite E1, E2. replace (y + (mo / 12 + 1)) with (y + mo / 12 + 1) by lia.
    change (0 + 1) with 1. lia.
  - assert (E1 : (mo + 1) / 12 = mo / 12) by (Z.div_mod_to_equations; lia).
    assert (E2 : (mo + 1) mod 12 = mo mod 12 + 1) by (Z.div_mod_to_equations; lia).
    rewrite E1, E2. lia.
Qed.

Lemma monthStartDay_contains (tz e : Z) :
  monthStartDay tz e 0 <= localDay tz e < monthStartDay tz e 1.
Proof.
  unfold monthStartDay, getFullYear, getMonth.
  pose proof (civil_round_trip (localDay tz e)) as Hrt.
  pose proof (next_month_after (localDay tz e)) as Hnext.
  destruct (civilFromDays (localDay tz e)) as [[y m] d]. cbn [fst snd].
  destruct Hrt as (Hm & Hd & Hz).
  replace (m - 1 + 1) with m by lia. split; [|exact Hnext].
  unfold MakeDay. replace (m - 1 + 0) with (m - 1) by lia.
  rewrite (Z.div_small (m - 1) 12) by lia. rewrite (Z.mod_small (m - 1) 12) by lia.
  replace (y + 0) with y by lia. replace (m - 1 + 1) with m by lia.
  pose proof (daysFromCivil_day y m d). lia.
Qed.

Lemma monthStartDay_increasing (tz e i j : Z) :
  i < j -> monthStartDay tz e i < monthStartDay tz e j.
Proof.
  intros Hij. replace j with (i + 1 + Z.of_nat (Z.to_nat (j - i - 1))) by lia.
  induction (Z.to_nat (j - i - 1)) as [|k IH].
  - replace (i + 1 + Z.of_nat 0) with (i + 1) by lia.
    unfold monthStartDay.
    replace (getMonth tz e + (i + 1)) with (getMonth tz e + i + 1) by lia.
    apply MakeDay_next_month.
  - eapply Z.lt_trans; [exact IH|].
    replace (i + 1 + Z.of_nat (S k)) with (i + 1 + Z.of_nat k + 1) by lia.
    unfold monthStartDay.
    replace (getMonth tz e + (i + 1 + Z.of_nat k + 1))
      with (getMonth tz e + (i + 1 + Z.of_nat k) + 1) by lia.
    apply MakeDay_next_month.
Qed.

Lemma monthBucket_span (tz e i : Z) :
  99 < getFullYear tz e ->
  start (monthBucket tz e i) = dayStartOf tz (monthStartDay tz e i) /\
  end_ (monthBucket tz e i) = dayStartOf tz (monthStartDay tz e (i + 1)) - 1.
Proof.
  intros Hy. unfold monthBucket, newDate, monthStartDay. cbn [start end_].
  destruct (Z.leb_spec (getFullYear tz e) 99) as [?|_]; [lia|].
  rewrite andb_false_r. unfold dayStartOf, MakeTime, msPerDay. split; [lia|].
  replace (getMonth tz e + (i + 1)) with (getMonth tz e + i + 1) by lia.
  unfold MakeDay. lia.
Qed.

Lemma month_range (tz now : Z) (this : ProgressPage) (first : Session)
      (rest : list Session) :
  selectedPeriod this = "month" ->
  getChartDateRangeFromSessions tz now this (first :: rest) =
  map (monthBucket tz (earliestSessionOf first (first :: rest))) [0; 1; 2; 3; 4].
Proof.
  intros Hp. unfold getChartDateRangeFromSessions. rewrite Hp. reflexivity.
Qed.

(** X5.  In the month period, for sessions that are not none and whose
    dates are ordinary (valid dates of the years 1000 to 9999),
    [getChartDateRangeFromSessions] returns, whatever the
    clock shows, 5 buckets: bucket [i] runs from the first instant of the
    month [i] months after the month of the earliest session date to the last
    millisecond before the next month, so the buckets follow one another
    without gap, none is empty, and the first contains the earliest session
    date; [filterSessionsByPeriod] keeps exactly the sessions dated before the
    end of the fifth month, and always the earliest. *)
Theorem X5_month_period (tz : Z) (this : ProgressPage) (sessions : list Session) :
  selectedPeriod this = "month" ->
  sessions <> [] ->
  ordinaryDates tz sessions ->
  exists minTimestamp : Z,
    In minTimestamp (map sessionDate sessions) /\
    (forall s, In s sessions -> minTimestamp <= sessionDate s) /\
    (forall now : Z,
       map (fun b => (start b, end_ b)) (getChartDateRangeFromSessions tz now this sessions)
       = map (fun i => (dayStartOf tz (monthStartDay tz minTimestamp i),
                        dayStartOf tz (monthStartDay tz minTimestamp (i + 1)) - 1))
             [0; 1; 2; 3; 4]) /\
    (forall i : Z, monthStartDay tz minTimestamp i < monthStartDay tz minTimestamp (i + 1)) /\
    monthStartDay tz minTimestamp 0 <= localDay tz minTimestamp
      < monthStartDay tz minTimestamp 1 /\
    (forall (now : Z) (s : Session),
       In s (filterSessionsByPeriod tz now this sessions) <->
       In s sessions /\ localDay tz (sessionDate s) < monthStartDay tz minTimestamp 5) /\
    (forall now : Z, filterSessionsByPeriod tz now this sessions <> []).
Proof.
  intros Hp Hne [_ Hyears]. destruct sessions as [|first rest]; [congruence|].
  set (e := earliestSessionOf first (first :: rest)).
  destruct (earliestSessionOf_min first rest) as [Hin Hmin]. fold e in Hin, Hmin.
  assert (Hy : 99 < getFullYear tz e).
  { apply in_map_iff in Hin as (s0 & Hs0 & Hin0). rewrite <- Hs0.
    specialize (Hyears s0 Hin0). lia. }
  assert (Hmono : forall s, In s (first :: rest) ->
                            localDay tz e <= localDay tz (sessionDate s)).
  { intros s Hs. unfold localDay, Day. apply Z.div_le_mono; [unfold msPerDay; lia|].
    specialize (Hmin s Hs). lia. }
  pose proof (monthStartDay_contains tz e) as Hcontains.
  assert (Hfilter : forall now s,
            In s (filterSessionsByPeriod tz now this (first :: rest)) <->
            In s (first :: rest) /\ localDay tz (sessionDate s) < monthStartDay tz e 5).
  { intros now s. unfold filterSessionsByPeriod. rewrite Hp.
    change (String.eqb "month" "all") with false. cbv iota zeta.
    rewrite (month_range tz now this first rest Hp). fold e.
    cbn [map List.last]. rewrite filter_In, within_closed.
    destruct (monthBucket_span tz e 0 Hy) as [-> _].
    destruct (monthBucket_span tz e 4 Hy) as [_ ->].
    change (4 + 1) with 5.
    replace (dayStartOf tz (monthStartDay tz e 5) - 1)
      with (dayStartOf tz (monthStartDay tz e 5 - 1) + msPerDay - 1)
      by (unfold dayStartOf; lia).
    rewrite between_days. split.
    - intros [Hs Hd]. split; [exact Hs|lia].
    - intros [Hs Hd]. split; [exact Hs|]. specialize (Hmono s Hs). lia. }
  exists e. split; [exact Hin|]. split; [exact Hmin|].
  split.
  { intros now. rewrite (month_range tz now this first rest Hp). fold e.
    rewrite map_map. apply map_ext. intros i.
    destruct (monthBucket_span tz e i Hy) as [-> ->]. reflexivity. }
  split; [intros i; apply monthStartDay_increasing; lia|].
  split; [exact Hcontains|]. split; [exact Hfilter|].
  intros now Hnil. apply in_map_iff in Hin as (s0 & Hs0 & Hin0).
  assert (Hk : In s0 (filterSessionsByPeriod tz now this (first :: rest))).
  { apply Hfilter. split; [exact Hin0|]. rewrite Hs0.
    pose proof (monthStartDay_increasing tz e 1 5 ltac:(lia)). lia. }
  rewrite Hnil in Hk. contradiction.
Qed.

(** X5 at three sessions of March 2025. *)
Lemma X5_month_period_witness :
  exists minTimestamp : Z,
    In minTimestamp (map sessionDate marchSessions) /\
    forall now : Z, filterSessionsByPeriod gmt8 now (initialPage "month") marchSessions <> [].
Proof.
  assert (Hne : marchSessions <> []) by discriminate.
  destruct (X5_month_period gmt8 (initialPage "month") marchSessions eq_refl Hne
              march_ordinaryDates)
    as (m & Hin & _ & _ & _ & _ & _ & Hnonempty).
  exists m. split; [exact Hin|exact Hnonempty].
Defined.

(** ** The offline cache *)

Lemma append_cancel (k a b : string) : (k ++ a)%string = (k ++ b)%string -> a = b.
Proof.
  induction k as [|c k IH]; simpl; intros H; [exact H|].
  injection H as H. apply IH. exact H.
Qed.

Lemma getCachedData_lookup (env : Env) (k : string) (fallback : list Session) (s : State) :
  getCachedData env k fallback s
  = (Returned (match localStorage s !! (k ++ "_" ++ cacheUid env)%string with
               | Some (JsonRecords records) => records
               | _ => fallback
               end), s).
Proof.
  unfold getCachedData, tryCatch, bind, getItem, ret.
  destruct (localStorage s !! _) as [[records|text]|]; simpl; try reflexivity.
  destruct (negb (String.eqb text "")); reflexivity.
Qed.

(** X6.  [cacheData] followed by [getCachedData] under the same key and
    user gives the data back, whatever was stored before; it changes no other
    entry of local storage, and what any other user reads under that key is
    what was read before.  [getCachedData] never throws: it returns the
    fallback when the entry is missing or does not parse. *)
Theorem X6_cache_round_trip (env : Env) (k : string) (data fallback : list Session)
        (s : State) :
  let s1 := snd (cacheData env k data s) in
  fst (cacheData env k data s) = Returned tt /\
  getCachedData env k fallback s1 = (Returned data, s1) /\
  (forall k' : string,
     k' <> (k ++ "_" ++ cacheUid env)%string ->
     localStorage s1 !! k' = localStorage s !! k') /\
  (forall other : Env,
     cacheUid other <> cacheUid env ->
     fst (getCachedData other k fallback s1) = fst (getCachedData other k fallback s)) /\
  (localStorage s !! (k ++ "_" ++ cacheUid env)%string = None ->
   getCachedData env k fallback s = (Returned fallback, s)) /\
  (forall text : string,
     localStorage s !! (k ++ "_" ++ cacheUid env)%string = Some (NotJson text) ->
     getCachedData env k fallback s = (Returned fallback, s)).
Proof.
  cbv zeta. change (snd (cacheData env k data s))
    with (withItem (k ++ "_" ++ cacheUid env)%string (JsonRecords data) s).
  split; [reflexivity|].
  split.
  { rewrite getCachedData_lookup. cbn [localStorage withItem].
    rewrite lookup_insert_eq. reflexivity. }
  split.
  { intros k' Hne. cbn [localStorage withItem]. apply lookup_insert_ne. congruence. }
  split.
  { intros other Hother. rewrite !getCachedData_lookup. cbn [fst localStorage withItem].
    rewrite lookup_insert_ne; [reflexivity|].
    intros Heq. apply append_cancel in Heq. apply (append_cancel "_") in Heq.
    congruence. }
  split.
  { intros Hnone. rewrite getCachedData_lookup, Hnone. reflexivity. }
  intros text Htext. rewrite getCachedData_lookup, Htext. reflexivity.
Qed.

(** ** A push of the live subscription *)

(** X7.  The callback of [subscribeToGameRecords] always returns and
    leaves the pushed records in the cache, whatever their number and even
    when the redrawing of the chart throws.  When the redrawing leaves the
    page alone, the page ends up connected, labelled "Firebase (Real-time)",
    updated at the clock's instant, with the statistics of the pushed
    sessions of the selected period. *)
Theorem X7_push_updates_page_and_cache
        (env : Env) (updateChart : M unit) (sessions : list Session) (s : State) :
  (exists s2 : State,
     onGameRecords env updateChart sessions s = (Returned tt, s2) /\
     cachedRecords env s2 = sessions) /\
  (keepsPageAndStorage updateChart ->
   let p := page (snd (onGameRecords env updateChart sessions s)) in
   isFirebaseConnected p = true /\
   dataSource p = "Firebase (Real-time)" /\
   tierOfDataSource (dataSource p) = Some Live /\
   lastDataUpdate p = now env /\
   overallStats p
   = overallStatsOf (filterSessionsByPeriod (tz env) (now env) (page s) sessions)).
Proof.
  split; [apply onGameRecords_caches|].
  intros Hkeep. cbv zeta.
  unfold onGameRecords, bind, modifyPage, getPage, detached, tryCatch, ret.
  match goal with
  | |- context [updateChart ?st] =>
      destruct (Hkeep st) as [Hp _]; destruct (updateChart st) as [[[]|] s1]
  end; cbn [snd] in Hp; rewrite cacheData_run; cbn [snd page withItem]; rewrite Hp;
    repeat split; reflexivity.
Qed.

(** ** Loading, in general *)

(** The page after [loadProgressData], from the state in which the
    sessions were resolved. *)
Lemma loadProgressData_page (env : Env) (s : State) (sessions : list Session) (s1 : State) :
  resolveSessions env (withPage (setLastDataUpdate (now env)) (withPage (setLoading true) s))
  = (Returned sessions, s1) ->
  page (snd (loadProgressData env s))
  = setLoading false
      (setOverallStats
         (overallStatsOf (filterSessionsByPeriod (tz env) (now env) (page s1) sessions))
         (page s1)).
Proof.
  intros Hres. unfold loadProgressData, tryCatch at 1.
  unfold bind at 1. unfold modifyPage at 1. unfold bind at 1. unfold modifyPage at 1.
  unfold bind at 1. rewrite Hres. unfold bind at 1. unfold getPage at 1.
  destruct (filterSessionsByPeriod (tz env) (now env) (page s1) sessions) as [|f fs] eqn:Ef.
  - unfold bind at 1. unfold bind at 1. unfold modifyPage at 1.
    destruct (updateFirebaseStats_run env []
                (withPage (setOverallStats
                             {| accuracy := PrimFloat.zero; avgTimePerCard := PrimFloat.zero;
                                totalCards := 0; skippedCards := 0 |}) s1))
      as (s' & Hrun & Hp & _).
    unfold bind at 1. rewrite Hrun. unfold modifyPage. cbn [snd page withPage].
    rewrite Hp. reflexivity.
  - unfold bind at 1. unfold bind at 1. unfold modifyPage at 1.
    unfold bind at 1. rewrite cacheData_run.
    destruct (updateFirebaseStats_run env sessions
                (withItem (cacheKey env) (JsonRecords sessions)
                   (withPage (calculateOverallStats (f :: fs)) s1)))
      as (s' & Hrun & Hp & _).
    unfold bind at 1. rewrite Hrun. unfold modifyPage. cbn [snd page withPage].
    rewrite Hp. reflexivity.
Qed.

(** X8.  [loadProgressData] always returns, whatever the remote store and
    local storage hold.  Afterwards the page is not loading, its last update
    is the clock's instant (also when the remote fetch threw), its period and
    custom dates are what they were, and it is marked as connected exactly
    when the remote fetch returned. *)
Theorem X8_loadProgressData_always_returns (env : Env) (s : State) :
  fst (loadProgressData env s) = Returned tt /\
  let p := page (snd (loadProgressData env s)) in
  isLoading p = false /\
  lastDataUpdate p = now env /\
  selectedPeriod p = selectedPeriod (page s) /\
  customStartDate p = customStartDate (page s) /\
  customEndDate p = customEndDate (page s) /\
  (isFirebaseConnected p = true <->
   exists sessions, fst (getUserGameSessions env None None s) = Returned sessions).
Proof.
  split.
  { destruct (loadProgressData_returns env s) as [s2 H]. rewrite H. reflexivity. }
  cbv zeta.
  set (s0 := withPage (setLastDataUpdate (now env)) (withPage (setLoading true) s)).
  destruct (getUserGameSessions_state env None None) as [o Ho].
  destruct o as [sessions|].
  - rewrite (loadProgressData_page env s sessions _
               (resolveSessions_remote_success env s0 sessions
                  ltac:(rewrite Ho; reflexivity))).
    repeat split; try reflexivity.
    intros _. exists sessions. rewrite Ho. reflexivity.
  - assert (Hf : fst (getUserGameSessions env None None s0) = Thrown)
      by (rewrite Ho; reflexivity).
    pose proof (resolveSessions_remote_failure env s0 Hf) as Hres.
    destruct (cachedRecords env s0);
      rewrite (loadProgressData_page env s _ _ Hres);
      (repeat split; try reflexivity;
       [ cbn; discriminate
       | intros [sessions' Hs']; rewrite Ho in Hs'; discriminate ]).
Qed.

(** X9.  In the week period, for fetched sessions whose dates are
    ordinary, and in the all period, a remote fetch that returns at least one
    session always leaves the fetched sessions in the cache. *)
Theorem X9_fetch_with_sessions_is_cached
        (env : Env) (s : State) (first : Session) (rest : list Session) :
  selectedPeriod (page s) = "week" /\ ordinaryDates (tz env) (first :: rest) \/
  selectedPeriod (page s) = "all" ->
  fst (getUserGameSessions env None None s) = Returned (first :: rest) ->
  cachedRecords env (snd (loadProgressData env s)) = first :: rest.
Proof.
  intros Hp Hok.
  set (s0 := withPage (setLastDataUpdate (now env)) (withPage (setLoading true) s)).
  assert (Hok0 : fst (getUserGameSessions env None None s0) = Returned (first :: rest)).
  { destruct (getUserGameSessions_state env None None) as [o Ho].
    rewrite Ho in Hok |- *. exact Hok. }
  destruct (loadProgressData_after env s (first :: rest) _
              (resolveSessions_remote_success env s0 (first :: rest) Hok0))
    as (s2 & Hrun & _ & _ & _ & _ & Hstore).
  rewrite Hrun. cbn [snd].
  assert (Hne : filterSessionsByPeriod (tz env) (now env)
                  (page (withPage (setDataSource "Firebase")
                                  (withPage (setConnected true) s0)))
                  (first :: rest) <> []).
  { destruct Hp as [[Hp _]|Hp].
    - apply week_filter_nonempty. exact Hp.
    - unfold filterSessionsByPeriod. cbn [page withPage s0 selectedPeriod setDataSource
        setConnected setLastDataUpdate setLoading]. rewrite Hp.
      change (String.eqb "all" "all") with true. discriminate. }
  destruct (filterSessionsByPeriod _ _ _ (first :: rest)); [congruence|].
  unfold cachedRecords. rewrite Hstore, lookup_insert_eq. reflexivity.
Qed.

Lemma X9_fetch_with_sessions_witness :
  cachedRecords liveEnv (snd (loadProgressData liveEnv (stateWith "week" ∅)))
  = [earlierRecord].
Proof.
  assert (Hdates : ordinaryDates (tz liveEnv) [earlierRecord]).
  { split; [cbn; unfold gmt8, msPerDay; lia|].
    intros s [<-|[]]. vm_compute. split; discriminate. }
  exact (X9_fetch_with_sessions_is_cached liveEnv (stateWith "week" ∅) earlierRecord []
           (or_introl (conj eq_refl Hdates)) eq_refl).
Defined.

(** ** The chart series *)

Lemma calculateAllTimeAccuracy_overall (sessions : list Session) :
  calculateAllTimeAccuracy sessions = accuracy (overallStatsOf sessions).
Proof. destruct sessions; reflexivity. Qed.

(** X10.  Grouping followed by the series of a category: the value of a
    bucket is the all-time accuracy of the input sessions that belong to the
    category and whose first containing bucket carries the key of that bucket,
    which is also the accuracy [calculateOverallStats] publishes for them; a
    bucket without such a session has the value 0. *)
Theorem X10_chart_series_of_grouping
        (sessions : list Session) (dateRange : list Bucket) (catKey : string) :
  chartSeries (groupSessionsIntoBuckets sessions dateRange) dateRange catKey
  = map (fun dr =>
           calculateAllTimeAccuracy
             (List.filter (fun s => isSessionInCategory s catKey)
                          (List.filter (assignedTo dateRange (key dr)) sessions)))
        dateRange /\
  (forall selected : list Session,
     calculateAllTimeAccuracy selected = accuracy (overallStatsOf selected)) /\
  List.length (chartSeries (groupSessionsIntoBuckets sessions dateRange) dateRange catKey)
  = List.length dateRange /\
  (forall (i : nat) (dr : Bucket),
     dateRange !! i = Some dr ->
     (forall s, In s sessions -> assignedTo dateRange (key dr) s = true ->
                isSessionInCategory s catKey = false) ->
     chartSeries (groupSessionsIntoBuckets sessions dateRange) dateRange catKey !! i
     = Some PrimFloat.zero).
Proof.
  assert (Hseries :
    chartSeries (groupSessionsIntoBuckets sessions dateRange) dateRange catKey
    = map (fun dr =>
             calculateAllTimeAccuracy
               (List.filter (fun s => isSessionInCategory s catKey)
                            (List.filter (assignedTo dateRange (key dr)) sessions)))
          dateRange).
  { unfold chartSeries. apply map_ext_in. intros dr Hdr.
    rewrite groupSessionsIntoBuckets_lookup.
    assert (Hk : existsb (String.eqb (key dr)) (map key dateRange) = true).
    { apply existsb_exists. exists (key dr). split; [apply in_map; exact Hdr|].
      apply String.eqb_refl. }
    rewrite Hk. unfold calculateAllTimeAccuracy.
    destruct (List.filter _ (List.filter _ sessions)); reflexivity. }
  split; [exact Hseries|]. split; [exact calculateAllTimeAccuracy_overall|].
  split; [unfold chartSeries; apply length_map|].
  intros i dr Hi Hnone. rewrite Hseries.
  rewrite list_lookup_fmap, Hi. cbn. f_equal.
  replace (List.filter (fun s => isSessionInCategory s catKey)
                       (List.filter (assignedTo dateRange (key dr)) sessions))
    with (@nil Session); [reflexivity|].
  symmetry.
  destruct (List.filter _ (List.filter _ sessions)) as [|x xs] eqn:E; [reflexivity|].
  assert (Hx : In x (x :: xs)) by (left; reflexivity).
  rewrite <- E in Hx. apply filter_In in Hx as [Hx Hcat].
  apply filter_In in Hx as [Hx Has]. rewrite (Hnone x Hx Has) in Hcat. discriminate.
Qed.

(** ** Aggregation does not depend on the order *)

Lemma sumField_permutation (field : Session -> option Z) (l1 l2 : list Session) :
  Permutation l1 l2 -> sumField field l1 = sumField field l2.
Proof.
  induction 1 as [|x l1 l2 _ IH|x y l|l1 l2 l3 _ IH1 _ IH2]; simpl; lia.
Qed.

Lemma sumField_app (field : Session -> option Z) (l1 l2 : list Session) :
  sumField field (l1 ++ l2) = sumField field l1 + sumField field l2.
Proof. induction l1 as [|x l1 IH]; simpl; lia. Qed.

(** X11.  For sessions whose counts the engine adds exactly, the
    statistics depend on the sessions as a multiset: the same sessions in any
    other order give the same statistics and the same all-time accuracy.  For
    any two lists whose counts together add exactly, the cards reviewed and
    skipped of the two lists put together are the sums of those of each. *)
Theorem X11_statistics_of_a_multiset :
  (forall (l1 l2 : list Session) (this : ProgressPage),
     countsAddExactly l1 ->
     Permutation l1 l2 ->
     countsAddExactly l2 /\
     overallStats (calculateOverallStats l1 this)
     = overallStats (calculateOverallStats l2 this) /\
     calculateAllTimeAccuracy l1 = calculateAllTimeAccuracy l2) /\
  (forall l1 l2 : list Session,
     countsAddExactly (l1 ++ l2) ->
     totalCards (overallStatsOf (l1 ++ l2))
     = totalCards (overallStatsOf l1) + totalCards (overallStatsOf l2) /\
     skippedCards (overallStatsOf (l1 ++ l2))
     = skippedCards (overallStatsOf l1) + skippedCards (overallStatsOf l2)).
Proof.
  split.
  - intros l1 l2 this Hexact Hperm.
    assert (Heq : overallStatsOf l1 = overallStatsOf l2).
    { rewrite !overallStatsOf_sums. cbv zeta.
      rewrite !(sumField_permutation _ l1 l2 Hperm). reflexivity. }
    split.
    { intros field Hfield. destruct (Hexact field Hfield) as [Hpos Hsum]. split.
      - intros s Hs. apply Hpos. apply (Permutation_in s (Permutation_sym Hperm)). exact Hs.
      - rewrite <- (sumField_permutation field l1 l2 Hperm). exact Hsum. }
    split; [rewrite !overallStats_calculate; exact Heq|].
    rewrite !calculateAllTimeAccuracy_overall, Heq. reflexivity.
  - intros l1 l2 _. rewrite !overallStatsOf_sums. cbv zeta. cbn [totalCards skippedCards].
    rewrite !sumField_app. split; reflexivity.
Qed.

Lemma X11_statistics_witness :
  overallStats (calculateOverallStats [sessionOf 10 8 100; sessionOf 5 5 50]
                                      (initialPage "all"))
  = overallStats (calculateOverallStats [sessionOf 5 5 50; sessionOf 10 8 100]
                                        (initialPage "all")).
Proof.
  assert (Hexact : countsAddExactly [sessionOf 10 8 100; sessionOf 5 5 50]).
  { intros field Hfield. cbn [In] in Hfield.
    destruct Hfield as [<-|[<-|[<-|[<-|[]]]]];
      (split; [intros s [<-|[<-|[]]]; cbn; lia|cbn; lia]). }
  exact (proj1 (proj2 (proj1 X11_statistics_of_a_multiset
                         [sessionOf 10 8 100; sessionOf 5 5 50]
                         [sessionOf 5 5 50; sessionOf 10 8 100] (initialPage "all")
                         Hexact (perm_swap _ _ _)))).
Defined.

(** ** The statistics over time *)

Lemma sumField_filter_le (field : Session -> option Z) (p q : Session -> bool)
      (sessions : list Session) :
  (forall s, In s sessions -> 0 <= orZero (field s)) ->
  (forall s, p s = true -> q s = true) ->
  0 <= sumField field (List.filter p sessions)
    <= sumField field (List.filter q sessions).
Proof.
  intros Hpos Hpq. induction sessions as [|s rest IH]; simpl; [lia|].
  assert (IH' := IH (fun x Hx => Hpos x (or_intror Hx))).
  pose proof (Hpos s (or_introl eq_refl)) as Hs.
  destruct (p s) eqn:Ep.
  - rewrite (Hpq s Ep). simpl. lia.
  - destruct (q s); simpl; lia.
Qed.

Lemma filter_all (sessions : list Session) :
  List.filter (fun _ => true) sessions = sessions.
Proof. induction sessions as [|s rest IH]; simpl; [|rewrite IH]; reflexivity. Qed.

Lemma calculateAllTimeCardsReviewed_sum (sessions : list Session) :
  calculateAllTimeCardsReviewed sessions = sumField totalQuestions sessions.
Proof. destruct sessions; [reflexivity|]. apply reduceField_sumField. Qed.

Lemma calculateAllTimeCardsSkipped_sum (sessions : list Session) :
  calculateAllTimeCardsSkipped sessions = sumField skipped sessions.
Proof. destruct sessions; [reflexivity|]. apply reduceField_sumField. Qed.

Lemma calculateAllTimeAvgTime_overall (sessions : list Session) :
  calculateAllTimeAvgTime sessions = avgTimePerCard (overallStatsOf sessions).
Proof. destruct sessions; reflexivity. Qed.

Lemma overallStatsOf_totalCards (sessions : list Session) :
  totalCards (overallStatsOf sessions) = sumField totalQuestions sessions.
Proof. rewrite overallStatsOf_sums. reflexivity. Qed.

Lemma overallStatsOf_skippedCards (sessions : list Session) :
  skippedCards (overallStatsOf sessions) = sumField skipped sessions.
Proof. rewrite overallStatsOf_sums. reflexivity. Qed.

Lemma sums_since_nested (tz now : Z) (field : Session -> option Z) (sessions : list Session) :
  (forall s, In s sessions -> 0 <= orZero (field s)) ->
  0 <= sumField field (sessionsSince (startOfToday tz now) sessions)
    <= sumField field (sessionsSince (weekAgo tz now) sessions) /\
  sumField field (sessionsSince (weekAgo tz now) sessions)
    <= sumField field (sessionsSince (monthAgo tz now) sessions)
    <= sumField field sessions.
Proof.
  intros Hq. unfold sessionsSince.
  assert (Htw : forall s, (startOfToday tz now <=? sessionDate s) = true ->
                          (weekAgo tz now <=? sessionDate s) = true).
  { intros s. unfold weekAgo. generalize (startOfToday tz now) (sessionDate s).
    intros t d H. apply Z.leb_le in H. apply Z.leb_le. lia. }
  assert (Hwm : forall s, (weekAgo tz now <=? sessionDate s) = true ->
                          (monthAgo tz now <=? sessionDate s) = true).
  { intros s. unfold weekAgo, monthAgo. generalize (startOfToday tz now) (sessionDate s).
    intros t d H. apply Z.leb_le in H. apply Z.leb_le. lia. }
  assert (Hma : forall s, (monthAgo tz now <=? sessionDate s) = true ->
                          (fun _ : Session => true) s = true) by reflexivity.
  pose proof (sumField_filter_le field _ _ sessions Hq Htw) as R1.
  pose proof (sumField_filter_le field _ _ sessions Hq Hwm) as R2.
  pose proof (sumField_filter_le field _ _ sessions Hq Hma) as R3.
  rewrite filter_all in R3.
  revert R1 R2 R3. generalize (sumField field sessions).
  repeat match goal with |- context [sumField field ?l] => generalize (sumField field l) end.
  intros. lia.
Qed.

Lemma reviewed_over_time (tz now : Z) (sessions : list Session) :
  calculateCardsReviewedOverTime tz now sessions
  = {| allTime := sumField totalQuestions sessions;
       month := sumField totalQuestions (sessionsSince (monthAgo tz now) sessions);
       today := sumField totalQuestions (sessionsSince (startOfToday tz now) sessions);
       week := sumField totalQuestions (sessionsSince (weekAgo tz now) sessions) |}.
Proof.
  unfold calculateCardsReviewedOverTime.
  rewrite calculateAllTimeCardsReviewed_sum, !reduceField_sumField. reflexivity.
Qed.

Lemma skipped_over_time (tz now : Z) (sessions : list Session) :
  calculateCardsSkippedOverTime tz now sessions
  = {| allTime := sumField skipped sessions;
       month := sumField skipped (sessionsSince (monthAgo tz now) sessions);
       today := sumField skipped (sessionsSince (startOfToday tz now) sessions);
       week := sumField skipped (sessionsSince (weekAgo tz now) sessions) |}.
Proof.
  unfold calculateCardsSkippedOverTime.
  rewrite calculateAllTimeCardsSkipped_sum, !reduceField_sumField. reflexivity.
Qed.

(** X12.  For sessions whose question counts and skip counts are not
    negative, the cards reviewed and the cards skipped over time are nested:
    0 <= today <= week <= month <= all time.  The all-time figures are those
    that [calculateOverallStats] publishes for the same sessions. *)
Theorem X12_counts_over_time_are_nested (tz now : Z) (sessions : list Session) :
  (forall s, In s sessions -> 0 <= orZero (totalQuestions s) /\ 0 <= orZero (skipped s)) ->
  let reviewed := calculateCardsReviewedOverTime tz now sessions in
  let skipped' := calculateCardsSkippedOverTime tz now sessions in
  0 <= today reviewed <= week reviewed /\
  week reviewed <= month reviewed <= allTime reviewed /\
  0 <= today skipped' <= week skipped' /\
  week skipped' <= month skipped' <= allTime skipped' /\
  allTime reviewed = totalCards (overallStatsOf sessions) /\
  allTime skipped' = skippedCards (overallStatsOf sessions) /\
  allTime (calculateAccuracyOverTime tz now sessions) = accuracy (overallStatsOf sessions) /\
  allTime (calculateAvgTimePerCardOverTime tz now sessions)
  = avgTimePerCard (overallStatsOf sessions) /\
  week (calculateAccuracyOverTime tz now sessions)
  = accuracy (overallStatsOf (sessionsSince (weekAgo tz now) sessions)) /\
  week (calculateAvgTimePerCardOverTime tz now sessions)
  = avgTimePerCard (overallStatsOf (sessionsSince (weekAgo tz now) sessions)).
Proof.
  intros Hpos reviewed skipped'. subst reviewed skipped'.
  rewrite reviewed_over_time, skipped_over_time.
  rewrite overallStatsOf_totalCards, overallStatsOf_skippedCards.
  rewrite <- calculateAllTimeAccuracy_overall, <- calculateAllTimeAvgTime_overall.
  cbn [today week month allTime].
  assert (Hq : forall s, In s sessions -> 0 <= orZero (totalQuestions s))
    by (intros s Hs; apply Hpos; exact Hs).
  assert (Hk : forall s, In s sessions -> 0 <= orZero (skipped s))
    by (intros s Hs; apply Hpos; exact Hs).
  destruct (sums_since_nested tz now totalQuestions sessions Hq) as [R1 R2].
  destruct (sums_since_nested tz now skipped sessions Hk) as [K1 K2].
  split; [exact R1|]. split; [exact R2|]. split; [exact K1|]. split; [exact K2|].
  split; [reflexivity|]. split; [reflexivity|]. split; [reflexivity|].
  split; [reflexivity|].
  rewrite <- calculateAllTimeAccuracy_overall, <- calculateAllTimeAvgTime_overall.
  split; reflexivity.
Qed.

Lemma X12_counts_over_time_witness :
  today (calculateCardsReviewedOverTime gmt8 clock marchSessions)
  <= week (calculateCardsReviewedOverTime gmt8 clock marchSessions) /\
  month (calculateCardsReviewedOverTime gmt8 clock marchSessions)
  <= allTime (calculateCardsReviewedOverTime gmt8 clock marchSessions).
Proof.
  assert (Hpos : forall s, In s marchSessions ->
                           0 <= orZero (totalQuestions s) /\ 0 <= orZero (skipped s)).
  { intros s [<-|[<-|[<-|[]]]]; simpl; lia. }
  pose proof (X12_counts_over_time_are_nested gmt8 clock marchSessions Hpos) as H.
  cbv zeta in H. destruct H as (H1 & H2 & _). split; [apply H1|apply H2].
Defined.

(** ** Recalculating for the selected period *)

Lemma filterSessionsByPeriod_nil (tz now : Z) (this : ProgressPage) :
  filterSessionsByPeriod tz now this [] = [].
Proof.
  unfold filterSessionsByPeriod.
  destruct (String.eqb (selectedPeriod this) "all"); [reflexivity|].
  destruct (getChartDateRangeFromSessions tz now this []); reflexivity.
Qed.

Lemma getGameSessionData_run (env : Env) (s : State) :
  getGameSessionData env s =
  match fst (getUserGameSessions env None None s) with
  | Returned fetched =>
      (Returned (filterSessionsByPeriod (tz env) (now env) (page s) fetched),
       withPage (setDataSource "Firebase") (withPage (setConnected true) s))
  | Thrown =>
      (Returned (filterSessionsByPeriod (tz env) (now env) (page s)
                   (match cachedRecords env s with
                    | [] => ownRecords env s
                    | cached => cached
                    end)),
       withPage (setConnected false) s)
  end.
Proof.
  destruct (getUserGameSessions_state env None None) as [o Ho].
  unfold getGameSessionData.
  unfold tryCatch at 1. unfold bind at 1. unfold tryCatch at 1. unfold bind at 1.
  rewrite !Ho. cbn [fst]. destruct o as [fetched|].
  - reflexivity.
  - unfold bind at 1. unfold modifyPage at 1. unfold bind at 1.
    rewrite getCachedData_run.
    change (cachedRecords env (withPage (setConnected false) s)) with (cachedRecords env s).
    destruct (cachedRecords env s) as [|c cs].
    + unfold bind, getItem, tryCatch, getPage, ret, ownRecords.
      change (localStorage (withPage (setConnected false) s)) with (localStorage s).
      destruct (orText (localStorage s !! _) (JsonRecords [])) as [records|text];
        reflexivity.
    + reflexivity.
Qed.

(** X14.  [getGameSessionData] never throws and never writes to local
    storage; it returns the sessions of the selected period among those
    fetched, or, when the fetch throws, among the cached ones, or, when the
    cache holds none, among those of the user's entry alone.  It leaves the
    statistics and the instant of the last update alone; when the fetch
    throws the page is marked as not connected and keeps its source label. *)
Theorem X14_getGameSessionData_sources (env : Env) (s : State) :
  let s1 := snd (getGameSessionData env s) in
  fst (getGameSessionData env s)
  = Returned (filterSessionsByPeriod (tz env) (now env) (page s)
                (fetchedOr env s (match cachedRecords env s with
                                  | [] => ownRecords env s
                                  | cached => cached
                                  end))) /\
  localStorage s1 = localStorage s /\
  overallStats (page s1) = overallStats (page s) /\
  lastDataUpdate (page s1) = lastDataUpdate (page s) /\
  selectedPeriod (page s1) = selectedPeriod (page s) /\
  (fst (getUserGameSessions env None None s) = Thrown ->
   isFirebaseConnected (page s1) = false /\ dataSource (page s1) = dataSource (page s)) /\
  (forall fetched, fst (getUserGameSessions env None None s) = Returned fetched ->
   isFirebaseConnected (page s1) = true /\ dataSource (page s1) = "Firebase").
Proof.
  cbv zeta. rewrite getGameSessionData_run. unfold fetchedOr.
  destruct (fst (getUserGameSessions env None None s)) as [fetched|];
    cbn [fst snd]; repeat split; try reflexivity; try discriminate.
Qed.

Lemma recalculateForCurrentFilter_run (env : Env) (updateChart : M unit) (s : State) :
  recalculateForCurrentFilter env updateChart s
  = updateChart
      (withPage
         (calculateOverallStats
            (filterSessionsByPeriod (tz env) (now env) (page s)
               (fetchedOr env s (match cachedRecords env s with
                                 | [] => ownRecords env s
                                 | cached => cached
                                 end))))
         (snd (getGameSessionData env s))).
Proof.
  unfold recalculateForCurrentFilter. unfold bind at 1.
  rewrite getGameSessionData_run. unfold fetchedOr.
  destruct (fst (getUserGameSessions env None None s)) as [fetched|]; reflexivity.
Qed.

Lemma loadProgressData_stats (env : Env) (s : State) :
  overallStats (page (snd (loadProgressData env s)))
  = overallStatsOf
      (filterSessionsByPeriod (tz env) (now env) (page s)
         (fetchedOr env s (match cachedRecords env s with
                           | [] => durableRecords env s
                           | cached => cached
                           end))).
Proof.
  set (s0 := withPage (setLastDataUpdate (now env)) (withPage (setLoading true) s)).
  unfold fetchedOr.
  destruct (getUserGameSessions_state env None None) as [o Ho].
  rewrite Ho. cbn [fst]. destruct o as [sessions|].
  - rewrite (loadProgressData_page env s sessions _
               (resolveSessions_remote_success env s0 sessions
                  ltac:(rewrite Ho; reflexivity))).
    reflexivity.
  - assert (Hf : fst (getUserGameSessions env None None s0) = Thrown)
      by (rewrite Ho; reflexivity).
    pose proof (resolveSessions_remote_failure env s0 Hf) as Hres.
    change (cachedRecords env s0) with (cachedRecords env s) in Hres.
    change (durableRecords env s0) with (durableRecords env s) in Hres.
    destruct (cachedRecords env s);
      rewrite (loadProgressData_page env s _ _ Hres); reflexivity.
Qed.

(** X15.  With a redrawing of the chart that leaves the page alone,
    [recalculateForCurrentFilter] publishes the statistics of the sessions
    [getGameSessionData] returns.  They are the statistics [loadProgressData]
    publishes whenever the fetch returns, the cache holds a record, or the
    user's entry alone gives what it gives together with the entry without a
    user.  But when the fetch throws, the cache and the user's entry hold
    nothing and the entry without a user holds records, [loadProgressData]
    counts those records and [recalculateForCurrentFilter] counts none. *)
Theorem X15_recalculate_and_load (env : Env) (updateChart : M unit) (s : State) :
  keepsPageAndStorage updateChart ->
  let recalculated := page (snd (recalculateForCurrentFilter env updateChart s)) in
  let loaded := page (snd (loadProgressData env s)) in
  overallStats recalculated
  = overallStatsOf
      (filterSessionsByPeriod (tz env) (now env) (page s)
         (fetchedOr env s (match cachedRecords env s with
                           | [] => ownRecords env s
                           | cached => cached
                           end))) /\
  ((exists fetched, fst (getUserGameSessions env None None s) = Returned fetched) \/
   cachedRecords env s <> [] \/ ownRecords env s = durableRecords env s ->
   overallStats recalculated = overallStats loaded) /\
  (forall records,
     fst (getUserGameSessions env None None s) = Thrown ->
     cachedRecords env s = [] ->
     localStorage s !! durableKey env = None ->
     localStorage s !! "gameRecords"%string = Some (JsonRecords records) ->
     overallStats recalculated = overallStatsOf [] /\
     overallStats loaded
     = overallStatsOf (filterSessionsByPeriod (tz env) (now env) (page s) records)).
Proof.
  intros Hkeep. cbv zeta.
  rewrite recalculateForCurrentFilter_run, loadProgressData_stats.
  match goal with
  | |- context [updateChart ?st] => destruct (Hkeep st) as [Hp _]; rewrite Hp
  end.
  cbn [page withPage calculateOverallStats overallStats setOverallStats].
  split; [reflexivity|]. split.
  - unfold fetchedOr. intros [[fetched Hf]|[Hc|Ho]].
    + rewrite Hf. reflexivity.
    + destruct (fst (getUserGameSessions env None None s)); [reflexivity|].
      destruct (cachedRecords env s); [congruence|reflexivity].
    + rewrite Ho. reflexivity.
  - intros records Hf Hc Hown Hlegacy. unfold fetchedOr. rewrite Hf, Hc.
    unfold ownRecords, durableRecords. rewrite Hown, Hlegacy.
    cbn [orText truthyText]. rewrite filterSessionsByPeriod_nil. split; reflexivity.
Qed.

Lemma X15_recalculate_and_load_witness :
  overallStats (page (snd (recalculateForCurrentFilter offlineEnv (ret tt) legacyState)))
  = overallStatsOf [] /\
  overallStats (page (snd (loadProgressData offlineEnv legacyState)))
  = overallStatsOf
      (filterSessionsByPeriod (tz offlineEnv) (now offlineEnv) (page legacyState)
         [earlierRecord]).
Proof.
  exact (proj2 (proj2 (X15_recalculate_and_load offlineEnv (ret tt) legacyState
                         (fun s => conj eq_refl eq_refl)))
           [earlierRecord] eq_refl eq_refl eq_refl eq_refl).
Defined.

(** ** A new session *)

(** X13.  [handleNewGameSession] never throws, even when the redrawing of
    the chart does.  It counts the new session together with the sessions
    fetched, or with the cached ones when the fetch throws: with a redrawing
    that leaves the page and local storage alone, the page afterwards is the
    page before with the statistics of those sessions of the selected period,
    and local storage is as before, so the new session is stored nowhere.
    Without a chart loaded nothing else changes at all. *)
Theorem X13_handleNewGameSession_counts_new_session
        (env : Env) (updateChart : M unit) (sessionData : Session) (s : State) :
  let counted :=
    filterSessionsByPeriod (tz env) (now env) (page s)
      (sessionData :: fetchedOr env s (cachedRecords env s)) in
  let s1 := snd (handleNewGameSession env updateChart sessionData s) in
  fst (handleNewGameSession env updateChart sessionData s) = Returned tt /\
  (keepsPageAndStorage updateChart ->
   page s1 = calculateOverallStats counted (page s) /\
   localStorage s1 = localStorage s) /\
  (chartLoaded (page s) = false ->
   s1 = withPage (calculateOverallStats counted) s).
Proof.
  cbv zeta.
  assert (Hrun : handleNewGameSession env updateChart sessionData s
                 = tryCatch
                     (if chartLoaded (page s) then updateChart else ret tt)
                     (ret tt)
                     (withPage
                        (calculateOverallStats
                           (filterSessionsByPeriod (tz env) (now env) (page s)
                              (sessionData :: fetchedOr env s (cachedRecords env s))))
                        s)).
  { unfold handleNewGameSession, fetchedOr.
    destruct (getUserGameSessions_state env None None) as [o Ho].
    unfold tryCatch at 1 3. unfold bind at 1. unfold tryCatch at 1.
    rewrite !Ho. cbn [fst]. destruct o as [fetched|].
    - reflexivity.
    - rewrite getCachedData_run. reflexivity. }
  rewrite Hrun. unfold tryCatch, ret.
  set (st := withPage _ s).
  destruct (chartLoaded (page s)).
  - split; [destruct (updateChart st) as [[[]|] s1]; reflexivity|].
    split; [|discriminate].
    intros Hkeep. destruct (Hkeep st) as [Hp Hl].
    destruct (updateChart st) as [[[]|] s1]; cbn [snd] in Hp, Hl |- *;
      rewrite Hp, Hl; split; reflexivity.
  - split; [reflexivity|]. split; [|reflexivity].
    intros _. split; reflexivity.
Qed.

(** ** Saving a session, in general *)

Lemma withTimestamp_twice (v w : TimeValue) (session : Session) :
  withTimestamp v (withTimestamp w session) = withTimestamp v session.
Proof. reflexivity. Qed.

(** X17.  For a signed-in user whose id is also the [userId] entry of
    local storage, with a remote store that accepts writes and a user's entry
    that parses, [saveGameSession] returns and appends the session to the
    user's entry twice: first stamped with the instant of saving as an ISO
    string, then with its own timestamp.  The remote collections each
    receive the copy stamped with the instant of saving, whatever timestamp
    the session came with, and the page is left alone. *)
Theorem X17_saveGameSession_appends_twice
        (env : Env) (uid : string) (sessionData : Session) (old : list Session)
        (s : State) :
  currentUser env = Some uid ->
  storedUserId env = Some uid ->
  uid <> ""%string ->
  remoteWriteOk env = true ->
  orText (localStorage s !! ("gameRecords_" ++ uid)%string) (JsonRecords [])
  = JsonRecords old ->
  let s1 := snd (saveGameSession env sessionData None s) in
  let stamped := withTimestamp (TimeIso (now env)) sessionData in
  let own := withTimestamp (match timestamp sessionData with
                            | Some v => if truthyTime v then v else TimeNumber (now env)
                            | None => TimeNumber (now env)
                            end) sessionData in
  fst (saveGameSession env sessionData None s) = Returned tt /\
  localStorage s1
  = <[("gameRecords_" ++ uid)%string := JsonRecords (old ++ [stamped; own])]>
      (localStorage s) /\
  remoteGameRecords s1 = remoteGameRecords s ++ [stamped] /\
  remoteRecentSessions s1 = remoteRecentSessions s ++ [stamped] /\
  page s1 = page s /\
  sessionDate stamped = now env.
Proof.
  intros Hu Hs Hne Hw Hold. cbv zeta.
  assert (Heqb : String.eqb uid "" = false) by (apply String.eqb_neq; exact Hne).
  unfold saveGameSession, FirebaseService_saveGameSession, addGameRecord, saveRecentSession.
  rewrite Hu, Hs, Hw, Heqb.
  unfold tryCatch, bind, getItem, setItem, ret.
  cbn [localStorage withItem fst snd].
  rewrite Hold. cbn [JSON_parse ret].
  cbn [localStorage withItem fst snd].
  rewrite lookup_insert_eq. cbn [orText truthyText JSON_parse ret].
  cbn [localStorage withItem fst snd page remoteGameRecords remoteRecentSessions].
  rewrite insert_insert_eq, <- app_assoc. cbn [app].
  repeat split; reflexivity.
Qed.

Lemma X17_saveGameSession_witness :
  localStorage (snd (saveGameSession liveEnv newRecord None deviceState))
  = <[ "gameRecords_u1"%string :=
         JsonRecords ([earlierRecord]
                      ++ [withTimestamp (TimeIso (now liveEnv)) newRecord;
                          withTimestamp (TimeNumber (newDate gmt8 2025 2 4 9 0 0 0))
                                        newRecord]) ]>
      (localStorage deviceState).
Proof.
  exact (proj1 (proj2 (X17_saveGameSession_appends_twice liveEnv "u1" newRecord
                         [earlierRecord] deviceState eq_refl eq_refl
                         ltac:(discriminate) eq_refl eq_refl))).
Defined.

(** ** The fallback refresh timer, between reloads *)

Lemma loadProgressData_lastDataUpdate (env : Env) (s : State) :
  lastDataUpdate (page (snd (loadProgressData env s))) = now env /\
  chartLoaded (page (snd (loadProgressData env s))) = chartLoaded (page s).
Proof.
  set (s0 := withPage (setLastDataUpdate (now env)) (withPage (setLoading true) s)).
  destruct (getUserGameSessions_state env None None) as [o Ho].
  destruct o as [sessions|].
  - rewrite (loadProgressData_page env s sessions _
               (resolveSessions_remote_success env s0 sessions
                  ltac:(rewrite Ho; reflexivity))).
    split; reflexivity.
  - assert (Hf : fst (getUserGameSessions env None None s0) = Thrown)
      by (rewrite Ho; reflexivity).
    pose proof (resolveSessions_remote_failure env s0 Hf) as Hres.
    destruct (cachedRecords env s0);
      rewrite (loadProgressData_page env s _ _ Hres); split; reflexivity.
Qed.

(** X18.  After a firing of the timer that reloaded, with a redrawing of
    the chart that leaves the page alone, the last update is the clock's
    instant of that firing; so every firing in the next 30000 milliseconds
    changes nothing, whatever the remote store answers by then. *)
Theorem X18_no_reload_within_30000_ms
        (env : Env) (updateChart : M unit) (s : State) (later : Z) :
  keepsPageAndStorage updateChart ->
  30000 < now env - lastDataUpdate (page s) ->
  later - now env <= 30000 ->
  let s1 := snd (autoRefreshTick env updateChart s) in
  lastDataUpdate (page s1) = now env /\
  autoRefreshTick (atClock env later) updateChart s1 = (Returned tt, s1).
Proof.
  intros Hkeep Hstale Hsoon. cbv zeta.
  assert (Hlast : lastDataUpdate (page (snd (autoRefreshTick env updateChart s)))
                  = now env).
  { rewrite (autoRefreshTick_stale env updateChart s Hstale).
    destruct (loadProgressData_lastDataUpdate env s) as [Hl _].
    destruct (chartLoaded (page s)); [|exact Hl].
    unfold detached, tryCatch, ret.
    destruct (Hkeep (snd (loadProgressData env s))) as [Hp _].
    destruct (updateChart (snd (loadProgressData env s))) as [[[]|] s1];
      cbn [snd] in Hp |- *; rewrite Hp; exact Hl. }
  split; [exact Hlast|].
  apply autoRefreshTick_fresh. rewrite Hlast. cbn [now atClock]. exact Hsoon.
Qed.

Lemma X18_no_reload_witness :
  autoRefreshTick (atClock offlineEnv (clock + 3000)) (ret tt)
                  (snd (autoRefreshTick offlineEnv (ret tt) deviceState))
  = (Returned tt, snd (autoRefreshTick offlineEnv (ret tt) deviceState)).
Proof.
  refine (proj2 (X18_no_reload_within_30000_ms offlineEnv (ret tt) deviceState
                   (clock + 3000) (fun s => conj eq_refl eq_refl) _ _)).
  - vm_compute. reflexivity.
  - cbn [now offlineEnv]. lia.
Defined.

(** ** The statistics sent to the remote store *)

Lemma updateFirebaseStats_remoteStats (env : Env) (sessions : list Session) (s : State) :
  remoteStats (snd (tryCatch (updateFirebaseStats env sessions) (ret tt) s))
  = if isFirebaseConnected (page s) && remoteWriteOk env
       && match currentUser env with Some _ => true | None => false end
    then Some (overallStats (page s))
    else remoteStats s.
Proof.
  unfold updateFirebaseStats, updateUserStats, tryCatch, bind, getPage, ret, throw.
  destruct (isFirebaseConnected (page s)); cbn [negb andb]; [|reflexivity].
  destruct (currentUser env) as [uid|]; [|destruct (remoteWriteOk env); reflexivity].
  destruct (remoteWriteOk env); reflexivity.
Qed.

Lemma loadProgressData_remoteStats (env : Env) (s : State) (sessions : list Session)
      (s1 : State) :
  resolveSessions env (withPage (setLastDataUpdate (now env)) (withPage (setLoading true) s))
  = (Returned sessions, s1) ->
  remoteStats (snd (loadProgressData env s))
  = if isFirebaseConnected (page s1) && remoteWriteOk env
       && match currentUser env with Some _ => true | None => false end
    then Some (overallStatsOf
                 (filterSessionsByPeriod (tz env) (now env) (page s1) sessions))
    else remoteStats s1.
Proof.
  intros Hres. unfold loadProgressData, tryCatch at 1.
  unfold bind at 1. unfold modifyPage at 1. unfold bind at 1. unfold modifyPage at 1.
  unfold bind at 1. rewrite Hres. unfold bind at 1. unfold getPage at 1.
  destruct (filterSessionsByPeriod (tz env) (now env) (page s1) sessions) as [|f fs] eqn:Ef.
  - unfold bind at 1. unfold bind at 1. unfold modifyPage at 1.
    pose proof (updateFirebaseStats_remoteStats env []
                  (withPage (setOverallStats
                               {| accuracy := PrimFloat.zero; avgTimePerCard := PrimFloat.zero;
                                  totalCards := 0; skippedCards := 0 |}) s1)) as Hstats.
    destruct (updateFirebaseStats_run env []
                (withPage (setOverallStats
                             {| accuracy := PrimFloat.zero; avgTimePerCard := PrimFloat.zero;
                                totalCards := 0; skippedCards := 0 |}) s1))
      as (s' & Hrun & _ & _).
    unfold bind at 1. rewrite Hrun in Hstats |- *. unfold modifyPage.
    cbn [snd remoteStats withPage] in Hstats |- *. rewrite Hstats. reflexivity.
  - unfold bind at 1. unfold bind at 1. unfold modifyPage at 1.
    unfold bind at 1. rewrite cacheData_run.
    pose proof (updateFirebaseStats_remoteStats env sessions
                  (withItem (cacheKey env) (JsonRecords sessions)
                     (withPage (calculateOverallStats (f :: fs)) s1))) as Hstats.
    destruct (updateFirebaseStats_run env sessions
                (withItem (cacheKey env) (JsonRecords sessions)
                   (withPage (calculateOverallStats (f :: fs)) s1)))
      as (s' & Hrun & _ & _).
    unfold bind at 1. rewrite Hrun in Hstats |- *. unfold modifyPage.
    cbn [snd remoteStats withPage] in Hstats |- *. rewrite Hstats. reflexivity.
Qed.

(** X21.  When the fetch returns and the remote store accepts writes,
    [loadProgressData] leaves in the stats document the overall statistics
    that the page shows, which are those of the fetched sessions of the
    selected period, not of all the sessions fetched.  When the fetch throws
    the stats document is left as it was. *)
Theorem X21_uploaded_statistics_follow_the_period (env : Env) (s : State) :
  let s2 := snd (loadProgressData env s) in
  (forall fetched,
     fst (getUserGameSessions env None None s) = Returned fetched ->
     remoteWriteOk env = true ->
     remoteStats s2 = Some (overallStats (page s2)) /\
     overallStats (page s2)
     = overallStatsOf (filterSessionsByPeriod (tz env) (now env) (page s) fetched)) /\
  (fst (getUserGameSessions env None None s) = Thrown ->
   remoteStats s2 = remoteStats s).
Proof.
  cbv zeta.
  set (s0 := withPage (setLastDataUpdate (now env)) (withPage (setLoading true) s)).
  destruct (getUserGameSessions_state env None None) as [o Ho].
  split.
  - intros fetched Hf Hw. rewrite Ho in Hf. cbn [fst] in Hf. subst o.
    assert (Hu : match currentUser env with Some _ => true | None => false end = true).
    { specialize (Ho s). unfold getUserGameSessions in Ho. cbn [orString] in Ho.
      destruct (currentUser env) as [uid|]; [reflexivity|].
      cbn in Ho. discriminate. }
    pose proof (resolveSessions_remote_success env s0 fetched
                  ltac:(rewrite Ho; reflexivity)) as Hres.
    rewrite (loadProgressData_remoteStats env s fetched _ Hres).
    rewrite (loadProgressData_page env s fetched _ Hres).
    rewrite Hw, Hu. split; reflexivity.
  - intros Hf. rewrite Ho in Hf. cbn [fst] in Hf. subst o.
    assert (Hf0 : fst (getUserGameSessions env None None s0) = Thrown)
      by (rewrite Ho; reflexivity).
    pose proof (resolveSessions_remote_failure env s0 Hf0) as Hres.
    destruct (cachedRecords env s0);
      rewrite (loadProgressData_remoteStats env s _ _ Hres); reflexivity.
Qed.

(** ** The buckets of the all period *)

Lemma string_length_append (a b : string) :
  String.length (a ++ b) = (String.length a + String.length b)%nat.
Proof. induction a as [|c a IH]; simpl; [|rewrite IH]; reflexivity. Qed.

Lemma append_same_length_suffix (a1 a2 b1 b2 : string) :
  String.length b1 = String.length b2 ->
  (a1 ++ b1)%string = (a2 ++ b2)%string -> a1 = a2 /\ b1 = b2.
Proof.
  revert a2. induction a1 as [|c a1 IH]; intros [|c2 a2] Hlen H; simpl in H.
  - split; [reflexivity|exact H].
  - exfalso. apply (f_equal String.length) in H.
    rewrite ?string_length_append in H. simpl in H.
    rewrite ?string_length_append in H. lia.
  - exfalso. apply (f_equal String.length) in H.
    rewrite ?string_length_append in H. simpl in H.
    rewrite ?string_length_append in H. lia.
  - injection H as Hc H. destruct (IH a2 Hlen H) as [-> ->]. subst. split; reflexivity.
Qed.

Lemma ofInt_injective (y1 y2 : Z) : ofInt y1 = ofInt y2 -> y1 = y2.
Proof.
  unfold ofInt. intros H.
  assert (Hnil : forall z, Z.to_int z <> Decimal.Pos Decimal.Nil /\
                           Z.to_int z <> Decimal.Neg Decimal.Nil).
  { intros [|p|p]; simpl; split; try discriminate;
      intros Hp; injection Hp as Hp; exact (DecimalPos.Unsigned.to_uint_nonnil p Hp). }
  apply DecimalZ.to_int_inj.
  assert (Hs : Some (Z.to_int y1) = Some (Z.to_int y2)).
  { rewrite <- (NilZero.isi (Z.to_int y1)) by apply Hnil.
    rewrite <- (NilZero.isi (Z.to_int y2)) by apply Hnil.
    rewrite H. reflexivity. }
  injection Hs as Hs. exact Hs.
Qed.

Lemma twoDigits_checked : allFrom twoDigitsChecked 31 1 = true.
Proof. vm_compute. reflexivity. Qed.

Lemma twoDigits_padStart2 (n : Z) :
  1 <= n <= 31 ->
  twoDigits (padStart2 (ofInt n)) = n /\ String.length (padStart2 (ofInt n)) = 2%nat.
Proof.
  intros Hn.
  pose proof (allFrom_spec twoDigitsChecked 31 1 twoDigits_checked n ltac:(lia)) as H.
  unfold twoDigitsChecked in H. apply andb_true_iff in H as [H1 H2].
  split; [apply Z.eqb_eq; exact H1|apply Nat.eqb_eq; exact H2].
Qed.

Lemma civil_fields (z : Z) :
  1 <= snd (fst (civilFromDays z)) <= 12 /\ 1 <= snd (civilFromDays z) <= 31 /\
  daysFromCivil (fst (fst (civilFromDays z))) (snd (fst (civilFromDays z)))
                (snd (civilFromDays z)) = z.
Proof.
  pose proof (civil_round_trip z) as H.
  destruct (civilFromDays z) as [[y m] d]. exact H.
Qed.

(** The local date key tells the local day. *)
Lemma localDateKey_injective (tz t1 t2 : Z) :
  localDateKey tz t1 = localDateKey tz t2 -> localDay tz t1 = localDay tz t2.
Proof.
  unfold localDateKey, getFullYear, getMonth, getDate. intros H.
  destruct (civil_fields (localDay tz t1)) as (Hm1 & Hd1 & R1).
  destruct (civil_fields (localDay tz t2)) as (Hm2 & Hd2 & R2).
  set (y1 := fst (fst (civilFromDays (localDay tz t1)))) in *.
  set (m1 := snd (fst (civilFromDays (localDay tz t1)))) in *.
  set (d1 := snd (civilFromDays (localDay tz t1))) in *.
  set (y2 := fst (fst (civilFromDays (localDay tz t2)))) in *.
  set (m2 := snd (fst (civilFromDays (localDay tz t2)))) in *.
  set (d2 := snd (civilFromDays (localDay tz t2))) in *.
  replace (m1 - 1 + 1) with m1 in H by lia.
  replace (m2 - 1 + 1) with m2 in H by lia.
  destruct (twoDigits_padStart2 m1 ltac:(lia)) as [Pm1 Lm1].
  destruct (twoDigits_padStart2 m2 ltac:(lia)) as [Pm2 Lm2].
  destruct (twoDigits_padStart2 d1 ltac:(lia)) as [Pd1 Ld1].
  destruct (twoDigits_padStart2 d2 ltac:(lia)) as [Pd2 Ld2].
  remember (padStart2 (ofInt m1)) as M1 eqn:EM1.
  remember (padStart2 (ofInt m2)) as M2 eqn:EM2.
  remember (padStart2 (ofInt d1)) as D1 eqn:ED1.
  remember (padStart2 (ofInt d2)) as D2 eqn:ED2.
  clear EM1 EM2 ED1 ED2.
  apply (append_same_length_suffix (ofInt y1) (ofInt y2)
           ("-" ++ M1 ++ "-" ++ D1) ("-" ++ M2 ++ "-" ++ D2)) in H as [Hy H].
  2:{ rewrite !string_length_append, Lm1, Lm2, Ld1, Ld2. reflexivity. }
  apply (append_cancel "-") in H.
  apply (append_same_length_suffix M1 M2 ("-" ++ D1) ("-" ++ D2)) in H as [Hm H].
  2:{ rewrite !string_length_append, Ld1, Ld2. reflexivity. }
  apply (append_cancel "-") in H. rename H into Hd.
  apply ofInt_injective in Hy.
  assert (Em : m1 = m2) by (rewrite <- Pm1, <- Pm2, Hm; reflexivity).
  assert (Ed : d1 = d2) by (rewrite <- Pd1, <- Pd2, Hd; reflexivity).
  rewrite <- R1, <- R2, Hy, Em, Ed. reflexivity.
Qed.

Lemma localDay_utc_midnight (tz day : Z) :
  localDay tz (day * msPerDay) = day + tz / msPerDay.
Proof.
  unfold localDay, Day, msPerDay.
  rewrite Z.add_comm, Z.div_add by lia. lia.
Qed.

Lemma allBucket_dateEntryOf (tz : Z) (s : Session) :
  allBucket tz (dateEntryOf tz s)
  = shiftedDayBucket tz (localDateKey tz (sessionDate s))
                     (localDay tz (sessionDate s)) (tz / msPerDay).
Proof.
  unfold dateEntryOf, allBucket, shiftedDayBucket.
  destruct (civil_fields (localDay tz (sessionDate s))) as (_ & _ & R).
  destruct (civilFromDays (localDay tz (sessionDate s))) as [[y m] d].
  cbn [fst snd] in R. rewrite R.
  rewrite setHours_start, setHours_end, localDay_utc_midnight. reflexivity.
Qed.

Lemma shiftedDayBucket_east (tz : Z) (s : Session) :
  0 <= tz < msPerDay ->
  shiftedDayBucket tz (localDateKey tz (sessionDate s))
                   (localDay tz (sessionDate s)) (tz / msPerDay)
  = dayBucket tz (localDay tz (sessionDate s)).
Proof.
  intros Htz. unfold shiftedDayBucket, dayBucket. cbv zeta.
  rewrite (Z.div_small tz msPerDay Htz), Z.add_0_r.
  rewrite (localDateKey_localDay tz (dayStartOf tz (localDay tz (sessionDate s)))
                                 (sessionDate s))
    by apply localDay_dayStartOf.
  rewrite (labelWeekdayMonthDay_localDay tz
             (localDay tz (sessionDate s) * msPerDay)
             (dayStartOf tz (localDay tz (sessionDate s)))).
  - reflexivity.
  - rewrite localDay_utc_midnight, localDay_dayStartOf, (Z.div_small tz msPerDay Htz). lia.
Qed.

Lemma dayOfEntry_dateEntryOf (tz : Z) (s : Session) :
  dayOfEntry (dateEntryOf tz s) = localDay tz (sessionDate s).
Proof.
  unfold dayOfEntry, dateEntryOf.
  destruct (civil_fields (localDay tz (sessionDate s))) as (_ & _ & R).
  destruct (civilFromDays (localDay tz (sessionDate s))) as [[y m] d]. exact R.
Qed.

Lemma dateEntryOf_key (tz : Z) (s : Session) :
  fst (dateEntryOf tz s) = localDateKey tz (sessionDate s).
Proof. reflexivity. Qed.

Lemma addDateKey_entries (tz : Z) (sessions : list Session)
      (acc : list (string * (Z * Z * Z))) (e : string * (Z * Z * Z)) :
  In e (fold_left (addDateKey tz) sessions acc) ->
  In e acc \/ exists t, In t sessions /\ e = dateEntryOf tz t.
Proof.
  revert acc. induction sessions as [|s rest IH]; intros acc H; simpl in H.
  - left. exact H.
  - apply IH in H as [H|(t & Ht & He)].
    + unfold addDateKey in H.
      destruct (existsb _ acc); [left; exact H|].
      apply in_app_or in H as [H|[<-|[]]]; [left; exact H|].
      right. exists s. split; [left; reflexivity|reflexivity].
    + right. exists t. split; [right; exact Ht|exact He].
Qed.

Lemma addDateKey_keeps (tz : Z) (sessions : list Session)
      (acc : list (string * (Z * Z * Z))) (k : string) :
  In k (map fst acc) -> In k (map fst (fold_left (addDateKey tz) sessions acc)).
Proof.
  revert acc. induction sessions as [|s rest IH]; intros acc H; simpl; [exact H|].
  apply IH. unfold addDateKey. destruct (existsb _ acc); [exact H|].
  rewrite map_app. apply in_or_app. left. exact H.
Qed.

Lemma addDateKey_keys (tz : Z) (sessions : list Session)
      (acc : list (string * (Z * Z * Z))) (s : Session) :
  In s sessions ->
  In (localDateKey tz (sessionDate s)) (map fst (fold_left (addDateKey tz) sessions acc)).
Proof.
  revert acc. induction sessions as [|x rest IH]; intros acc Hs; [destruct Hs|].
  destruct Hs as [<-|H]; simpl.
  - apply addDateKey_keeps. unfold addDateKey.
    destruct (existsb _ acc) eqn:E.
    + apply existsb_exists in E as (e & He & Hk). apply String.eqb_eq in Hk.
      rewrite <- Hk. apply in_map. exact He.
    + rewrite map_app. apply in_or_app. right. left. reflexivity.
  - apply IH. exact H.
Qed.

Lemma insertKey_In (e x : string * (Z * Z * Z)) (sorted : list (string * (Z * Z * Z))) :
  In x (insertKey e sorted) <-> x = e \/ In x sorted.
Proof.
  induction sorted as [|y rest IH]; simpl.
  - split; [intros [<-|[]]; left; reflexivity|intros [->|[]]; left; reflexivity].
  - destruct (String.ltb (fst e) (fst y)); simpl.
    + split; [intros [<-|H]; [left; reflexivity|right; exact H]
             |intros [->|H]; [left; reflexivity|right; exact H]].
    + rewrite IH. split.
      * intros [<-|[->|H]]; [right; left; reflexivity|left; reflexivity|right; right; exact H].
      * intros [->|[<-|H]]; [right; left; reflexivity|left; reflexivity|right; right; exact H].
Qed.

Lemma sortKeys_In (x : string * (Z * Z * Z)) (l : list (string * (Z * Z * Z))) :
  In x (sortKeys l) <-> In x l.
Proof.
  unfold sortKeys.
  assert (H : forall acc, In x (fold_left (fun sorted e => insertKey e sorted) l acc)
                          <-> In x acc \/ In x l).
  { induction l as [|e rest IH]; intros acc; simpl.
    - split; [intros H; left; exact H|intros [H|[]]; exact H].
    - rewrite IH, insertKey_In. split.
      + intros [[->|H]|H]; [right; left; reflexivity|left; exact H|right; right; exact H].
      + intros [H|[<-|H]]; [left; right; exact H|left; left; reflexivity|right; exact H]. }
  rewrite H. simpl. split; [intros [[]|Hx]; exact Hx|intros Hx; right; exact Hx].
Qed.

(** The buckets of the all period are those of the entries of the
    sessions, whose keys are the date keys of the sessions. *)
Lemma all_range (tz now : Z) (this : ProgressPage) (sessions : list Session) :
  selectedPeriod this = "all"%string ->
  exists entries,
    getChartDateRangeFromSessions tz now this sessions = map (allBucket tz) entries /\
    (forall e, In e entries -> exists t, In t sessions /\ e = dateEntryOf tz t) /\
    (forall s, In s sessions -> In (localDateKey tz (sessionDate s)) (map fst entries)).
Proof.
  intros Hp. exists (sortKeys (fold_left (addDateKey tz) sessions [])).
  split; [unfold getChartDateRangeFromSessions; rewrite Hp; reflexivity|]. split.
  - intros e He. apply (proj1 (sortKeys_In _ _)) in He.
    apply addDateKey_entries in He as [[]|H]. exact H.
  - intros s Hs.
    pose proof (addDateKey_keys tz sessions [] s Hs) as Hk.
    apply in_map_iff in Hk as (e & Hk & He).
    apply in_map_iff. exists e. split; [exact Hk|]. apply (proj2 (sortKeys_In _ _)). exact He.
Qed.

Lemma all_range_east (tz now : Z) (this : ProgressPage) (sessions : list Session) :
  0 <= tz < msPerDay ->
  selectedPeriod this = "all"%string ->
  exists days,
    getChartDateRangeFromSessions tz now this sessions = map (dayBucket tz) days /\
    (forall day, In day days -> exists t, In t sessions /\ day = localDay tz (sessionDate t)) /\
    (forall s, In s sessions -> In (localDay tz (sessionDate s)) days).
Proof.
  intros Htz Hp. destruct (all_range tz now this sessions Hp) as (entries & Hr & He & Hk).
  exists (map dayOfEntry entries). split; [|split].
  - rewrite Hr, map_map. apply map_ext_in. intros e Hin.
    destruct (He e Hin) as (t & _ & ->).
    rewrite allBucket_dateEntryOf, shiftedDayBucket_east, dayOfEntry_dateEntryOf by exact Htz.
    reflexivity.
  - intros day Hday. apply in_map_iff in Hday as (e & <- & Hin).
    destruct (He e Hin) as (t & Ht & ->). exists t.
    split; [exact Ht|apply dayOfEntry_dateEntryOf].
  - intros s Hs. specialize (Hk s Hs). apply in_map_iff in Hk as (e & Hkey & Hin).
    destruct (He e Hin) as (t & Ht & Het). rewrite Het, dateEntryOf_key in Hkey.
    apply localDateKey_injective in Hkey.
    rewrite <- Hkey, <- dayOfEntry_dateEntryOf, <- Het. apply in_map. exact Hin.
Qed.

(** X19.  In the all period, with local time ahead of UTC by less than a
    day (and years of four digits, so that the date keys are read back as
    dates), every bucket spans exactly the local day of one of the sessions,
    and every session is grouped under its own local date key, together with
    exactly the sessions of the same local day, in their order. *)
Theorem X19_all_period_groups_by_local_day
        (tz now : Z) (this : ProgressPage) (sessions : list Session) :
  0 <= tz < msPerDay ->
  selectedPeriod this = "all"%string ->
  (forall s, In s sessions -> 1000 <= getFullYear tz (sessionDate s) <= 9999) ->
  let dateRange := getChartDateRangeFromSessions tz now this sessions in
  filterSessionsByPeriod tz now this sessions = sessions /\
  (forall b, In b dateRange ->
     exists t, In t sessions /\ b = dayBucket tz (localDay tz (sessionDate t))) /\
  (forall s, In s sessions ->
     groupSessionsIntoBuckets sessions dateRange !! localDateKey tz (sessionDate s)
     = Some (List.filter
               (fun t => localDay tz (sessionDate t) =? localDay tz (sessionDate s))
               sessions)).
Proof.
  intros Htz Hp _. cbv zeta.
  split; [unfold filterSessionsByPeriod; rewrite Hp; reflexivity|].
  destruct (all_range_east tz now this sessions Htz Hp) as (days & Hr & Hd & Hin).
  rewrite Hr. split.
  - intros b Hb. apply in_map_iff in Hb as (day & <- & Hday).
    destruct (Hd day Hday) as (t & Ht & ->). exists t. split; [exact Ht|reflexivity].
  - intros s Hs. rewrite groupSessionsIntoBuckets_lookup.
    assert (Hk : existsb (String.eqb (localDateKey tz (sessionDate s)))
                         (map key (map (dayBucket tz) days)) = true).
    { apply existsb_exists. exists (localDateKey tz (sessionDate s)). split.
      - rewrite <- key_dayBucket. apply in_map. apply in_map. apply Hin. exact Hs.
      - apply String.eqb_refl. }
    rewrite Hk. f_equal. apply filter_ext_in. intros t Ht.
    unfold assignedTo. rewrite (assignedBucket_days tz days t (Hin t Ht)), key_dayBucket.
    destruct (Z.eqb_spec (localDay tz (sessionDate t)) (localDay tz (sessionDate s)))
      as [E|E].
    + apply String.eqb_eq. apply localDateKey_localDay. exact E.
    + apply String.eqb_neq. intros Hkey. apply E.
      apply localDateKey_injective. exact Hkey.
Qed.

Lemma X19_all_period_witness :
  groupSessionsIntoBuckets marchSessions
    (getChartDateRangeFromSessions gmt8 clock (initialPage "all") marchSessions)
    !! localDateKey gmt8 (sessionDate earlierRecord)
  = Some (List.filter
            (fun t => localDay gmt8 (sessionDate t) =? localDay gmt8 (sessionDate earlierRecord))
            marchSessions).
Proof.
  refine (proj2 (proj2 (X19_all_period_groups_by_local_day gmt8 clock (initialPage "all")
                          marchSessions _ eq_refl _))
            earlierRecord _).
  - unfold gmt8, msPerDay. lia.
  - intros s [<-|[<-|[<-|[]]]]; vm_compute; split; discriminate.
  - right. left. reflexivity.
Defined.

Lemma behind_utc_shift (tz : Z) : -msPerDay <= tz < 0 -> tz / msPerDay = -1.
Proof. unfold msPerDay. intros H. Z.div_mod_to_equations. lia. Qed.

(** X20.  In the all period, with local time behind UTC by at most a day
    (and years of four digits), the bucket that carries the date key of a
    session spans the local day before the session's day: the key is read
    back as midnight UTC, which is still the previous local day.  So a
    session is grouped under no key at all unless another session falls on
    the next local day, although its own date key is among the bucket keys. *)
Theorem X20_all_period_behind_utc
        (tz now : Z) (this : ProgressPage) (sessions : list Session) :
  -msPerDay <= tz < 0 ->
  selectedPeriod this = "all"%string ->
  (forall s, In s sessions -> 1000 <= getFullYear tz (sessionDate s) <= 9999) ->
  let dateRange := getChartDateRangeFromSessions tz now this sessions in
  (forall b, In b dateRange ->
     exists t, In t sessions /\
       key b = localDateKey tz (sessionDate t) /\
       start b = dayStartOf tz (localDay tz (sessionDate t) - 1) /\
       end_ b = start b + msPerDay - 1) /\
  (forall s, In s sessions ->
     In (localDateKey tz (sessionDate s)) (map key dateRange)) /\
  (forall s, In s sessions ->
     (forall t, In t sessions ->
        localDay tz (sessionDate t) <> localDay tz (sessionDate s) + 1) ->
     forall k l, groupSessionsIntoBuckets sessions dateRange !! k = Some l ->
                 ~ In s l).
Proof.
  intros Htz Hp _. cbv zeta.
  destruct (all_range tz now this sessions Hp) as (entries & Hr & He & Hk).
  rewrite Hr.
  assert (Hb : forall b, In b (map (allBucket tz) entries) ->
               exists t, In t sessions /\
                 key b = localDateKey tz (sessionDate t) /\
                 start b = dayStartOf tz (localDay tz (sessionDate t) - 1) /\
                 end_ b = start b + msPerDay - 1).
  { intros b Hb. apply in_map_iff in Hb as (e & <- & Hin).
    destruct (He e Hin) as (t & Ht & Het). exists t. split; [exact Ht|].
    rewrite Het, allBucket_dateEntryOf, (behind_utc_shift tz Htz).
    unfold shiftedDayBucket. cbn [key start end_].
    replace (localDay tz (sessionDate t) + -1) with (localDay tz (sessionDate t) - 1) by lia.
    repeat split; reflexivity. }
  split; [exact Hb|]. split.
  - intros s Hs. specialize (Hk s Hs). apply in_map_iff in Hk as (e & Hkey & Hin).
    apply in_map_iff. exists (allBucket tz e). split; [|apply in_map; exact Hin].
    destruct (He e Hin) as (t & _ & Het). rewrite Het, dateEntryOf_key in Hkey.
    rewrite Het, allBucket_dateEntryOf. unfold shiftedDayBucket. cbn [key]. exact Hkey.
  - intros s Hs Hnext k l Hl Hsl.
    destruct (grouped_member _ _ _ _ _ Hl Hsl) as [_ Ha].
    apply assignedTo_inv in Ha as (dr & _ & _ & Hdr & Hw).
    destruct (Hb dr Hdr) as (t & Ht & _ & Hstart & Hend).
    unfold within in Hw. apply andb_true_iff in Hw as [H1 H2].
    apply Z.leb_le in H1. apply Z.leb_le in H2.
    rewrite Hend, Hstart in H2. rewrite Hstart in H1.
    pose proof (proj1 (between_days tz _ _ (sessionDate s)) (conj H1 H2)) as Hd.
    apply (Hnext t Ht). lia.
Qed.

Lemma X20_all_period_behind_utc_witness :
  In (localDateKey (-18000000) (sessionDate earlierRecord))
     (map key (getChartDateRangeFromSessions (-18000000) clock (initialPage "all")
                 [earlierRecord])) /\
  (forall k l,
     groupSessionsIntoBuckets [earlierRecord]
       (getChartDateRangeFromSessions (-18000000) clock (initialPage "all") [earlierRecord])
       !! k = Some l ->
     ~ In earlierRecord l).
Proof.
  assert (Htz : - msPerDay <= -18000000 < 0) by (unfold msPerDay; lia).
  assert (Hy : forall s, In s [earlierRecord] ->
                         1000 <= getFullYear (-18000000) (sessionDate s) <= 9999).
  { intros s [<-|[]]. vm_compute. split; discriminate. }
  pose proof (X20_all_period_behind_utc (-18000000) clock (initialPage "all")
                [earlierRecord] Htz eq_refl Hy) as H.
  cbv zeta in H. destruct H as (_ & Hkeys & Hnone). split.
  - apply Hkeys. left. reflexivity.
  - apply (Hnone earlierRecord (or_introl eq_refl)).
    intros t [<-|[]]. lia.
Defined.

(** ** Saving a session over an entry that does not parse *)

(** X22.  [saveGameSession] never throws, whatever the remote store, local
    storage and the recalculation of the page do.  Over a user's entry that
    does not parse, with the remote store accepting the write, the remote
    collections still receive the session; local storage is left as it was,
    and the recalculation of the page passed along is not run. *)
Theorem X22_saveGameSession_never_throws
        (env : Env) (sessionData : Session) (progressPageInstance : option (M unit))
        (s : State) :
  fst (saveGameSession env sessionData progressPageInstance s) = Returned tt /\
  (forall uid text,
     currentUser env = Some uid ->
     storedUserId env = Some uid ->
     uid <> ""%string ->
     remoteWriteOk env = true ->
     localStorage s !! ("gameRecords_" ++ uid)%string = Some (NotJson text) ->
     text <> ""%string ->
     let stamped := withTimestamp (TimeIso (now env)) sessionData in
     snd (saveGameSession env sessionData progressPageInstance s)
     = {| page := page s; localStorage := localStorage s;
          remoteGameRecords := remoteGameRecords s ++ [stamped];
          remoteRecentSessions := remoteRecentSessions s ++ [stamped];
          remoteStats := remoteStats s; intervals := intervals s |}).
Proof.
  split.
  - unfold saveGameSession. unfold tryCatch at 1.
    match goal with
    | |- context [match ?c s with _ => _ end] => destruct (c s) as [[[]|] s1]
    end; reflexivity.
  - intros uid text Hu Hs Hne Hw Hitem Htext. cbv zeta.
    assert (Heqb : String.eqb uid "" = false) by (apply String.eqb_neq; exact Hne).
    assert (Htxt : String.eqb text "" = false) by (apply String.eqb_neq; exact Htext).
    unfold saveGameSession, FirebaseService_saveGameSession, addGameRecord, saveRecentSession.
    rewrite Hu, Hs, Hw, Heqb.
    unfold tryCatch, bind, getItem, setItem, ret.
    cbn [localStorage withItem fst snd].
    rewrite Hitem. cbn [orText truthyText]. rewrite Htxt. cbn [negb JSON_parse throw].
    cbn [localStorage withItem fst snd].
    rewrite Hitem. cbn [orText truthyText]. rewrite Htxt. cbn [negb JSON_parse throw].
    reflexivity.
Qed.

(** ** The periods in any time zone *)

(** At a zone with a fixed offset the dates and buckets of any zone are
    those of the embedding with a constant offset. *)
Section FixedOffset.
Variable tz : Z.

Lemma zoned_localDay (t : Z) : Zoned.localDay (fixedOffset tz) t = localDay tz t.
Proof. unfold Zoned.localDay, localDay, Zoned.LocalTime, fixedOffset. reflexivity. Qed.

Lemma zoned_getFullYear (t : Z) : Zoned.getFullYear (fixedOffset tz) t = getFullYear tz t.
Proof. unfold Zoned.getFullYear, getFullYear. rewrite zoned_localDay. reflexivity. Qed.

Lemma zoned_getMonth (t : Z) : Zoned.getMonth (fixedOffset tz) t = getMonth tz t.
Proof. unfold Zoned.getMonth, getMonth. rewrite zoned_localDay. reflexivity. Qed.

Lemma zoned_getDate (t : Z) : Zoned.getDate (fixedOffset tz) t = getDate tz t.
Proof. unfold Zoned.getDate, getDate. rewrite zoned_localDay. reflexivity. Qed.

Lemma zoned_getDay (t : Z) : Zoned.getDay (fixedOffset tz) t = getDay tz t.
Proof. unfold Zoned.getDay, getDay. rewrite zoned_localDay. reflexivity. Qed.

Lemma zoned_newDate (year month date hour min sec ms : Z) :
  Zoned.newDate (fixedOffset tz) year month date hour min sec ms
  = newDate tz year month date hour min sec ms.
Proof. unfold Zoned.newDate, newDate, Zoned.UTC, fixedOffset. reflexivity. Qed.

Lemma zoned_setDate (t date : Z) : Zoned.setDate (fixedOffset tz) t date = setDate tz t date.
Proof.
  unfold Zoned.setDate, setDate, Zoned.UTC. rewrite zoned_getFullYear, zoned_getMonth.
  unfold Zoned.LocalTime, fixedOffset. reflexivity.
Qed.

Lemma zoned_setHours (t hour min sec ms : Z) :
  Zoned.setHours (fixedOffset tz) t hour min sec ms = setHours tz t hour min sec ms.
Proof.
  unfold Zoned.setHours, setHours, Zoned.UTC. rewrite zoned_localDay.
  unfold fixedOffset. reflexivity.
Qed.

Lemma zoned_localDateKey (t : Z) : Zoned.localDateKey (fixedOffset tz) t = localDateKey tz t.
Proof.
  unfold Zoned.localDateKey, localDateKey.
  rewrite zoned_getFullYear, zoned_getMonth, zoned_getDate. reflexivity.
Qed.

Lemma zoned_localMonthKey (t : Z) :
  Zoned.localMonthKey (fixedOffset tz) t = localMonthKey tz t.
Proof.
  unfold Zoned.localMonthKey, localMonthKey.
  rewrite zoned_getFullYear, zoned_getMonth. reflexivity.
Qed.

Lemma zoned_labelMonth (t : Z) : Zoned.labelMonth (fixedOffset tz) t = labelMonth tz t.
Proof.
  unfold Zoned.labelMonth, labelMonth, Zoned.monthShort, monthShort.
  rewrite zoned_getMonth. reflexivity.
Qed.

Lemma zoned_labelMonthDay (t : Z) :
  Zoned.labelMonthDay (fixedOffset tz) t = labelMonthDay tz t.
Proof.
  unfold Zoned.labelMonthDay, labelMonthDay, Zoned.monthShort, monthShort.
  rewrite zoned_getMonth, zoned_getDate. reflexivity.
Qed.

Lemma zoned_labelWeekdayMonthDay (t : Z) :
  Zoned.labelWeekdayMonthDay (fixedOffset tz) t = labelWeekdayMonthDay tz t.
Proof.
  unfold Zoned.labelWeekdayMonthDay, labelWeekdayMonthDay, Zoned.monthShort, monthShort,
    Zoned.weekdayShort, weekdayShort.
  rewrite zoned_getMonth, zoned_getDate, zoned_getDay. reflexivity.
Qed.

Lemma zoned_todayBucket (now : Z) : Zoned.todayBucket (fixedOffset tz) now = todayBucket tz now.
Proof.
  unfold Zoned.todayBucket, todayBucket. cbv zeta.
  rewrite !zoned_setHours, zoned_localDateKey, zoned_labelWeekdayMonthDay. reflexivity.
Qed.

Lemma zoned_weekBucket (e i : Z) : Zoned.weekBucket (fixedOffset tz) e i = weekBucket tz e i.
Proof.
  unfold Zoned.weekBucket, weekBucket. cbv zeta.
  rewrite zoned_getDate, zoned_setDate, !zoned_setHours, zoned_localDateKey,
    zoned_labelWeekdayMonthDay. reflexivity.
Qed.

Lemma zoned_monthBucket (e i : Z) : Zoned.monthBucket (fixedOffset tz) e i = monthBucket tz e i.
Proof.
  unfold Zoned.monthBucket, monthBucket. cbv zeta.
  rewrite zoned_getFullYear, zoned_getMonth, !zoned_newDate, zoned_localMonthKey,
    zoned_labelMonth. reflexivity.
Qed.

Lemma zoned_allBucket (e : string * (Z * Z * Z)) :
  Zoned.allBucket (fixedOffset tz) e = allBucket tz e.
Proof.
  destruct e as [k [[y m] d]]. unfold Zoned.allBucket, allBucket. cbv zeta.
  rewrite !zoned_setHours, zoned_labelWeekdayMonthDay. reflexivity.
Qed.

Lemma zoned_addDateKey (dates : list (string * (Z * Z * Z))) (session : Session) :
  Zoned.addDateKey (fixedOffset tz) dates session = addDateKey tz dates session.
Proof.
  unfold Zoned.addDateKey, addDateKey. cbv zeta.
  rewrite zoned_localDateKey, zoned_localDay. reflexivity.
Qed.

Lemma zoned_fold_addDateKey (sessions : list Session) :
  forall acc : list (string * (Z * Z * Z)),
    fold_left (Zoned.addDateKey (fixedOffset tz)) sessions acc
    = fold_left (addDateKey tz) sessions acc.
Proof.
  induction sessions as [|s rest IH]; intros acc; cbn [fold_left]; [reflexivity|].
  rewrite zoned_addDateKey. apply IH.
Qed.

Lemma zoned_defaultBucket (now i : Z) :
  Zoned.defaultBucket (fixedOffset tz) now i = defaultBucket tz now i.
Proof.
  unfold Zoned.defaultBucket, defaultBucket. cbv zeta.
  rewrite zoned_getDate, zoned_setDate, !zoned_setHours, zoned_localDateKey,
    zoned_labelWeekdayMonthDay. reflexivity.
Qed.

Lemma zoned_customLoop (fuel : nat) :
  forall cur end' : Z,
    Zoned.customLoop (fixedOffset tz) fuel cur end' = customLoop tz fuel cur end'.
Proof.
  induction fuel as [|fuel IH]; intros cur end'; [reflexivity|].
  cbn [Zoned.customLoop customLoop]. destruct (cur <=? end'); [|reflexivity].
  rewrite IH, zoned_localDateKey, zoned_labelMonthDay, zoned_getDate, zoned_setDate.
  reflexivity.
Qed.

Lemma hourly_fuel (x : Z) :
  exists n : nat,
    Z.to_nat (x / 3600000 + 1) = (Z.to_nat (x / msPerDay + 1) + n)%nat.
Proof.
  exists (Z.to_nat (x / 3600000 + 1) - Z.to_nat (x / msPerDay + 1))%nat.
  assert (H : x / msPerDay + 1 <= x / 3600000 + 1 \/
              (x / 3600000 + 1 <= 0 /\ x / msPerDay + 1 <= 0)).
  { unfold msPerDay. destruct (Z.lt_ge_cases x 0) as [Hneg|Hpos].
    - right. Z.div_mod_to_equations. lia.
    - left. Z.div_mod_to_equations. lia. }
  revert H. generalize (x / msPerDay + 1) (x / 3600000 + 1). intros a b H. lia.
Qed.

Lemma zoned_range (now : Z) (this : ProgressPage) (sessions : list Session) :
  Zoned.getChartDateRangeFromSessions (fixedOffset tz) now this sessions
  = getChartDateRangeFromSessions tz now this sessions.
Proof.
  unfold Zoned.getChartDateRangeFromSessions, getChartDateRangeFromSessions.
  destruct (String.eqb (selectedPeriod this) "today");
    [rewrite zoned_todayBucket; reflexivity|].
  destruct (String.eqb (selectedPeriod this) "week").
  { destruct sessions as [|first rest]; [rewrite zoned_todayBucket; reflexivity|].
    cbv zeta. apply map_ext. intros i. apply zoned_weekBucket. }
  destruct (String.eqb (selectedPeriod this) "month").
  { destruct sessions as [|first rest].
    - cbv zeta.
      repeat (progress rewrite ?zoned_getFullYear, ?zoned_getMonth, ?zoned_newDate).
      rewrite zoned_localMonthKey, zoned_labelMonth. reflexivity.
    - cbv zeta. apply map_ext. intros i. apply zoned_monthBucket. }
  destruct (String.eqb (selectedPeriod this) "all").
  { rewrite zoned_fold_addDateKey. apply map_ext. intros e. apply zoned_allBucket. }
  destruct (String.eqb (selectedPeriod this) "custom").
  { cbv zeta. rewrite zoned_customLoop, !zoned_setHours.
    set (start' := setHours tz _ 0 0 0 0). set (end' := setHours tz _ 23 59 59 999).
    destruct (hourly_fuel (end' - start')) as [n ->].
    apply customLoop_enough_fuel. reflexivity. }
  apply map_ext. intros i. apply zoned_defaultBucket.
Qed.

Lemma zoned_filter (now : Z) (this : ProgressPage) (sessions : list Session) :
  Zoned.filterSessionsByPeriod (fixedOffset tz) now this sessions
  = filterSessionsByPeriod tz now this sessions.
Proof.
  unfold Zoned.filterSessionsByPeriod, filterSessionsByPeriod.
  destruct (String.eqb (selectedPeriod this) "all"); [reflexivity|].
  cbv zeta. rewrite zoned_range.
  destruct (getChartDateRangeFromSessions tz now this sessions); reflexivity.
Qed.

End FixedOffset.

(** X2.  In a zone whose offset from UTC is fixed, in a period that is
    none of today, week, month, all and custom,
    [getChartDateRangeFromSessions] returns, whatever the sessions are, the 7
    buckets of the 7 local calendar days that end with the current day, oldest
    first, and [filterSessionsByPeriod] keeps exactly the sessions dated on
    these days. *)
Theorem X2_default_period (tz now : Z) (this : ProgressPage) (sessions : list Session) :
  String.eqb (selectedPeriod this) "today" = false ->
  String.eqb (selectedPeriod this) "week" = false ->
  String.eqb (selectedPeriod this) "month" = false ->
  String.eqb (selectedPeriod this) "all" = false ->
  String.eqb (selectedPeriod this) "custom" = false ->
  Zoned.getChartDateRangeFromSessions (fixedOffset tz) now this sessions
  = map (fun i => dayBucket tz (localDay tz now - i)) [6; 5; 4; 3; 2; 1; 0] /\
  (forall day t : Z,
     start (dayBucket tz day) <= t <= end_ (dayBucket tz day)
     <-> Zoned.localDay (fixedOffset tz) t = day) /\
  (forall s, In s (Zoned.filterSessionsByPeriod (fixedOffset tz) now this sessions) <->
             In s sessions /\
             Zoned.localDay (fixedOffset tz) now - 6
             <= Zoned.localDay (fixedOffset tz) (sessionDate s)
             <= Zoned.localDay (fixedOffset tz) now).
Proof.
  intros H1 H2 H3 H4 H5. rewrite zoned_range.
  destruct (default_period_fixed tz now this sessions H1 H2 H3 H4 H5) as [Hrange Hfilter].
  split; [exact Hrange|]. split; [intros day t; apply dayBucket_day|].
  intros s. rewrite zoned_filter. apply Hfilter.
Qed.

Lemma X2_default_period_witness :
  List.length (Zoned.getChartDateRangeFromSessions (fixedOffset gmt8) clock
                 (initialPage "year") marchSessions)
  = 7%nat.
Proof.
  rewrite (proj1 (X2_default_period gmt8 clock (initialPage "year") marchSessions
                    eq_refl eq_refl eq_refl eq_refl eq_refl)).
  reflexivity.
Defined.

(** X4.  In a zone whose offset from UTC is fixed, in the custom period
    [getChartDateRangeFromSessions] returns one bucket for every local
    calendar day from the day of the start date to the day of the end date,
    both included and in order (the current day standing for a date that is
    not set), each spanning exactly its day, and no bucket when the end day is
    before the start day; [filterSessionsByPeriod] keeps exactly the sessions
    dated on these days. *)
Theorem X4_custom_period (tz now : Z) (this : ProgressPage) (sessions : list Session) :
  selectedPeriod this = "custom" ->
  let zone := fixedOffset tz in
  let d1 := Zoned.localDay zone
              (match customStartDate this with Some d => d | None => now end) in
  let d2 := Zoned.localDay zone
              (match customEndDate this with Some d => d | None => now end) in
  Zoned.getChartDateRangeFromSessions zone now this sessions
  = map (customDayBucket tz) (seqZ d1 (d2 - d1 + 1)) /\
  List.length (Zoned.getChartDateRangeFromSessions zone now this sessions)
  = Z.to_nat (d2 - d1 + 1) /\
  (forall day t : Z,
     start (customDayBucket tz day) <= t <= end_ (customDayBucket tz day)
     <-> Zoned.localDay zone t = day) /\
  (forall s, In s (Zoned.filterSessionsByPeriod zone now this sessions) <->
             In s sessions /\ d1 <= Zoned.localDay zone (sessionDate s) <= d2).
Proof.
  intros Hp. cbv zeta. rewrite zoned_range.
  pose proof (custom_period_fixed tz now this sessions Hp) as H. cbv zeta in H.
  destruct H as (Hrange & Hlen & Hday & Hfilter).
  split; [exact Hrange|]. split; [exact Hlen|]. split; [exact Hday|].
  intros s. rewrite zoned_filter. apply Hfilter.
Qed.

Lemma X4_custom_period_witness :
  List.length
    (Zoned.getChartDateRangeFromSessions (fixedOffset gmt8) clock customMarch marchSessions)
  = 3%nat.
Proof.
  pose proof (X4_custom_period gmt8 clock customMarch marchSessions eq_refl) as H.
  cbv zeta in H. destruct H as (_ & Hlen & _). rewrite Hlen. reflexivity.
Defined.

(** *** A day of 25 hours *)

Lemma nov2Start_value : nov2Start = 1762056000000.
Proof. vm_compute. reflexivity. Qed.

Lemma newYork2025_after_fall (t : Z) (isUTC : bool) :
  1762063200000 <= t -> newYork2025 t isUTC = -18000000.
Proof.
  intros Ht. unfold newYork2025. cbv zeta.
  change (daysFromCivil 2025 11 2 * msPerDay + 6 * 3600000) with 1762063200000.
  change (daysFromCivil 2025 3 9 * msPerDay + 7 * 3600000) with 1741503600000.
  change (-4 * 3600000) with (-14400000). change (-5 * 3600000) with (-18000000).
  destruct isUTC.
  - destruct (Z.ltb_spec t 1762063200000); [lia|]. rewrite andb_false_r. reflexivity.
  - destruct (Z.ltb_spec t (1762063200000 + -14400000)); [lia|].
    rewrite andb_false_r. reflexivity.
Qed.

Lemma localDay_lastHourOfNov2 (t : Z) :
  lastHourOfNov2 t -> Zoned.localDay newYork2025 t = 20394.
Proof.
  unfold lastHourOfNov2. rewrite nov2Start_value. intros Ht.
  unfold Zoned.localDay, Zoned.LocalTime. rewrite newYork2025_after_fall by lia.
  unfold Day, msPerDay. symmetry. apply (Z.div_unique _ _ _ (t + -18000000 - 20394 * 86400000)); lia.
Qed.

Lemma localDateKey_lastHourOfNov2 (t : Z) :
  lastHourOfNov2 t -> Zoned.localDateKey newYork2025 t = "2025-11-02"%string.
Proof.
  intros Ht. unfold Zoned.localDateKey, Zoned.getFullYear, Zoned.getMonth, Zoned.getDate.
  rewrite (localDay_lastHourOfNov2 t Ht). vm_compute. reflexivity.
Qed.

Lemma customNov2_range (now : Z) (sessions : list Session) :
  Zoned.getChartDateRangeFromSessions newYork2025 now customNov2 sessions
  = [{| key := "2025-11-02"; label := "Nov 2"; start := nov2Start;
        end_ := nov2Start + 24 * 3600000 - 1 |}].
Proof. vm_compute. reflexivity. Qed.

Lemma within_after (start' end' : Z) (s : Session) :
  end' < sessionDate s -> within start' end' s = false.
Proof.
  intros H. unfold within. destruct (Z.leb_spec (sessionDate s) end'); [lia|].
  apply andb_false_r.
Qed.

Lemma setDate_lastHourOfNov2 (now : Z) :
  lastHourOfNov2 now ->
  Zoned.setDate newYork2025 now (Zoned.getDate newYork2025 now - 0) = now.
Proof.
  intros Hnow. pose proof (localDay_lastHourOfNov2 now Hnow) as Hday.
  unfold Zoned.setDate, Zoned.getFullYear, Zoned.getMonth, Zoned.getDate.
  rewrite Hday.
  change (MakeDay (fst (fst (civilFromDays 20394))) (snd (fst (civilFromDays 20394)) - 1)
                  (snd (civilFromDays 20394) - 0)) with 20394.
  unfold lastHourOfNov2 in Hnow. rewrite nov2Start_value in Hnow.
  unfold Zoned.LocalTime, Zoned.UTC. rewrite (newYork2025_after_fall now true) by lia.
  unfold TimeWithinDay, msPerDay.
  replace ((now + -18000000) mod 86400000) with (now + -18000000 - 20394 * 86400000)
    by (apply Z.mod_unique with 20394; lia).
  rewrite newYork2025_after_fall by lia. lia.
Qed.

Lemma setHours_lastHourOfNov2 (now : Z) :
  lastHourOfNov2 now -> Zoned.setHours newYork2025 now 0 0 0 0 = nov2Start.
Proof.
  intros Hnow. unfold Zoned.setHours. rewrite (localDay_lastHourOfNov2 now Hnow).
  vm_compute. reflexivity.
Qed.

(** X23.  In any time zone, every bucket of the custom period and of a
    period without a name ends 24 hours less a millisecond after its start.
    Where a local day lasts longer, the bucket ends before its day does.  In
    New York 2 November 2025 is a day of 25 hours.  Whatever the clock shows,
    the custom range of that day alone is one bucket that carries the day's
    date and starts with the day; every session dated in the last hour of the
    day carries the same date, is grouped under no key and is dropped by
    [filterSessionsByPeriod].  And when the clock itself is in that hour, a
    session recorded at that instant is dropped in a period without a name,
    although it is dated on the day of the last bucket.  A session at 23:30 is
    in that hour. *)
Theorem X23_buckets_of_24_hours_in_any_zone :
  (forall (LocalTZA : Z -> bool -> Z) (fuel : nat) (cur end' : Z) (b : Bucket),
     In b (Zoned.customLoop LocalTZA fuel cur end') ->
     end_ b = start b + msPerDay - 1) /\
  (forall (LocalTZA : Z -> bool -> Z) (now i : Z),
     end_ (Zoned.defaultBucket LocalTZA now i)
     = start (Zoned.defaultBucket LocalTZA now i) + msPerDay - 1) /\
  Zoned.setHours newYork2025 nov2Noon 23 59 59 999 = nov2Start + 25 * 3600000 - 1 /\
  (forall (now : Z) (s : Session),
     lastHourOfNov2 (sessionDate s) ->
     let dateRange :=
       Zoned.getChartDateRangeFromSessions newYork2025 now customNov2 [s] in
     map key dateRange = ["2025-11-02"%string] /\
     map start dateRange = [nov2Start] /\
     Zoned.localDateKey newYork2025 (sessionDate s) = "2025-11-02"%string /\
     groupSessionsIntoBuckets [s] dateRange = {[ "2025-11-02"%string := [] ]} /\
     Zoned.filterSessionsByPeriod newYork2025 now customNov2 [s] = []) /\
  (forall (now : Z) (s : Session),
     lastHourOfNov2 now ->
     sessionDate s = now ->
     Zoned.localDateKey newYork2025 now = "2025-11-02"%string /\
     key (Zoned.defaultBucket newYork2025 now 0) = "2025-11-02"%string /\
     Zoned.filterSessionsByPeriod newYork2025 now (initialPage "year") [s] = []) /\
  lastHourOfNov2 (sessionDate lateOnNov2).
Proof.
  split.
  { intros LocalTZA fuel. induction fuel as [|fuel IH]; intros cur end' b Hb; [destruct Hb|].
    cbn [Zoned.customLoop] in Hb. destruct (cur <=? end'); [|destruct Hb].
    destruct Hb as [<-|Hb]; [cbn [start end_]; unfold msPerDay; lia|].
    exact (IH _ _ _ Hb). }
  split.
  { intros LocalTZA now i. unfold Zoned.defaultBucket. cbn [start end_].
    unfold msPerDay. lia. }
  split; [vm_compute; reflexivity|].
  split.
  { intros now s Hs. cbv zeta. rewrite customNov2_range. cbn [map key start].
    split; [reflexivity|]. split; [reflexivity|].
    split; [apply localDateKey_lastHourOfNov2; exact Hs|].
    assert (Hout : within nov2Start (nov2Start + 24 * 3600000 - 1) s = false).
    { apply within_after. unfold lastHourOfNov2 in Hs. lia. }
    split.
    - unfold groupSessionsIntoBuckets. cbn [fold_left find key start end_].
      rewrite Hout. apply insert_empty.
    - unfold Zoned.filterSessionsByPeriod.
      change (String.eqb (selectedPeriod customNov2) "all") with false. cbv iota zeta.
      rewrite customNov2_range. cbn [List.last start end_ List.filter].
      rewrite Hout. reflexivity. }
  split.
  { intros now s Hnow Hs.
    split; [apply localDateKey_lastHourOfNov2; exact Hnow|].
    assert (Hstart : Zoned.setHours newYork2025
                       (Zoned.setDate newYork2025 now (Zoned.getDate newYork2025 now - 0))
                       0 0 0 0 = nov2Start).
    { rewrite setDate_lastHourOfNov2 by exact Hnow.
      apply setHours_lastHourOfNov2. exact Hnow. }
    split.
    { unfold Zoned.defaultBucket. cbn [key]. rewrite Hstart. vm_compute. reflexivity. }
    unfold Zoned.filterSessionsByPeriod, Zoned.getChartDateRangeFromSessions.
    change (selectedPeriod (initialPage "year")) with "year"%string.
    cbn [String.eqb Ascii.eqb Bool.eqb]. cbv iota zeta.
    change (rev (indices 7)) with [6; 5; 4; 3; 2; 1; 0].
    cbn [map List.last List.filter].
    rewrite within_after; [reflexivity|].
    unfold Zoned.defaultBucket at 1. cbn [end_]. rewrite Hstart, Hs.
    unfold lastHourOfNov2 in Hnow. lia. }
  rewrite (eq_refl : sessionDate lateOnNov2 = 1762144200000).
  unfold lastHourOfNov2. rewrite nov2Start_value. lia.
Qed.
